(** * The chat-session hook of the AI resume chatbot (frontend/src/hooks/useChatSession.js)

  A shallow embedding of [useChatSession]: the React state of the hook, its
  refs, the [localStorage] slot it persists to, and the asynchronous
  activations of [handleStart] and [sendMessage], with one transition per
  resumption point ([await]) of the source.

  Around the hook, the components that call it are embedded as far as they
  decide what happens: the forms of ChatInterface.jsx and WelcomeForm.jsx
  (with the Turnstile widget of the latter), the quick questions, the theme
  toggle, the text of a shared chat, and the rendering of the resume modal
  in App.jsx.

  Text is a [string] holding the UTF-8 bytes of the JavaScript string.
  Numbers that the hook computes with ([Date.now()], message ids, HTTP
  status codes) are integers. *)

From Stdlib Require Import ZArith List Bool Lia.
From Stdlib Require Import Strings.String Strings.Ascii Numbers.DecimalString.
From Stdlib Require Import Floats.SpecFloat.
Import ListNotations.

Local Open Scope string_scope.
Local Open Scope Z_scope.

(* ------------------------------------------------------------------ *)
(** ** Strings *)

Module Str.

(** [s.startsWith(p)] *)
Definition startsWith (s p : string) : bool := String.prefix p s.

(** [s.slice(n)] for a non-negative [n]. *)
Fixpoint slice (n : nat) (s : string) : string :=
  match n, s with
  | O, _ => s
  | S _, EmptyString => EmptyString
  | S k, String _ r => slice k r
  end.

(** [s.split(sep)] for a one-character separator: always at least one piece. *)
Fixpoint split (sep : ascii) (s : string) : list string :=
  match s with
  | EmptyString => [EmptyString]
  | String c r =>
      if Ascii.eqb c sep then EmptyString :: split sep r
      else match split sep r with
           | [] => [String c EmptyString]
           | piece :: pieces => String c piece :: pieces
           end
  end.

Definition newline : ascii := "010"%char.

Definition isEmpty (s : string) : bool :=
  match s with EmptyString => true | String _ _ => false end.

(** The one-byte white space and line terminators of ECMAScript:
    TAB, LF, VT, FF, CR, SPACE. *)
Definition ws1 (c : ascii) : bool :=
  let n := nat_of_ascii c in
  ((9 <=? n) && (n <=? 13))%nat || (n =? 32)%nat.

(** U+00A0, encoded C2 A0. *)
Definition ws2 (c1 c2 : ascii) : bool :=
  ((nat_of_ascii c1 =? 194) && (nat_of_ascii c2 =? 160))%nat.

(** U+1680, U+2000..U+200A, U+2028, U+2029, U+202F, U+205F, U+3000 and
    U+FEFF in their three-byte encodings. *)
Definition ws3 (c1 c2 c3 : ascii) : bool :=
  let a := nat_of_ascii c1 in
  let b := nat_of_ascii c2 in
  let c := nat_of_ascii c3 in
  ((a =? 225) && (b =? 154) && (c =? 128)
   || (a =? 226) && (b =? 128)
        && ((128 <=? c) && (c <=? 138) || (c =? 168) || (c =? 169) || (c =? 175))
   || (a =? 226) && (b =? 129) && (c =? 159)
   || (a =? 227) && (b =? 128) && (c =? 128)
   || (a =? 239) && (b =? 187) && (c =? 191))%nat.

(** [s.trimStart()] *)
Fixpoint trimStart (s : string) : string :=
  match s with
  | EmptyString => EmptyString
  | String c1 r1 =>
      if ws1 c1 then trimStart r1
      else match r1 with
           | EmptyString => s
           | String c2 r2 =>
               if ws2 c1 c2 then trimStart r2
               else match r2 with
                    | EmptyString => s
                    | String c3 r3 => if ws3 c1 c2 c3 then trimStart r3 else s
                    end
           end
  end.

(** [s.trimEnd()]: a suffix is dropped when it consists of white space
    only. *)
Fixpoint trimEnd (s : string) : string :=
  match s with
  | EmptyString => EmptyString
  | String c r =>
      if isEmpty (trimStart s) then EmptyString else String c (trimEnd r)
  end.

(** [s.trim()] *)
Definition trim (s : string) : string := trimEnd (trimStart s).

(** [s.toLowerCase()], observed by the hook only through
    [startsWith('http')]: the letters A..Z are mapped to a..z and every
    other byte is kept (no character outside ASCII lowercases to text that
    begins with h, t or p). *)
Definition lowerChar (c : ascii) : ascii :=
  let n := nat_of_ascii c in
  if ((65 <=? n) && (n <=? 90))%nat then ascii_of_nat (n + 32) else c.

Fixpoint toLowerCase (s : string) : string :=
  match s with
  | EmptyString => EmptyString
  | String c r => String (lowerChar c) (toLowerCase r)
  end.

(** [s.includes(sub)] *)
Fixpoint includes (s sub : string) : bool :=
  String.prefix sub s
  || match s with
     | EmptyString => false
     | String _ r => includes r sub
     end.

(** [pieces.join('')] *)
Definition join (pieces : list string) : string :=
  fold_right String.append EmptyString pieces.

(** The encodings of the characters [trim] removes. *)
Definition bytes (l : list nat) : string :=
  string_of_list_ascii (map ascii_of_nat l).

Definition whiteSpace : list string :=
  map bytes
    [ [9]; [10]; [11]; [12]; [13]; [32]; [194; 160]; [225; 154; 128];
      [226; 128; 128]; [226; 128; 129]; [226; 128; 130]; [226; 128; 131];
      [226; 128; 132]; [226; 128; 133]; [226; 128; 134]; [226; 128; 135];
      [226; 128; 136]; [226; 128; 137]; [226; 128; 138]; [226; 128; 168];
      [226; 128; 169]; [226; 128; 175]; [226; 129; 159]; [227; 128; 128];
      [239; 187; 191] ]%nat.

(** A text made of white-space characters only (the empty text included). *)
Inductive WhitespaceOnly : string -> Prop :=
| ws_empty : WhitespaceOnly EmptyString
| ws_more : forall w s,
    In w whiteSpace -> WhitespaceOnly s -> WhitespaceOnly (w ++ s).

(** Decimal rendering of an integer, as a template literal does it. *)
Definition ofZ (z : Z) : string := NilZero.string_of_int (Z.to_int z).

End Str.

(* ------------------------------------------------------------------ *)
(** ** JavaScript values

  The values [JSON.parse] can return, and [undefined].  Numbers are IEEE
  binary64 values. *)

#[local] Unset Elimination Schemes.
Inductive JsVal : Type :=
| JUndefined
| JNull
| JBool (b : bool)
| JNum (x : spec_float)
| JStr (s : string)
| JArr (items : list JsVal)
| JObj (fields : list (string * JsVal)).
#[local] Set Elimination Schemes.

(** What the hook takes from the JavaScript engine without computing it
  itself. *)
Class JsEngine : Type := {
  (** [JSON.parse(text)]; [None] when it throws a SyntaxError. *)
  JSON_parse : string -> option JsVal;
  (** [JSON.stringify(v)] *)
  JSON_stringify : JsVal -> string;
  (** The string conversion of a value that is not a string. *)
  ToString : JsVal -> string;
  (** The message of the TypeError raised by reading the given property of
    [null] or [undefined]. *)
  nullishReadMessage : string -> string
}.

Module Js.

(** Truthiness. *)
Definition truthy (v : JsVal) : bool :=
  match v with
  | JUndefined | JNull => false
  | JBool b => b
  | JNum (S754_zero _) | JNum S754_nan => false
  | JNum _ => true
  | JStr s => negb (Str.isEmpty s)
  | JArr _ | JObj _ => true
  end.

(** [a || b] *)
Definition or (a b : JsVal) : JsVal := if truthy a then a else b.

(** [typeof v === 'object'] *)
Definition isObject (v : JsVal) : bool :=
  match v with
  | JNull | JArr _ | JObj _ => true
  | _ => false
  end.

Fixpoint lookup (key : string) (fields : list (string * JsVal)) : JsVal :=
  match fields with
  | [] => JUndefined
  | (k, v) :: rest => if String.eqb k key then v else lookup key rest
  end.

(** [v.key] for the keys the hook reads ([chunk], [detail], [message],
    [error]), none of which arrays or primitive values define.  [None]
    stands for the TypeError of reading through [null] or [undefined]. *)
Definition prop (v : JsVal) (key : string) : option JsVal :=
  match v with
  | JUndefined | JNull => None
  | JObj fields => Some (lookup key fields)
  | _ => Some JUndefined
  end.

(** String conversion, as [+] with a string operand and [new Error(v)]
    apply it. *)
Definition str `{JsEngine} (v : JsVal) : string :=
  match v with
  | JStr s => s
  | _ => ToString v
  end.

End Js.

(** Error objects, as far as the hook inspects them. *)
Module Err.
Record t : Type := mk { name : string; message : string; status : option Z }.
End Err.

(* ------------------------------------------------------------------ *)
(** ** Data of the hook *)

Inductive Role : Type := user | assistant.

Record Message : Type := mkMessage { id : Z; role : Role; content : string }.

(** The object the save effect writes to [localStorage]. *)
Module Saved.
Record t : Type := mk {
  userName : string;
  company : string;
  jobPosting : string;
  sessionId : string;
  suggestedPrompts : option (list string);
  messages : list Message;
  savedAt : Z
}.
End Saved.

(** The [resumeChatSession] slot of [localStorage]: a saved session, or text
  from which the restore effect reads nothing (it does not parse, or it
  parses to a value without the fields the effect looks at). *)
Inductive Stored : Type :=
| Unreadable
| Session (session : Saved.t).

(** Body of [POST /api/v1/session]. *)
Module SessionBody.
Record t : Type := mk {
  user_name : string;
  company : option string;
  job_posting : option string;
  job_url : option string;
  turnstile_token : option string
}.
End SessionBody.

(** The fields of a successful session response that [handleStart] reads,
  at the types the response schema gives them. *)
Module SessionData.
Record t : Type := mk {
  session_id : string;
  welcome_message : string;
  suggested_prompts : option (list string);
  extraction_error : option string
}.
End SessionData.

(** Body of [POST /api/v1/chat/stream]. *)
Module ChatBody.
Record t : Type := mk {
  query : string;
  session_id : string;
  user_name : string;
  company : option string;
  job_posting : option string
}.
End ChatBody.

(** The calls to [fetch], in the order they were made; a chat request carries
  the abort signal of its controller. *)
Inductive Request : Type :=
| SessionRequest (body : SessionBody.t)
| ChatStreamRequest (body : ChatBody.t) (signal : nat).

(** Where a suspended [sendMessage] waits. *)
Inductive TurnPhase : Type :=
| AwaitFetch
| AwaitErrorBody (status : Z)
| AwaitRead.

(** A suspended activation of [sendMessage]: its local [aiMessageId] and the
  controller it stored in [streamAbortRef]. *)
Record Turn : Type := mkTurn {
  aiMessageId : Z;
  controller : nat;
  turnPhase : TurnPhase
}.

Inductive StartPhase : Type :=
| AwaitSession
| AwaitSessionJson.

(** A suspended activation of [handleStart] with its locals [sid] and
  [welcome]. *)
Record Start : Type := mkStart {
  startKey : nat;
  sid : string;
  welcome : string;
  startPhase : StartPhase
}.

(** The React state and the refs of the hook. *)
Record Hook : Type := mkHook {
  userName : string;
  company : string;
  jobPosting : string;
  sessionId : string;
  hasStarted : bool;
  suggestedPrompts : option (list string);
  messages : list Message;
  isLoading : bool;
  error : option string;
  isLoadingRef : bool;
  streamAbortRef : option nat;
  showResumeModal : bool;
  pendingSession : option Saved.t
}.

(** What surrounds the hook: storage, network, suspended activations, and
  what React remembers of the last render to decide whether the save
  effect runs. *)
Record Env : Type := mkEnv {
  localStorage : option Stored;
  requests : list Request;
  turns : list Turn;
  starts : list Start;
  aborted : list nat;
  fresh : nat;
  arraysReplaced : bool;
  rendered : Hook
}.

Record State : Type := mkState { hook :> Hook; env :> Env }.

Definition initialHook : Hook :=
  {| userName := ""; company := ""; jobPosting := ""; sessionId := "";
     hasStarted := false; suggestedPrompts := None; messages := [];
     isLoading := false; error := None; isLoadingRef := false;
     streamAbortRef := None; showResumeModal := false; pendingSession := None |}.

(* ------------------------------------------------------------------ *)
(** ** Updating the state *)

Definition onHook (f : Hook -> Hook) (s : State) : State :=
  {| hook := f (hook s); env := env s |}.

Definition onEnv (f : Env -> Env) (s : State) : State :=
  {| hook := hook s; env := f (env s) |}.

Definition with_userName (v : string) (h : Hook) : Hook :=
  {| userName := v; company := company h; jobPosting := jobPosting h;
     sessionId := sessionId h; hasStarted := hasStarted h;
     suggestedPrompts := suggestedPrompts h; messages := messages h;
     isLoading := isLoading h; error := error h;
     isLoadingRef := isLoadingRef h; streamAbortRef := streamAbortRef h;
     showResumeModal := showResumeModal h;
     pendingSession := pendingSession h |}.

Definition with_company (v : string) (h : Hook) : Hook :=
  {| userName := userName h; company := v; jobPosting := jobPosting h;
     sessionId := sessionId h; hasStarted := hasStarted h;
     suggestedPrompts := suggestedPrompts h; messages := messages h;
     isLoading := isLoading h; error := error h;
     isLoadingRef := isLoadingRef h; streamAbortRef := streamAbortRef h;
     showResumeModal := showResumeModal h;
     pendingSession := pendingSession h |}.

Definition with_jobPosting (v : string) (h : Hook) : Hook :=
  {| userName := userName h; company := company h; jobPosting := v;
     sessionId := sessionId h; hasStarted := hasStarted h;
     suggestedPrompts := suggestedPrompts h; messages := messages h;
     isLoading := isLoading h; error := error h;
     isLoadingRef := isLoadingRef h; streamAbortRef := streamAbortRef h;
     showResumeModal := showResumeModal h;
     pendingSession := pendingSession h |}.

Definition with_sessionId (v : string) (h : Hook) : Hook :=
  {| userName := userName h; company := company h;
     jobPosting := jobPosting h; sessionId := v; hasStarted := hasStarted h;
     suggestedPrompts := suggestedPrompts h; messages := messages h;
     isLoading := isLoading h; error := error h;
     isLoadingRef := isLoadingRef h; streamAbortRef := streamAbortRef h;
     showResumeModal := showResumeModal h;
     pendingSession := pendingSession h |}.

Definition with_hasStarted (v : bool) (h : Hook) : Hook :=
  {| userName := userName h; company := company h;
     jobPosting := jobPosting h; sessionId := sessionId h; hasStarted := v;
     suggestedPrompts := suggestedPrompts h; messages := messages h;
     isLoading := isLoading h; error := error h;
     isLoadingRef := isLoadingRef h; streamAbortRef := streamAbortRef h;
     showResumeModal := showResumeModal h;
     pendingSession := pendingSession h |}.

Definition with_suggestedPrompts (v : option (list string)) (h : Hook) : Hook :=
  {| userName := userName h; company := company h;
     jobPosting := jobPosting h; sessionId := sessionId h;
     hasStarted := hasStarted h; suggestedPrompts := v;
     messages := messages h; isLoading := isLoading h; error := error h;
     isLoadingRef := isLoadingRef h; streamAbortRef := streamAbortRef h;
     showResumeModal := showResumeModal h;
     pendingSession := pendingSession h |}.

Definition with_messages (v : list Message) (h : Hook) : Hook :=
  {| userName := userName h; company := company h;
     jobPosting := jobPosting h; sessionId := sessionId h;
     hasStarted := hasStarted h; suggestedPrompts := suggestedPrompts h;
     messages := v; isLoading := isLoading h; error := error h;
     isLoadingRef := isLoadingRef h; streamAbortRef := streamAbortRef h;
     showResumeModal := showResumeModal h;
     pendingSession := pendingSession h |}.

Definition with_isLoading (v : bool) (h : Hook) : Hook :=
  {| userName := userName h; company := company h;
     jobPosting := jobPosting h; sessionId := sessionId h;
     hasStarted := hasStarted h; suggestedPrompts := suggestedPrompts h;
     messages := messages h; isLoading := v; error := error h;
     isLoadingRef := isLoadingRef h; streamAbortRef := streamAbortRef h;
     showResumeModal := showResumeModal h;
     pendingSession := pendingSession h |}.

Definition with_error (v : option string) (h : Hook) : Hook :=
  {| userName := userName h; company := company h;
     jobPosting := jobPosting h; sessionId := sessionId h;
     hasStarted := hasStarted h; suggestedPrompts := suggestedPrompts h;
     messages := messages h; isLoading := isLoading h; error := v;
     isLoadingRef := isLoadingRef h; streamAbortRef := streamAbortRef h;
     showResumeModal := showResumeModal h;
     pendingSession := pendingSession h |}.

Definition with_isLoadingRef (v : bool) (h : Hook) : Hook :=
  {| userName := userName h; company := company h;
     jobPosting := jobPosting h; sessionId := sessionId h;
     hasStarted := hasStarted h; suggestedPrompts := suggestedPrompts h;
     messages := messages h; isLoading := isLoading h; error := error h;
     isLoadingRef := v; streamAbortRef := streamAbortRef h;
     showResumeModal := showResumeModal h;
     pendingSession := pendingSession h |}.

Definition with_streamAbortRef (v : option nat) (h : Hook) : Hook :=
  {| userName := userName h; company := company h;
     jobPosting := jobPosting h; sessionId := sessionId h;
     hasStarted := hasStarted h; suggestedPrompts := suggestedPrompts h;
     messages := messages h; isLoading := isLoading h; error := error h;
     isLoadingRef := isLoadingRef h; streamAbortRef := v;
     showResumeModal := showResumeModal h;
     pendingSession := pendingSession h |}.

Definition with_showResumeModal (v : bool) (h : Hook) : Hook :=
  {| userName := userName h; company := company h;
     jobPosting := jobPosting h; sessionId := sessionId h;
     hasStarted := hasStarted h; suggestedPrompts := suggestedPrompts h;
     messages := messages h; isLoading := isLoading h; error := error h;
     isLoadingRef := isLoadingRef h; streamAbortRef := streamAbortRef h;
     showResumeModal := v; pendingSession := pendingSession h |}.

Definition with_pendingSession (v : option Saved.t) (h : Hook) : Hook :=
  {| userName := userName h; company := company h;
     jobPosting := jobPosting h; sessionId := sessionId h;
     hasStarted := hasStarted h; suggestedPrompts := suggestedPrompts h;
     messages := messages h; isLoading := isLoading h; error := error h;
     isLoadingRef := isLoadingRef h; streamAbortRef := streamAbortRef h;
     showResumeModal := showResumeModal h; pendingSession := v |}.

Definition put_localStorage (v : option Stored) (e : Env) : Env :=
  {| localStorage := v; requests := requests e; turns := turns e;
     starts := starts e; aborted := aborted e; fresh := fresh e;
     arraysReplaced := arraysReplaced e; rendered := rendered e |}.

Definition put_requests (v : list Request) (e : Env) : Env :=
  {| localStorage := localStorage e; requests := v; turns := turns e;
     starts := starts e; aborted := aborted e; fresh := fresh e;
     arraysReplaced := arraysReplaced e; rendered := rendered e |}.

Definition put_turns (v : list Turn) (e : Env) : Env :=
  {| localStorage := localStorage e; requests := requests e; turns := v;
     starts := starts e; aborted := aborted e; fresh := fresh e;
     arraysReplaced := arraysReplaced e; rendered := rendered e |}.

Definition put_starts (v : list Start) (e : Env) : Env :=
  {| localStorage := localStorage e; requests := requests e;
     turns := turns e; starts := v; aborted := aborted e; fresh := fresh e;
     arraysReplaced := arraysReplaced e; rendered := rendered e |}.

Definition put_aborted (v : list nat) (e : Env) : Env :=
  {| localStorage := localStorage e; requests := requests e;
     turns := turns e; starts := starts e; aborted := v; fresh := fresh e;
     arraysReplaced := arraysReplaced e; rendered := rendered e |}.

Definition put_fresh (v : nat) (e : Env) : Env :=
  {| localStorage := localStorage e; requests := requests e;
     turns := turns e; starts := starts e; aborted := aborted e; fresh := v;
     arraysReplaced := arraysReplaced e; rendered := rendered e |}.

Definition put_arraysReplaced (v : bool) (e : Env) : Env :=
  {| localStorage := localStorage e; requests := requests e;
     turns := turns e; starts := starts e; aborted := aborted e;
     fresh := fresh e; arraysReplaced := v; rendered := rendered e |}.

Definition put_rendered (v : Hook) (e : Env) : Env :=
  {| localStorage := localStorage e; requests := requests e;
     turns := turns e; starts := starts e; aborted := aborted e;
     fresh := fresh e; arraysReplaced := arraysReplaced e; rendered := v |}.

(* ------------------------------------------------------------------ *)
(** ** React setters, refs and browser calls *)

Notation "s |> f" := (f s) (at level 62, left associativity, only parsing).

(** [v === null] *)
Definition isNull {A : Type} (v : option A) : bool :=
  match v with None => true | Some _ => false end.

Definition setUserName (v : string) : State -> State := onHook (with_userName v).
Definition setCompany (v : string) : State -> State := onHook (with_company v).
Definition setJobPosting (v : string) : State -> State := onHook (with_jobPosting v).
Definition setSessionId (v : string) : State -> State := onHook (with_sessionId v).
Definition setHasStarted (v : bool) : State -> State := onHook (with_hasStarted v).
Definition setIsLoading (v : bool) : State -> State := onHook (with_isLoading v).
Definition setError (v : option string) : State -> State := onHook (with_error v).
Definition setShowResumeModal (v : bool) : State -> State :=
  onHook (with_showResumeModal v).
Definition setPendingSession (v : option Saved.t) : State -> State :=
  onHook (with_pendingSession v).

(** [isLoadingRef.current = v] and [streamAbortRef.current = v] *)
Definition setIsLoadingRef (v : bool) : State -> State := onHook (with_isLoadingRef v).
Definition setStreamAbortRef (v : option nat) : State -> State :=
  onHook (with_streamAbortRef v).

(** [setMessages(f)]: the array in the state is replaced by a new one. *)
Definition setMessages (f : list Message -> list Message) (s : State) : State :=
  s |> onHook (fun h => with_messages (f (messages h)) h)
    |> onEnv (put_arraysReplaced true).

(** [setSuggestedPrompts(v)]: an array is a new object, [null] is [null]. *)
Definition setSuggestedPrompts (v : option (list string)) (s : State) : State :=
  s |> onHook (with_suggestedPrompts v)
    |> onEnv (fun e => put_arraysReplaced (arraysReplaced e || negb (isNull v)) e).

(** [localStorage.setItem('resumeChatSession', JSON.stringify(v))] *)
Definition setItem (v : Saved.t) : State -> State :=
  onEnv (put_localStorage (Some (Session v))).

(** [localStorage.removeItem('resumeChatSession')] *)
Definition removeItem : State -> State := onEnv (put_localStorage None).

(** [fetch(...)]: the call is recorded. *)
Definition fetch (r : Request) : State -> State :=
  onEnv (fun e => put_requests (requests e ++ [r]) e).

(** [controller.abort()] *)
Definition abort (c : nat) : State -> State :=
  onEnv (fun e => put_aborted (c :: aborted e) e).

Definition isAborted (c : nat) (s : State) : bool :=
  existsb (Nat.eqb c) (aborted s).

(** A new controller or activation key. *)
Definition takeFresh : State -> State := onEnv (fun e => put_fresh (S (fresh e)) e).

Definition findTurn (c : nat) (l : list Turn) : option Turn :=
  find (fun t => Nat.eqb (controller t) c) l.

Definition dropTurn (c : nat) : State -> State :=
  onEnv (fun e =>
    put_turns (filter (fun t => negb (Nat.eqb (controller t) c)) (turns e)) e).

Definition suspendTurn (t : Turn) : State -> State :=
  onEnv (fun e =>
    put_turns
      (filter (fun u => negb (Nat.eqb (controller u) (controller t))) (turns e) ++ [t])
      e).

Definition findStart (k : nat) (l : list Start) : option Start :=
  find (fun a => Nat.eqb (startKey a) k) l.

Definition dropStart (k : nat) : State -> State :=
  onEnv (fun e =>
    put_starts (filter (fun a => negb (Nat.eqb (startKey a) k)) (starts e)) e).

Definition suspendStart (a : Start) : State -> State :=
  onEnv (fun e =>
    put_starts
      (filter (fun b => negb (Nat.eqb (startKey b) (startKey a))) (starts e) ++ [a])
      e).

(** [v || null] for a string [v]. *)
Definition orNull (v : string) : option string :=
  if Str.isEmpty v then None else Some v.

(* ------------------------------------------------------------------ *)
(** ** Session persistence *)

Definition SESSION_TTL_MS : Z := 24 * 60 * 60 * 1000.

(** The effect that checks for an existing session on mount. *)
Definition restoreEffect (now : Z) (s : State) : State :=
  match localStorage s with
  | None => s
  | Some Unreadable => s
  | Some (Session session) =>
      if negb (Saved.savedAt session =? 0)
         && (now - Saved.savedAt session >? SESSION_TTL_MS)
      then s |> removeItem
      else if negb (Str.isEmpty (Saved.userName session))
              && (0 <? Z.of_nat (List.length (Saved.messages session)))
      then s |> setPendingSession (Some session) |> setShowResumeModal true
      else s
  end.

(** The effect that saves the session when it changes. *)
Definition saveEffect (now : Z) (s : State) : State :=
  if hasStarted s && (0 <? Z.of_nat (List.length (messages s)))
  then s |> setItem {| Saved.userName := userName s;
                       Saved.company := company s;
                       Saved.jobPosting := jobPosting s;
                       Saved.sessionId := sessionId s;
                       Saved.suggestedPrompts := suggestedPrompts s;
                       Saved.messages := messages s;
                       Saved.savedAt := now |}
  else s.

(** Whether the dependency array of the save effect,
    [[hasStarted, userName, company, jobPosting, messages, sessionId,
    suggestedPrompts]], differs from the one of the last render: strings and
    booleans by value, arrays by identity. *)
Definition depsChanged (s : State) : bool :=
  arraysReplaced s
  || negb (Bool.eqb (hasStarted s) (hasStarted (rendered s)))
  || negb (String.eqb (userName s) (userName (rendered s)))
  || negb (String.eqb (company s) (company (rendered s)))
  || negb (String.eqb (jobPosting s) (jobPosting (rendered s)))
  || negb (String.eqb (sessionId s) (sessionId (rendered s)))
  || negb (Bool.eqb (isNull (suggestedPrompts s)) (isNull (suggestedPrompts (rendered s)))).

(** The render that follows a handler or a resumed activation: the save
    effect runs, at time [now], when its dependencies changed. *)
Definition commit (now : Z) (s : State) : State :=
  (if depsChanged s then saveEffect now s else s)
    |> onEnv (put_arraysReplaced false)
    |> onEnv (put_rendered (hook s)).

Definition clearSession : State -> State := removeItem.

(** The state of a page before its first render, over what [localStorage]
    holds. *)
Definition blank (storage : option Stored) : State :=
  {| hook := initialHook;
     env := {| localStorage := storage; requests := []; turns := [];
               starts := []; aborted := []; fresh := 0%nat;
               arraysReplaced := false; rendered := initialHook |} |}.

(** A page load: the hook is mounted, the restore effect runs (the save
    effect of the first render finds [hasStarted] false), and the page is
    rendered. *)
Definition pageLoad (storage : option Stored) (now : Z) : State :=
  blank storage |> restoreEffect now |> commit now.

(* ------------------------------------------------------------------ *)
(** ** Session resume handlers and keyboard shortcut *)

Definition handleContinueSession (s : State) : State :=
  (match pendingSession s with
   | Some p =>
       s |> setUserName (Saved.userName p)
         |> setCompany (Saved.company p)
         |> setJobPosting (Saved.jobPosting p)
         |> setMessages (fun _ => Saved.messages p)
         |> setSessionId (Saved.sessionId p)
         |> setSuggestedPrompts (Saved.suggestedPrompts p)
         |> setHasStarted true
   | None => s
   end)
    |> setShowResumeModal false
    |> setPendingSession None.

Definition handleStartFresh (s : State) : State :=
  s |> clearSession |> setShowResumeModal false |> setPendingSession None.

(** [streamAbortRef.current?.abort()] *)
Definition abortStream (s : State) : State :=
  match streamAbortRef s with
  | Some c => s |> abort c
  | None => s
  end.

Definition handleReset (s : State) : State :=
  s |> abortStream
    |> setHasStarted false
    |> setMessages (fun _ => [])
    |> setUserName ""
    |> setCompany ""
    |> setJobPosting ""
    |> setSessionId ""
    |> setSuggestedPrompts None
    |> setError None
    |> clearSession.

Definition handleKeyDown (key : string) (s : State) : State :=
  if String.eqb key "Escape" then
    if showResumeModal s then handleStartFresh s
    else if hasStarted s then handleReset s
    else s
  else s.

(* ------------------------------------------------------------------ *)
(** ** Chat actions: [handleStart] *)

(** The welcome message [handleStart] builds before it asks the backend. *)
Definition localWelcome (name companyName : string) : string :=
  "Hi " ++ name
  ++ "! 👋 I'm an AI assistant here to tell you about Rayhan Patel's professional background and qualifications"
  ++ (if Str.isEmpty companyName then "" else " for " ++ companyName)
  ++ ". Feel free to ask me anything about his experience, skills, or projects. You can use the quick questions below or type your own!".

(** [jobInput?.trim().toLowerCase().startsWith('http')] *)
Definition isUrl (jobInput : string) : bool :=
  Str.startsWith (Str.toLowerCase (Str.trim jobInput)) "http".

(** The body of the session-creation request. *)
Definition sessionBody (name companyName jobInput : string)
    (turnstileToken : option string) : SessionBody.t :=
  {| SessionBody.user_name := name;
     SessionBody.company := orNull companyName;
     SessionBody.job_posting := if isUrl jobInput then None else orNull jobInput;
     SessionBody.job_url := if isUrl jobInput then Some jobInput else None;
     SessionBody.turnstile_token :=
       match turnstileToken with
       | Some t => orNull t
       | None => None
       end |}.

(** [handleStart] up to its [await fetch(...)]; [uuid] is what
    [crypto.randomUUID()] returned. *)
Definition handleStart (name companyName jobInput : string)
    (turnstileToken : option string) (uuid : string) (s : State) : State :=
  s |> setUserName name
    |> setCompany companyName
    |> setJobPosting jobInput
    |> fetch (SessionRequest (sessionBody name companyName jobInput turnstileToken))
    |> suspendStart {| startKey := fresh s; sid := uuid;
                       welcome := localWelcome name companyName;
                       startPhase := AwaitSession |}
    |> takeFresh.

(** The statements after the [try]: [prompts] is [null] unless the backend
    answered; [now] is [Date.now()]. *)
Definition startChat (a : Start) (sid' welcome' : string)
    (prompts : option (list string)) (now : Z) (s : State) : State :=
  s |> setSessionId sid'
    |> setSuggestedPrompts prompts
    |> setMessages (fun _ => [ {| id := now; role := assistant; content := welcome' |} ])
    |> setHasStarted true
    |> dropStart (startKey a).

(** [fetch] rejected (network failure, or the 30 s timeout aborted it), or
    [response.json()] rejected: the [catch] keeps the local values. *)
Definition startFailed (a : Start) (now : Z) (s : State) : State :=
  startChat a (sid a) (welcome a) None now s.

(** [fetch] resolved: with [response.ok] the body is awaited, otherwise the
    local values stand. *)
Definition startResponded (a : Start) (ok : bool) (now : Z) (s : State) : State :=
  if ok
  then s |> suspendStart {| startKey := startKey a; sid := sid a;
                            welcome := welcome a;
                            startPhase := AwaitSessionJson |}
  else startChat a (sid a) (welcome a) None now s.

(** [response.json()] resolved with [data]. *)
Definition startAnswered (a : Start) (data : SessionData.t) (now : Z)
    (s : State) : State :=
  startChat a (SessionData.session_id data) (SessionData.welcome_message data)
    (SessionData.suggested_prompts data) now s.

(* ------------------------------------------------------------------ *)
(** ** Chat actions: [sendMessage] *)

Definition rateLimitMessage : string :=
  "Too many requests. Please wait a minute before sending another message.".

Definition genericFailureMessage : string :=
  "Failed to send message. Please try again.".

Definition fallbackContent : string :=
  "I apologize, but I'm having trouble connecting right now. Please try again in a moment.".

(** [response.ok] *)
Definition responseOk (status : Z) : bool := (200 <=? status) && (status <=? 299).

(** [prev.map(msg => msg.id === aiMessageId ? { ...msg, content: f(msg.content) } : msg)] *)
Definition mapContent (aiId : Z) (f : string -> string) (prev : list Message)
  : list Message :=
  map (fun msg =>
         if id msg =? aiId
         then {| id := id msg; role := role msg; content := f (content msg) |}
         else msg)
      prev.

(** [sendMessage] up to its [await fetch(...)]; [now1] and [now2] are the
    two readings of [Date.now()]. *)
Definition sendMessage (messageText : string) (now1 now2 : Z) (s : State) : State :=
  if Str.isEmpty (Str.trim messageText) || isLoadingRef s then s
  else
    s |> setError None
      |> setMessages (fun prev =>
           (prev ++ [ {| id := now1; role := user; content := messageText |} ])%list)
      |> setMessages (fun prev =>
           (prev ++ [ {| id := now2 + 1; role := assistant; content := "" |} ])%list)
      |> setIsLoading true
      |> setIsLoadingRef true
      |> setStreamAbortRef (Some (fresh s))
      |> fetch (ChatStreamRequest
                  {| ChatBody.query := messageText;
                     ChatBody.session_id := sessionId s;
                     ChatBody.user_name := userName s;
                     ChatBody.company := orNull (company s);
                     ChatBody.job_posting := orNull (jobPosting s) |}
                  (fresh s))
      |> suspendTurn {| aiMessageId := now2 + 1; controller := fresh s;
                        turnPhase := AwaitFetch |}
      |> takeFresh.

(** The [finally] block. *)
Definition finallyTurn (t : Turn) (s : State) : State :=
  s |> setIsLoading false |> setIsLoadingRef false |> dropTurn (controller t).

(** The text the [catch] block passes to [setError]. *)
Definition shownError (err : Err.t) : string :=
  match Err.status err with
  | Some 429 => rateLimitMessage
  | _ => if Str.isEmpty (Err.message err) then genericFailureMessage
         else Err.message err
  end.

(** The [catch] block followed by [finally]. *)
Definition catchTurn (t : Turn) (err : Err.t) (s : State) : State :=
  if String.eqb (Err.name err) "AbortError" then finallyTurn t s
  else
    s |> setError (Some (shownError err))
      |> setMessages (mapContent (aiMessageId t) (fun _ => fallbackContent))
      |> finallyTurn t.

(** The value of [await response.json().catch(() => ({}))]: [None] stands
    for a rejected [json()]. *)
Definition errorDataOf (body : option JsVal) : JsVal :=
  match body with
  | Some v => v
  | None => JObj []
  end.

Section Engine.
Context `{JsEngine}.

Definition typeError (property : string) : Err.t :=
  {| Err.name := "TypeError"; Err.message := nullishReadMessage property;
     Err.status := None |}.

(** The error thrown for a response that is not ok, from the parsed body
    [errorData]: [httpErr], or the TypeError of reading through [null]. *)
Definition httpError (status : Z) (errorData : JsVal) : Err.t :=
  match Js.prop errorData "detail" with
  | None => typeError "detail"
  | Some detail =>
      if Js.isObject detail then
        match Js.prop detail "message", Js.prop detail "error" with
        | Some m, Some e =>
            {| Err.name := "Error";
               Err.message :=
                 Js.str (Js.or m (Js.or e (JStr (JSON_stringify detail))));
               Err.status := Some status |}
        | _, _ => typeError "message"
        end
      else
        {| Err.name := "Error";
           Err.message :=
             Js.str (Js.or detail (JStr ("HTTP error! status: " ++ Str.ofZ status)));
           Err.status := Some status |}
  end.

(** [fetch] resolved with a response of the given status. *)
Definition turnResponded (t : Turn) (status : Z) (s : State) : State :=
  s |> suspendTurn {| aiMessageId := aiMessageId t; controller := controller t;
                      turnPhase := if responseOk status then AwaitRead
                                   else AwaitErrorBody status |}.

(** The body of a response that is not ok has settled: [httpErr] (or the
    TypeError) is thrown and caught. *)
Definition turnErrorBody (t : Turn) (status : Z) (body : option JsVal)
    (s : State) : State :=
  catchTurn t (httpError status (errorDataOf body)) s.

(** The body of the [for] loop over the data lines of one read. *)
Definition processLine (aiId : Z) (line : string) (s : State) : State :=
  let data := Str.slice 6 line in
  if String.eqb data "[DONE]" then s
  else match JSON_parse data with
       | None => s
       | Some parsed =>
           match Js.prop parsed "chunk" with
           | None => s
           | Some chunk =>
               if Js.truthy chunk
               then s |> setMessages
                           (mapContent aiId (fun c => c ++ Js.str chunk))
               else s
           end
       end.

(** [text.split('\n').filter(line => line.startsWith('data: '))] *)
Definition dataLines (text : string) : list string :=
  filter (fun line => Str.startsWith line "data: ") (Str.split Str.newline text).

(** [for (const line of lines) ...] *)
Definition readLines (aiId : Z) (lines : list string) (s : State) : State :=
  fold_left (fun acc line => processLine aiId line acc) lines s.

(** [reader.read()] resolved: [None] is [done], [Some text] a value whose
    decoding is [text]. *)
Definition turnRead (t : Turn) (r : option string) (s : State) : State :=
  match r with
  | None => finallyTurn t s
  | Some text =>
      s |> readLines (aiMessageId t) (dataLines text)
        |> suspendTurn {| aiMessageId := aiMessageId t; controller := controller t;
                          turnPhase := AwaitRead |}
  end.

End Engine.

(* ------------------------------------------------------------------ *)
(** ** Transitions

    A handler called by the interface, or a promise that settles and resumes
    the activation awaiting it.  Controllers identify the activations of
    [sendMessage], keys those of [handleStart].  The events that end
    [handleStart] and the call of [sendMessage] carry the readings of
    [Date.now()] they make. *)

Inductive Event : Type :=
| CallHandleContinueSession
| CallHandleStartFresh
| CallHandleReset
| KeyDown (key : string)
| CallHandleStart (name companyName jobInput : string)
    (turnstileToken : option string) (uuid : string)
| SessionFetchRejected (k : nat) (now : Z)
| SessionFetchResolved (k : nat) (ok : bool) (now : Z)
| SessionJsonRejected (k : nat) (now : Z)
| SessionJsonResolved (k : nat) (data : SessionData.t) (now : Z)
| CallSendMessage (messageText : string) (now1 now2 : Z)
| FetchRejected (c : nat) (err : Err.t)   (* also: an ok response without a body *)
| FetchResolved (c : nat) (status : Z)
| ErrorBodySettled (c : nat) (body : option JsVal)
| ReadResolved (c : nat) (r : option string)
| ReadRejected (c : nat) (err : Err.t).

Definition isAbortError (err : Err.t) : bool := String.eqb (Err.name err) "AbortError".

Definition guard (b : bool) (s : State) : option State :=
  if b then Some s else None.

Section Transitions.
Context `{JsEngine}.

(** [step s e] is [None] when [e] cannot happen in [s]: a promise settles
    only for the activation that awaits it, and once its controller is
    aborted a pending [fetch] or [read] can only reject with an AbortError
    (and a pending [json()] only reject). *)
Definition step (s : State) (e : Event) : option State :=
  match e with
  | CallHandleContinueSession => Some (handleContinueSession s)
  | CallHandleStartFresh => Some (handleStartFresh s)
  | CallHandleReset => Some (handleReset s)
  | KeyDown key => Some (handleKeyDown key s)
  | CallHandleStart name companyName jobInput turnstileToken uuid =>
      Some (handleStart name companyName jobInput turnstileToken uuid s)
  | SessionFetchRejected k now =>
      match findStart k (starts s) with
      | Some a =>
          match startPhase a with
          | AwaitSession => Some (startFailed a now s)
          | AwaitSessionJson => None
          end
      | None => None
      end
  | SessionFetchResolved k ok now =>
      match findStart k (starts s) with
      | Some a =>
          match startPhase a with
          | AwaitSession => Some (startResponded a ok now s)
          | AwaitSessionJson => None
          end
      | None => None
      end
  | SessionJsonRejected k now =>
      match findStart k (starts s) with
      | Some a =>
          match startPhase a with
          | AwaitSessionJson => Some (startFailed a now s)
          | AwaitSession => None
          end
      | None => None
      end
  | SessionJsonResolved k data now =>
      match findStart k (starts s) with
      | Some a =>
          match startPhase a with
          | AwaitSessionJson => Some (startAnswered a data now s)
          | AwaitSession => None
          end
      | None => None
      end
  | CallSendMessage messageText now1 now2 =>
      Some (sendMessage messageText now1 now2 s)
  | FetchRejected c err =>
      match findTurn c (turns s) with
      | Some t =>
          match turnPhase t with
          | AwaitFetch =>
              guard (negb (isAborted c s) || isAbortError err) (catchTurn t err s)
          | _ => None
          end
      | None => None
      end
  | FetchResolved c status =>
      match findTurn c (turns s) with
      | Some t =>
          match turnPhase t with
          | AwaitFetch => guard (negb (isAborted c s)) (turnResponded t status s)
          | _ => None
          end
      | None => None
      end
  | ErrorBodySettled c body =>
      match findTurn c (turns s) with
      | Some t =>
          match turnPhase t with
          | AwaitErrorBody status =>
              guard (negb (isAborted c s) || isNull body)
                    (turnErrorBody t status body s)
          | _ => None
          end
      | None => None
      end
  | ReadResolved c r =>
      match findTurn c (turns s) with
      | Some t =>
          match turnPhase t with
          | AwaitRead => guard (negb (isAborted c s)) (turnRead t r s)
          | _ => None
          end
      | None => None
      end
  | ReadRejected c err =>
      match findTurn c (turns s) with
      | Some t =>
          match turnPhase t with
          | AwaitRead =>
              guard (negb (isAborted c s) || isAbortError err) (catchTurn t err s)
          | _ => None
          end
      | None => None
      end
  end.

(** An event followed by the render it causes, whose effects run at [t]. *)
Definition run (s : State) (et : Event * Z) : option State :=
  option_map (commit (snd et)) (step s (fst et)).

Fixpoint runAll (s : State) (trace : list (Event * Z)) : option State :=
  match trace with
  | [] => Some s
  | et :: rest =>
      match run s et with
      | Some s' => runAll s' rest
      | None => None
      end
  end.

(** The states of a page loaded at [now] over [storage]. *)
Inductive reachable (storage : option Stored) (now : Z) : State -> Prop :=
| reach_load : reachable storage now (pageLoad storage now)
| reach_run : forall s et s',
    reachable storage now s -> run s et = Some s' -> reachable storage now s'.

End Transitions.

(* ------------------------------------------------------------------ *)
(** ** What the properties speak about *)

Definition lastMessage (s : State) : option Message :=
  match rev (messages s) with
  | [] => None
  | m :: _ => Some m
  end.

Section Stream.
Context `{JsEngine}.

(** The chunk payload of a data line as the text it adds; none for
    [[DONE]], for a line that does not parse, and for a line without a
    chunk. *)
Definition lineChunk (line : string) : option string :=
  let data := Str.slice 6 line in
  if String.eqb data "[DONE]" then None
  else match JSON_parse data with
       | None => None
       | Some parsed =>
           match Js.prop parsed "chunk" with
           | None => None
           | Some chunk => if Js.truthy chunk then Some (Js.str chunk) else None
           end
       end.

Definition hasChunk (line : string) : bool := negb (isNull (lineChunk line)).

Definition chunkOf (line : string) : string :=
  match lineChunk line with
  | Some text => text
  | None => ""
  end.

(** In-order concatenation of the chunk payloads of some data lines. *)
Definition chunksOf (lines : list string) : string :=
  Str.join (map chunkOf lines).

(** The text a stream carries: the chunk payloads of its data lines, the
    stream being the concatenation of what the reads returned. *)
Definition streamText (reads : list string) : string :=
  chunksOf (dataLines (Str.join reads)).

(** The text the read loop assembles: the data lines are taken read by
    read. *)
Definition assembledText (reads : list string) : string :=
  chunksOf (flat_map dataLines reads).

End Stream.

(** A read ends at a line boundary (or is empty). *)
Fixpoint endsWithNewline (text : string) : bool :=
  match text with
  | EmptyString => true
  | String c rest =>
      match rest with
      | EmptyString => Ascii.eqb c Str.newline
      | String _ _ => endsWithNewline rest
      end
  end.

(** No two consecutive assistant turns. *)
Fixpoint noAdjacentAssistants (l : list Message) : bool :=
  match l with
  | [] => true
  | m :: rest =>
      match role m, rest with
      | assistant, m' :: _ =>
          match role m' with
          | assistant => false
          | user => noAdjacentAssistants rest
          end
      | _, _ => noAdjacentAssistants rest
      end
  end.

Definition storedOk (v : option Stored) : bool :=
  match v with
  | Some (Session session) => noAdjacentAssistants (Saved.messages session)
  | _ => true
  end.

(** What [crypto.randomUUID()] returns: 36 characters. *)
Definition isUUID (v : string) : bool := (String.length v =? 36)%nat.

(** How the session-creation call ends. *)
Inductive SessionOutcome : Type :=
| FetchFails
| NotOk
| JsonFails
| Answers (data : SessionData.t).

Definition sessionEvents (k : nat) (o : SessionOutcome) (now t : Z)
  : list (Event * Z) :=
  match o with
  | FetchFails => [ (SessionFetchRejected k now, t) ]
  | NotOk => [ (SessionFetchResolved k false now, t) ]
  | JsonFails => [ (SessionFetchResolved k true now, t); (SessionJsonRejected k now, t) ]
  | Answers data =>
      [ (SessionFetchResolved k true now, t); (SessionJsonResolved k data now, t) ]
  end.

(** Modelled from the spec: the backend handler of the create-session
    request is not part of the frontend sources.  The spec (external
    interfaces; scenario A) has its response carry a session identifier and a
    welcome message containing the display name. *)
Definition createSessionResponse (name : string) (data : SessionData.t) : Prop :=
  SessionData.session_id data <> ""
  /\ Str.includes (SessionData.welcome_message data) name = true.

Definition answersAsSpecified (name : string) (o : SessionOutcome) : Prop :=
  match o with
  | Answers data => createSessionResponse name data
  | _ => True
  end.

(** Events that end the turn of controller [c]. *)
Definition endsTurn (c : nat) (e : Event) : Prop :=
  match e with
  | FetchRejected c' _ | ErrorBodySettled c' _ | ReadRejected c' _
  | ReadResolved c' None => c' = c
  | _ => False
  end.

(** The error body can be read as far as [httpErr] is built: neither the
    body nor its [detail] is [null]. *)
Definition detailRead (errorData : JsVal) : bool :=
  match Js.prop errorData "detail" with
  | None | Some JNull => false
  | Some _ => true
  end.

(** What the chat looks like once [handleStart] has run to its end for the
    given name. *)
Definition started (name : string) (s : State) : Prop :=
  sessionId s <> ""
  /\ hasStarted s = true
  /\ exists m,
       messages s = [m] /\ role m = assistant
       /\ Str.includes (content m) name = true.

(** A suspended read loop: the turn awaits a read and its controller is not
    aborted. *)
Definition reading (t : Turn) (s : State) : Prop :=
  turns s = [t] /\ turnPhase t = AwaitRead /\ isAborted (controller t) s = false.

(** The turn [sendMessage] suspends when it is admitted in [s]. *)
Definition newTurn (now2 : Z) (s : State) (phase : TurnPhase) : Turn :=
  {| aiMessageId := now2 + 1; controller := fresh s; turnPhase := phase |}.

(** The events of a turn from the call of [sendMessage] to the last read
    that returned data. *)
Definition turnEvents (text : string) (now1 now2 : Z) (c : nat) (status : Z)
    (reads : list string) (t : Z) : list (Event * Z) :=
  (CallSendMessage text now1 now2, t)
    :: (FetchResolved c status, t)
    :: map (fun r => (ReadResolved c (Some r), t)) reads.

(* ------------------------------------------------------------------ *)
(** ** Invariants of a loaded page *)

(** At most one activation of [sendMessage] is suspended; the busy flag is
    set exactly while there is one, and [streamAbortRef] then holds its
    controller. *)
Definition turnsInv (s : State) : Prop :=
  match turns s with
  | [] => isLoadingRef s = false
  | [t] => isLoadingRef s = true /\ streamAbortRef s = Some (controller t)
  | _ :: _ :: _ => False
  end.

(** Controllers in use were handed out before. *)
Definition freshInv (s : State) : Prop :=
  (forall c, streamAbortRef s = Some c -> (c < fresh s)%nat)
  /\ Forall (fun c => (c < fresh s)%nat) (aborted s).

(** The page shows the current state: nothing is left to render. *)
Definition committed (s : State) : Prop :=
  rendered s = hook s /\ arraysReplaced s = false.

Definition pendingOk (v : option Saved.t) : bool :=
  match v with
  | Some session => noAdjacentAssistants (Saved.messages session)
  | None => true
  end.

(** Neither the messages shown, nor those saved, nor those offered for
    resumption have two consecutive assistant turns. *)
Definition turnOrderInv (s : State) : Prop :=
  noAdjacentAssistants (messages s) = true
  /\ storedOk (localStorage s) = true
  /\ pendingOk (pendingSession s) = true.

Definition flightInv (s : State) : Prop := turnsInv s /\ freshInv s.

(* ------------------------------------------------------------------ *)
(** ** An engine to run examples with

    [parse] recognises the one shape of JSON text the examples use,
    [{"chunk":"..."}] with a payload of printable ASCII characters other
    than the quote and the backslash, and rejects every other text.  The
    examples carry text payloads only and reach neither [toString] nor the
    stringification. *)

Module Sample.

Definition quote : string := String "034"%char EmptyString.

Definition chunkOpen : string := "{" ++ quote ++ "chunk" ++ quote ++ ":" ++ quote.

Definition chunkClose : string := quote ++ "}".

Definition plain (c : ascii) : bool :=
  let n := nat_of_ascii c in
  ((32 <=? n) && negb (n =? 34) && negb (n =? 92) && (n <? 128))%nat.

Definition chunkEvent (payload : string) : string :=
  chunkOpen ++ payload ++ chunkClose.

Definition parse (text : string) : option JsVal :=
  if String.prefix chunkOpen text then
    let rest := Str.slice (String.length chunkOpen) text in
    let payload := String.substring 0 (String.length rest - 2) rest in
    if String.eqb rest (payload ++ chunkClose)
       && forallb plain (list_ascii_of_string payload)
    then Some (JObj [("chunk", JStr payload)])
    else None
  else None.

Definition toString (v : JsVal) : string :=
  match v with
  | JUndefined => "undefined"
  | JNull => "null"
  | JBool true => "true"
  | JBool false => "false"
  | JStr s => s
  | JArr [] => ""
  | _ => "[object Object]"
  end.

Definition engine : JsEngine :=
  {| JSON_parse := parse;
     JSON_stringify := fun _ => "{}";
     ToString := toString;
     nullishReadMessage := fun p =>
       "Cannot read properties of null (reading '" ++ p ++ "')" |}.

Definition uuid : string := "123e4567-e89b-42d3-a456-426614174000".

Definition lineEnd : string := String Str.newline EmptyString.

(** A server-sent event carrying [payload]. *)
Definition event (payload : string) : string :=
  "data: " ++ chunkEvent payload ++ lineEnd ++ lineEnd.

Definition doneEvent : string := "data: [DONE]" ++ lineEnd ++ lineEnd.

Definition networkError : Err.t :=
  {| Err.name := "TypeError"; Err.message := "network error"; Err.status := None |}.

Definition abortError : Err.t :=
  {| Err.name := "AbortError"; Err.message := "The user aborted a request.";
     Err.status := None |}.

(** The state a fresh page (empty storage, loaded at time 0) is in after the
    given events, when they can all happen. *)
Definition after (trace : list (Event * Z)) : State :=
  match @runAll engine (pageLoad None 0) trace with
  | Some s => s
  | None => pageLoad None 0
  end.

(** Dana starts a chat at time 1000 while the backend is unreachable. *)
Definition danaStarts : list (Event * Z) :=
  [ (CallHandleStart "Dana" "" "" None uuid, 1000);
    (SessionFetchRejected 0 1000, 1000) ].

Definition twoFragments : string := event "Hello" ++ event " world".

(** She asks a question at time 2000; the response is ok and one read
    delivers two fragments. *)
Definition danaAsks : list (Event * Z) :=
  (danaStarts
   ++ turnEvents "What are his strengths?" 2000 2000 1 200 [twoFragments] 2001)%list.

(** The same question when the stream breaks after the two fragments. *)
Definition danaIsCutOff : list (Event * Z) :=
  (danaAsks ++ [ (ReadRejected 1 networkError, 2002) ])%list.

(** The same question when one event arrives in two reads. *)
Definition splitReads : list string :=
  [ "data: " ++ chunkOpen ++ "Hel";
    "lo" ++ chunkClose ++ lineEnd ++ lineEnd ++ doneEvent ].

Definition danaAsksOverSplitReads : list (Event * Z) :=
  (danaStarts
   ++ turnEvents "What are his strengths?" 2000 2000 1 200 splitReads 2001
   ++ [ (ReadResolved 1 None, 2002) ])%list.

(** The same question answered with status 500 and the given detail. *)
Definition danaIsRefused (status : Z) (detail : string) : list (Event * Z) :=
  (danaStarts
   ++ [ (CallSendMessage "What are his strengths?" 2000 2000, 2000);
        (FetchResolved 1 status, 2001);
        (ErrorBodySettled 1 (Some (JObj [("detail", JStr detail)])), 2002) ])%list.

Definition hour : Z := 60 * 60 * 1000.

(** Dana starts at time 1000 and sends a message 23 hours later. *)
Definition danaReturns : list (Event * Z) :=
  (danaStarts
   ++ [ (CallSendMessage "Still there?" (1000 + 23 * hour) (1000 + 23 * hour),
         1000 + 23 * hour) ])%list.

(** A recruiter pastes the address of a job posting. *)
Definition pastedUrl : string := " HTTPS://jobs.example.com/42".

Definition recruiterStarts : list (Event * Z) :=
  [ (CallHandleStart "Dana" "Acme" pastedUrl None uuid, 1000) ].

Definition backendAnswer : SessionData.t :=
  {| SessionData.session_id := "5b0f7c1e-0000-4000-8000-000000000001";
     SessionData.welcome_message := "Welcome, Dana!";
     SessionData.suggested_prompts := Some ["What are his strengths?"];
     SessionData.extraction_error := None |}.

Definition savedYesterday : Saved.t :=
  {| Saved.userName := "Dana"; Saved.company := ""; Saved.jobPosting := "";
     Saved.sessionId := uuid; Saved.suggestedPrompts := None;
     Saved.messages :=
       [ {| id := 1000; role := assistant; content := localWelcome "Dana" "" |} ];
     Saved.savedAt := 1000 |}.

End Sample.

(* ------------------------------------------------------------------ *)
(** ** The session shown, offered and stored *)

(** The object the save effect writes at time [t] for the state [h]. *)
Definition snapshot (t : Z) (h : Hook) : Saved.t :=
  {| Saved.userName := userName h;
     Saved.company := company h;
     Saved.jobPosting := jobPosting h;
     Saved.sessionId := sessionId h;
     Saved.suggestedPrompts := suggestedPrompts h;
     Saved.messages := messages h;
     Saved.savedAt := t |}.

(** A saved session the restore effect of a page loaded at [now] offers:
    it names a user, holds a message and has not expired. *)
Definition resumable (now : Z) (p : Saved.t) : Prop :=
  Saved.userName p <> ""
  /\ Saved.messages p <> []
  /\ (Saved.savedAt p = 0 \/ now - Saved.savedAt p <= SESSION_TTL_MS).

(** The modal is open exactly while a session is pending, and the pending
    session is the one the page was loaded over. *)
Definition modalInv (storage : option Stored) (now : Z) (s : State) : Prop :=
  match pendingSession s with
  | Some p =>
      showResumeModal s = true /\ storage = Some (Session p) /\ resumable now p
  | None => showResumeModal s = false
  end.

(** App.jsx: the props [userName] and [messageCount] of the resume modal
    when [showResumeModal && pendingSession] has it rendered. *)
Definition resumeModalProps (s : State) : option (string * nat) :=
  if showResumeModal s then
    match pendingSession s with
    | Some p => Some (Saved.userName p, List.length (Saved.messages p))
    | None => None
    end
  else None.

(** What [localStorage] holds on a page loaded over [storage]: while a chat
    is started (it then has messages), the chat as the page shows it, or
    nothing; before that, what the page was loaded over, or nothing. *)
Definition storageInv (storage : option Stored) (s : State) : Prop :=
  if hasStarted s
  then messages s <> []
       /\ (localStorage s = None
           \/ exists t, localStorage s = Some (Session (snapshot t s)))
  else localStorage s = None \/ localStorage s = storage.

(* ------------------------------------------------------------------ *)
(** ** The chat interface (components/ChatInterface.jsx)

    The component is rendered with the values the hook returned at the last
    render: its [isLoading] is the one of [rendered], its [onSendMessage]
    the hook's [sendMessage]. *)

Module ChatInterface.

(** [handleSubmit]: the text of the input field after the call, and the
    state; [inputValue] is the text of the field before it. *)
Definition handleSubmit (inputValue : string) (now1 now2 : Z) (s : State)
  : string * State :=
  if Str.isEmpty (Str.trim inputValue) || isLoading (rendered s)
  then (inputValue, s)
  else ("", sendMessage inputValue now1 now2 s).

(** [handleQuickQuestion]: [None] is a question whose text is [undefined],
    on which [sendMessage] throws before it sets anything. *)
Definition handleQuickQuestion (question : option string) (now1 now2 : Z)
    (s : State) : State :=
  if isLoading (rendered s) then s
  else match question with
       | Some text => sendMessage text now1 now2 s
       | None => s
       end.

(** The input field and the buttons of the quick questions are disabled. *)
Definition inputDisabled (s : State) : bool := isLoading (rendered s).

(** The send button is disabled. *)
Definition sendDisabled (inputValue : string) (s : State) : bool :=
  Str.isEmpty (Str.trim inputValue) || isLoading (rendered s).

End ChatInterface.

(* ------------------------------------------------------------------ *)
(** ** What [handleStart] ends with, by the outcome of the session call *)

Definition sessionIdOf (uuid : string) (o : SessionOutcome) : string :=
  match o with
  | Answers data => SessionData.session_id data
  | _ => uuid
  end.

Definition welcomeOf (name companyName : string) (o : SessionOutcome) : string :=
  match o with
  | Answers data => SessionData.welcome_message data
  | _ => localWelcome name companyName
  end.

Definition promptsOf (o : SessionOutcome) : option (list string) :=
  match o with
  | Answers data => SessionData.suggested_prompts data
  | _ => None
  end.

(* ------------------------------------------------------------------ *)
(** ** The welcome form (components/WelcomeForm.jsx)

    The state of the form, the refs of its Turnstile widget, and what its
    effect has pending: the interval that waits for the Turnstile script,
    the 10 s timeout that ends the wait, and the 3 s timers started by the
    widget's error callback. *)

Module WelcomeForm.

Record t : Type := mk {
  name : string;
  company : string;
  jobInput : string;
  isSubmitting : bool;
  tokenRef : option string;
  turnstileReady : bool;
  (** [widgetIdRef.current !== null] *)
  widgetRendered : bool;
  (** the [mounted] flag of the effect *)
  mounted : bool;
  (** the interval is running *)
  polling : bool;
  (** the 10 s timeout is pending *)
  loadTimeout : bool;
  (** pending 3 s timers *)
  fallbackTimers : nat
}.

(** The first render and the effect: [apiLoaded] is whether
    [window.turnstile] is there already. *)
Definition mount (defaultName defaultCompany defaultJob : string)
    (apiLoaded : bool) : t :=
  {| name := defaultName; company := defaultCompany; jobInput := defaultJob;
     isSubmitting := false; tokenRef := None; turnstileReady := false;
     widgetRendered := apiLoaded; mounted := true;
     polling := negb apiLoaded; loadTimeout := negb apiLoaded;
     fallbackTimers := 0 |}.

Definition setName (v : string) (f : t) : t :=
  {| name := v; company := company f; jobInput := jobInput f;
     isSubmitting := isSubmitting f; tokenRef := tokenRef f;
     turnstileReady := turnstileReady f; widgetRendered := widgetRendered f;
     mounted := mounted f; polling := polling f; loadTimeout := loadTimeout f;
     fallbackTimers := fallbackTimers f |}.

Definition setCompany (v : string) (f : t) : t :=
  {| name := name f; company := v; jobInput := jobInput f;
     isSubmitting := isSubmitting f; tokenRef := tokenRef f;
     turnstileReady := turnstileReady f; widgetRendered := widgetRendered f;
     mounted := mounted f; polling := polling f; loadTimeout := loadTimeout f;
     fallbackTimers := fallbackTimers f |}.

Definition setJobInput (v : string) (f : t) : t :=
  {| name := name f; company := company f; jobInput := v;
     isSubmitting := isSubmitting f; tokenRef := tokenRef f;
     turnstileReady := turnstileReady f; widgetRendered := widgetRendered f;
     mounted := mounted f; polling := polling f; loadTimeout := loadTimeout f;
     fallbackTimers := fallbackTimers f |}.

Definition setIsSubmitting (v : bool) (f : t) : t :=
  {| name := name f; company := company f; jobInput := jobInput f;
     isSubmitting := v; tokenRef := tokenRef f;
     turnstileReady := turnstileReady f; widgetRendered := widgetRendered f;
     mounted := mounted f; polling := polling f; loadTimeout := loadTimeout f;
     fallbackTimers := fallbackTimers f |}.

(** The Turnstile part of the form. *)
Definition setWidget (token : option string) (ready rendered live poll wait : bool)
    (timers : nat) (f : t) : t :=
  {| name := name f; company := company f; jobInput := jobInput f;
     isSubmitting := isSubmitting f; tokenRef := token;
     turnstileReady := ready; widgetRendered := rendered;
     mounted := live; polling := poll; loadTimeout := wait;
     fallbackTimers := timers |}.

(** [if (mounted) setTurnstileReady(v)] *)
Definition readyIfMounted (v : bool) (f : t) : bool :=
  if mounted f then v else turnstileReady f.

Inductive Event : Type :=
| NameTyped (v : string)
| CompanyTyped (v : string)
| JobTyped (v : string)
| IntervalTick (apiLoaded : bool)
| Callback (token : string)
| ExpiredCallback
| ErrorCallback
| FallbackTimer
| LoadTimeout
| Unmount.

(** What an event does to the form; [None] when it cannot happen: the
    widget calls back only once it is rendered, and a timer fires only while
    it is pending. *)
Definition step (f : t) (e : Event) : option t :=
  match e with
  | NameTyped v => Some (setName v f)
  | CompanyTyped v => Some (setCompany v f)
  | JobTyped v => Some (setJobInput v f)
  | IntervalTick apiLoaded =>
      if polling f then
        if apiLoaded
        then Some (setWidget (tokenRef f) (turnstileReady f)
                     (widgetRendered f || mounted f) (mounted f) false
                     (loadTimeout f) (fallbackTimers f) f)
        else Some f
      else None
  | Callback token =>
      if widgetRendered f
      then Some (setWidget (Some token) (readyIfMounted true f)
                   (widgetRendered f) (mounted f) (polling f) (loadTimeout f)
                   (fallbackTimers f) f)
      else None
  | ExpiredCallback =>
      if widgetRendered f
      then Some (setWidget None (readyIfMounted false f)
                   (widgetRendered f) (mounted f) (polling f) (loadTimeout f)
                   (fallbackTimers f) f)
      else None
  | ErrorCallback =>
      if widgetRendered f
      then Some (setWidget None (turnstileReady f)
                   (widgetRendered f) (mounted f) (polling f) (loadTimeout f)
                   (S (fallbackTimers f)) f)
      else None
  | FallbackTimer =>
      match fallbackTimers f with
      | S pending =>
          Some (setWidget (tokenRef f) (readyIfMounted true f)
                  (widgetRendered f) (mounted f) (polling f) (loadTimeout f)
                  pending f)
      | O => None
      end
  | LoadTimeout =>
      if loadTimeout f
      then Some (setWidget (tokenRef f)
                   (if mounted f
                       && match tokenRef f with
                          | Some token => Str.isEmpty token
                          | None => true
                          end
                    then true else turnstileReady f)
                   (widgetRendered f) (mounted f) false false
                   (fallbackTimers f) f)
      else None
  | Unmount =>
      Some (setWidget (tokenRef f) (turnstileReady f) (widgetRendered f)
              false false false (fallbackTimers f) f)
  end.

Fixpoint runAll (f : t) (events : list Event) : option t :=
  match events with
  | [] => Some f
  | e :: rest =>
      match step f e with
      | Some f' => runAll f' rest
      | None => None
      end
  end.

(** [handleSubmit]: the form afterwards, and the arguments of the call of
    [onStart] when it is made. *)
Definition handleSubmit (f : t)
  : t * option (string * string * string * option string) :=
  if Str.isEmpty (Str.trim (name f)) then (f, None)
  else (setIsSubmitting true f,
        Some (Str.trim (name f), Str.trim (company f), Str.trim (jobInput f),
              tokenRef f)).

(** The form on the page: [onStart] is the hook's [handleStart], and [uuid]
    what its [crypto.randomUUID()] returns. *)
Definition submit (f : t) (uuid : string) (s : State) : t * State :=
  match handleSubmit f with
  | (f', Some (n, c, j, token)) => (f', handleStart n c j token uuid s)
  | (f', None) => (f', s)
  end.

(** The hint "URL detected" is shown. *)
Definition isUrl (f : t) : bool :=
  Str.startsWith (Str.toLowerCase (Str.trim (jobInput f))) "http".

(** The submit button is disabled. *)
Definition submitDisabled (f : t) : bool :=
  Str.isEmpty (Str.trim (name f)) || isSubmitting f || negb (turnstileReady f).

End WelcomeForm.

(** While the form is mounted: a token at hand means the form can be
    submitted, and a form that cannot be submitted for Turnstile's sake
    waits for the widget on the page or for the timeout of its script. *)
Definition turnstileInv (f : WelcomeForm.t) : Prop :=
  WelcomeForm.mounted f = true ->
  (WelcomeForm.tokenRef f <> None -> WelcomeForm.turnstileReady f = true)
  /\ (WelcomeForm.turnstileReady f = false ->
      WelcomeForm.widgetRendered f = true \/ WelcomeForm.loadTimeout f = true).

(* ------------------------------------------------------------------ *)
(** ** The quick questions (components/QuickQuestions.jsx)

    Of a question the id and the text are kept; a text is [None] when the
    code sets it to [undefined]. *)

Module QuickQuestions.

Record Question : Type := mkQuestion { id : Z; text : option string }.

Definition baseQuestions : list Question :=
  [ {| id := 1; text := Some "Why should we hire Rayhan?" |};
    {| id := 2; text := Some "What's his ML experience?" |};
    {| id := 3; text := Some "Tell me about his projects" |};
    {| id := 4; text := Some "What makes him unique?" |} ].

(** What [companyQuestions[key]] evaluates to when it is not [undefined]:
    one of the eight arrays, or a property the object literal inherits.  The
    key is in lower case, and of the properties of [Object.prototype] only
    [constructor] (the function [Object], whose [length] is 1 and which has
    no indexed elements) and [__proto__] (the prototype itself, without a
    [length]) are spelled in lower case. *)
Inductive Overrides : Type :=
| Texts (texts : list string)
| ObjectFunction
| ObjectPrototype.

Definition companyQuestions (key : string) : option Overrides :=
  if String.eqb key "google" then
    Some (Texts [ "Why would Rayhan fit Google's AI team?";
                  "Experience with large-scale ML systems?" ])
  else if String.eqb key "meta" then
    Some (Texts [ "How does Rayhan align with Meta AI?";
                  "Recommendation systems experience?" ])
  else if String.eqb key "amazon" then
    Some (Texts [ "Why would Rayhan excel at Amazon?";
                  "His cloud/AWS experience?" ])
  else if String.eqb key "apple" then
    Some (Texts [ "Rayhan's fit for Apple ML?";
                  "Privacy-focused AI experience?" ])
  else if String.eqb key "microsoft" then
    Some (Texts [ "Rayhan for Microsoft Research?";
                  "His published research work?" ])
  else if String.eqb key "nvidia" then
    Some (Texts [ "Rayhan for NVIDIA's AI team?";
                  "GPU optimization experience?" ])
  else if String.eqb key "openai" then
    Some (Texts [ "Why Rayhan for OpenAI?";
                  "His LLM/RAG experience?" ])
  else if String.eqb key "anthropic" then
    Some (Texts [ "Rayhan's fit for Anthropic?";
                  "AI safety research experience?" ])
  else if String.eqb key "constructor" then Some ObjectFunction
  else if String.eqb key "__proto__" then Some ObjectPrototype
  else None.

(** [l.map((q, i) => f(i, q))], counting from [i]. *)
Fixpoint mapFrom {A B : Type} (f : nat -> A -> B) (i : nat) (l : list A)
  : list B :=
  match l with
  | [] => []
  | x :: rest => f i x :: mapFrom f (S i) rest
  end.

(** [{ ...q, text: v }] *)
Definition withText (v : option string) (q : Question) : Question :=
  {| id := id q; text := v |}.

(** [company?.toLowerCase().trim()]: the keys are compared with ASCII
    texts without a k, and no character outside ASCII lowercases to ASCII
    letters other than k, so that [Str.toLowerCase] decides the same
    comparisons. *)
Definition normalized (company : string) : string :=
  Str.trim (Str.toLowerCase company).

(** The questions rendered when there are no usable prompts of the
    backend. *)
Definition companyFallback (company : string) : list Question :=
  match companyQuestions (normalized company) with
  | Some (Texts texts) =>
      mapFrom (fun i q =>
                 if (i <? List.length texts)%nat
                 then withText (nth_error texts i) q else q)
              0 baseQuestions
  | Some ObjectFunction =>
      mapFrom (fun i q => if (i <? 1)%nat then withText None q else q)
              0 baseQuestions
  | Some ObjectPrototype => mapFrom (fun _ q => q) 0 baseQuestions
  | None => baseQuestions
  end.

(** The questions the component renders. *)
Definition questions (company : string) (customPrompts : option (list string))
  : list Question :=
  match customPrompts with
  | Some prompts =>
      if (List.length prompts =? 4)%nat
      then mapFrom (fun i q => withText (nth_error prompts i) q) 0 baseQuestions
      else companyFallback company
  | None => companyFallback company
  end.

End QuickQuestions.

(* ------------------------------------------------------------------ *)
(** ** The theme toggle (components/ThemeToggle.jsx)

    The state of the component with what its effect keeps in step with it:
    the [theme] slot of [localStorage] and the [light-mode] class of the
    document. *)

Module ThemeToggle.

Record t : Type := mk {
  isDark : bool;
  theme : option string;
  lightMode : bool
}.

(** The initial state: [saved] is [localStorage.getItem('theme')] and
    [prefersLight] the match of [(prefers-color-scheme: light)]. *)
Definition initial (saved : option string) (prefersLight : bool) : bool :=
  match saved with
  | Some v => if Str.isEmpty v then negb prefersLight else String.eqb v "dark"
  | None => negb prefersLight
  end.

(** A render with [isDark] set to [dark], and the effect after it. *)
Definition render (dark : bool) : t :=
  {| isDark := dark;
     theme := Some (if dark then "dark" else "light");
     lightMode := negb dark |}.

Definition mount (saved : option string) (prefersLight : bool) : t :=
  render (initial saved prefersLight).

(** A click on the button. *)
Definition toggle (s : t) : t := render (negb (isDark s)).

End ThemeToggle.

(* ------------------------------------------------------------------ *)
(** ** Sharing a chat ([shareChat] of components/ChatInterface.jsx) *)

(** [pieces.join(sep)] *)
Fixpoint joinWith (sep : string) (pieces : list string) : string :=
  match pieces with
  | [] => ""
  | piece :: rest =>
      match rest with
      | [] => piece
      | _ :: _ => piece ++ sep ++ joinWith sep rest
      end
  end.

(** One message of the transcript. *)
Definition shareLine (name : string) (m : Message) : string :=
  (match role m with
   | user => name
   | assistant => "Rayhan's AI"
   end) ++ ": " ++ content m.

Definition shareSeparator : string :=
  String Str.newline (String Str.newline "---")
  ++ String Str.newline (String Str.newline "").

Definition shareHeader : string :=
  "Chat with Rayhan's AI" ++ String Str.newline "=============================="
  ++ String Str.newline (String Str.newline "").

Definition shareFooter : string :=
  String Str.newline (String Str.newline "---")
  ++ String Str.newline "Try it: https://chat.rayhanpatel.com".

(** The text [shareChat] writes to the clipboard. *)
Definition shareText (name : string) (l : list Message) : string :=
  shareHeader ++ joinWith shareSeparator (map (shareLine name) l) ++ shareFooter.

(* ------------------------------------------------------------------ *)
(** ** More runs for the examples *)

Module Runs.

(** Dana's question is answered with status 500, and the body of the
    response has not arrived yet. *)
Definition danaAwaitsErrorBody : list (Event * Z) :=
  (Sample.danaStarts
   ++ [ (CallSendMessage "What are his strengths?" 2000 2000, 2000);
        (FetchResolved 1 500, 2001) ])%list.

(** The Turnstile script loads late; the widget verifies the visitor, the
    token expires, and the widget then fails. *)
Definition widgetFails : list WelcomeForm.Event :=
  [ WelcomeForm.IntervalTick false; WelcomeForm.IntervalTick true;
    WelcomeForm.Callback "token"; WelcomeForm.ExpiredCallback;
    WelcomeForm.ErrorCallback ].

Definition formAfterWidgetFails : WelcomeForm.t :=
  {| WelcomeForm.name := "Dana"; WelcomeForm.company := "";
     WelcomeForm.jobInput := ""; WelcomeForm.isSubmitting := false;
     WelcomeForm.tokenRef := None; WelcomeForm.turnstileReady := false;
     WelcomeForm.widgetRendered := true; WelcomeForm.mounted := true;
     WelcomeForm.polling := false; WelcomeForm.loadTimeout := true;
     WelcomeForm.fallbackTimers := 1 |}.

(** Fifty reads that deliver nothing, while Dana's answer is streamed. *)
Definition silentReads : list (Event * Z) :=
  map (fun r => (ReadResolved 1 (Some r), 3000)) (repeat "" 50).

(** Dana comes back after 23 hours, and leaves the offer unanswered: she
    starts a chat under the modal and asks a question, whose answer begins
    to stream. *)
Definition danaComesBack : State :=
  pageLoad (Some (Session Sample.savedYesterday)) (23 * Sample.hour).

Definition chatUnderModal : list (Event * Z) :=
  [ (CallHandleStart "Dana" "" "" None Sample.uuid, 23 * Sample.hour + 1000);
    (SessionFetchRejected 0 (23 * Sample.hour + 1000), 23 * Sample.hour + 1000);
    (CallSendMessage "What are his strengths?"
       (23 * Sample.hour + 2000) (23 * Sample.hour + 2000),
     23 * Sample.hour + 2000);
    (FetchResolved 1 200, 23 * Sample.hour + 2001) ].

(** She then declines the offer with the Escape key, and the next fragment
    arrives. *)
Definition declinesWhileStreaming : list (Event * Z) :=
  (chatUnderModal
   ++ [ (KeyDown "Escape", 23 * Sample.hour + 2002);
        (ReadResolved 1 (Some (Sample.event "Hello")), 23 * Sample.hour + 2003) ])%list.

End Runs.

(** The calls of [handleStart] and [sendMessage] among the events of a
    trace. *)
Definition isUserCall (e : Event) : bool :=
  match e with
  | CallHandleStart _ _ _ _ _ | CallSendMessage _ _ _ => true
  | _ => false
  end.

Definition userCalls (trace : list (Event * Z)) : nat :=
  List.length (filter (fun et => isUserCall (fst et)) trace).

(* ------------------------------------------------------------------ *)
(** ** Session requests and the calls that make them *)

(** The arguments [name], [companyName], [jobInput] and [turnstileToken] of
    the calls of [handleStart] among the events of a trace, in order. *)
Definition startCalls (trace : list (Event * Z))
  : list (string * string * string * option string) :=
  flat_map (fun et =>
              match fst et with
              | CallHandleStart name companyName jobInput token _ =>
                  [(name, companyName, jobInput, token)]
              | _ => []
              end)
           trace.

(** The bodies of the session-creation requests of a log, in order. *)
Definition sessionBodies (log : list Request) : list SessionBody.t :=
  flat_map (fun r =>
              match r with
              | SessionRequest body => [body]
              | ChatStreamRequest _ _ => []
              end)
           log.

(** What the request made for a call of [handleStart] carries: the name;
    the company and the token, or null; and the job input in exactly one
    place: as [job_url] when its trimmed, lowercased form starts with
    "http", as [job_posting] otherwise (null when it is empty). *)
Definition carries (call : string * string * string * option string)
    (body : SessionBody.t) : Prop :=
  let '(name, companyName, jobInput, token) := call in
  SessionBody.user_name body = name
  /\ SessionBody.company body = (if Str.isEmpty companyName then None
                                 else Some companyName)
  /\ SessionBody.turnstile_token body
     = match token with
       | Some v => if Str.isEmpty v then None else Some v
       | None => None
       end
  /\ (SessionBody.job_posting body = None \/ SessionBody.job_url body = None)
  /\ (SessionBody.job_url body <> None
      <-> Str.startsWith (Str.toLowerCase (Str.trim jobInput)) "http" = true)
  /\ (Str.startsWith (Str.toLowerCase (Str.trim jobInput)) "http" = true ->
      SessionBody.job_url body = Some jobInput)
  /\ (Str.startsWith (Str.toLowerCase (Str.trim jobInput)) "http" = false ->
      SessionBody.job_posting body
      = if Str.isEmpty jobInput then None else Some jobInput).

(* ================================================================== *)
(** * Properties *)

(** ** Strings *)

Example split_lines :
  Str.split Str.newline
    ("data: a" ++ String Str.newline (String Str.newline "data: b"))
  = ["data: a"; ""; "data: b"].
Proof. reflexivity. Qed.

Example trim_unicode :
  Str.trim ("  " ++ Str.bytes [194; 160]%nat ++ "Http x "
            ++ Str.bytes [226; 128; 137; 10]%nat) = "Http x".
Proof. reflexivity. Qed.

Example trim_keeps_inner : Str.trim (" a  b" ++ String Str.newline "") = "a  b".
Proof. reflexivity. Qed.

Example lower_ascii : Str.toLowerCase "HTTPs://X.y" = "https://x.y".
Proof. reflexivity. Qed.

Example status_text : Str.ofZ 429 = "429" /\ Str.ofZ 500 = "500".
Proof. split; reflexivity. Qed.

Lemma trimStart_whiteSpace (w s : string) :
  In w Str.whiteSpace -> Str.trimStart (w ++ s) = Str.trimStart s.
Proof.
  intros Hin. cbv [Str.whiteSpace Str.bytes map string_of_list_ascii] in Hin.
  simpl in Hin.
  repeat (destruct Hin as [<- | Hin]; [reflexivity | ]).
  contradiction.
Qed.

Lemma trimStart_whitespaceOnly (s : string) :
  Str.WhitespaceOnly s -> Str.trimStart s = "".
Proof.
  induction 1 as [ | w s Hin _ IH]; [reflexivity | ].
  now rewrite trimStart_whiteSpace.
Qed.

Lemma trim_whitespaceOnly (s : string) :
  Str.WhitespaceOnly s -> Str.trim s = "".
Proof.
  intros Hs. unfold Str.trim. now rewrite trimStart_whitespaceOnly.
Qed.

Lemma prefix_app (p s : string) : String.prefix p (p ++ s) = true.
Proof.
  induction p as [ | c p IH]; simpl.
  - now destruct s.
  - destruct (ascii_dec c c) as [_ | Hne]; [exact IH | now elim Hne].
Qed.

Lemma includes_prefix (s sub : string) :
  String.prefix sub s = true -> Str.includes s sub = true.
Proof. destruct s; simpl; intros ->; reflexivity. Qed.

Lemma includes_app (pre sub post : string) :
  Str.includes (pre ++ sub ++ post) sub = true.
Proof.
  induction pre as [ | c pre IH].
  - apply (includes_prefix (sub ++ post) sub), prefix_app.
  - change (Str.includes (String c pre ++ sub ++ post) sub)
      with (String.prefix sub (String c (pre ++ sub ++ post))
            || Str.includes (pre ++ sub ++ post) sub).
    rewrite IH. apply orb_true_r.
Qed.

(** ** Lists of messages *)

Lemma message_eta (m : Message) :
  {| id := id m; role := role m; content := content m |} = m.
Proof. now destruct m. Qed.

Lemma mapContent_ext (aiId : Z) (f g : string -> string) (l : list Message) :
  (forall c, f c = g c) -> mapContent aiId f l = mapContent aiId g l.
Proof.
  intros Hfg. unfold mapContent. apply map_ext. intros m.
  destruct (id m =? aiId); [now rewrite Hfg | reflexivity].
Qed.

Lemma mapContent_compose (aiId : Z) (f g : string -> string) (l : list Message) :
  mapContent aiId f (mapContent aiId g l) = mapContent aiId (fun c => f (g c)) l.
Proof.
  unfold mapContent. rewrite map_map. apply map_ext. intros m.
  destruct (id m =? aiId) eqn:E; simpl; now rewrite E.
Qed.

Lemma mapContent_id (aiId : Z) (f : string -> string) (l : list Message) :
  (forall c, f c = c) -> mapContent aiId f l = l.
Proof.
  intros Hf. unfold mapContent. rewrite <- (map_id l) at 2. apply map_ext.
  intros m. destruct (id m =? aiId); [ | reflexivity].
  rewrite Hf. apply message_eta.
Qed.

Lemma mapContent_app (aiId : Z) (f : string -> string) (l l' : list Message) :
  mapContent aiId f (l ++ l')%list
  = (mapContent aiId f l ++ mapContent aiId f l')%list.
Proof. apply map_app. Qed.

Lemma mapContent_roles (aiId : Z) (f : string -> string) (l : list Message) :
  map role (mapContent aiId f l) = map role l.
Proof.
  unfold mapContent. rewrite map_map. apply map_ext. intros m.
  now destruct (id m =? aiId).
Qed.

(** Whether turns alternate depends on the roles only. *)
Lemma noAdjacentAssistants_roles (l l' : list Message) :
  map role l = map role l' ->
  noAdjacentAssistants l = noAdjacentAssistants l'.
Proof.
  revert l'. induction l as [ | m l IH]; intros [ | m' l'] Hroles;
    try discriminate; [reflexivity | ].
  injection Hroles as Hm Hl. simpl. rewrite <- Hm.
  rewrite (IH l' Hl).
  destruct l as [ | m1 l1], l' as [ | m1' l1']; try discriminate; [reflexivity | ].
  injection Hl as Hm1 _. now rewrite Hm1.
Qed.

Lemma noAdjacentAssistants_mapContent (aiId : Z) (f : string -> string)
    (l : list Message) :
  noAdjacentAssistants (mapContent aiId f l) = noAdjacentAssistants l.
Proof. apply noAdjacentAssistants_roles, mapContent_roles. Qed.

(** A user turn followed by an assistant turn can be appended to any
    alternating sequence. *)
Lemma noAdjacentAssistants_turn (l : list Message) (u a : Message) :
  role u = user ->
  noAdjacentAssistants (l ++ [u; a])%list = noAdjacentAssistants l.
Proof.
  intros Hu. induction l as [ | m l IH]; simpl.
  - rewrite Hu. now destruct (role a).
  - rewrite IH. destruct l as [ | m1 l1]; simpl; [ | reflexivity].
    rewrite Hu. now destruct (role m).
Qed.

Lemma join_app (l l' : list string) :
  Str.join (l ++ l')%list = Str.join l ++ Str.join l'.
Proof.
  induction l as [ | x l IH]; simpl; [reflexivity | ].
  rewrite IH. 
  generalize (Str.join l) (Str.join l'). clear.
  induction x as [ | c x IHx]; intros a b; simpl; [reflexivity | now rewrite IHx].
Qed.

Lemma append_empty (s : string) : s ++ "" = s.
Proof. induction s as [ | c s IH]; simpl; [reflexivity | now rewrite IH]. Qed.

Lemma append_assoc (a b c : string) : (a ++ b) ++ c = a ++ (b ++ c).
Proof. induction a as [ | x a IH]; simpl; [reflexivity | now rewrite IH]. Qed.

(** ** The read loop *)

(** Two states are equal when their parts are. *)
Lemma state_eq (s s' : State) : hook s = hook s' -> env s = env s' -> s = s'.
Proof. destruct s, s'; simpl; now intros -> ->. Qed.

Lemma setMessages_twice (f g : list Message -> list Message) (s : State) :
  setMessages f (setMessages g s) = setMessages (fun l => f (g l)) s.
Proof. reflexivity. Qed.

Lemma setMessages_ext (f g : list Message -> list Message) (s : State) :
  f (messages s) = g (messages s) -> setMessages f s = setMessages g s.
Proof. intros Hfg. unfold setMessages, onHook, onEnv. simpl. now rewrite Hfg. Qed.

Section ReadLoop.
Context `{JsEngine}.

Lemma processLine_lineChunk (aiId : Z) (line : string) (s : State) :
  processLine aiId line s
  = match lineChunk line with
    | Some text => setMessages (mapContent aiId (fun c => c ++ text)) s
    | None => s
    end.
Proof.
  unfold processLine, lineChunk.
  destruct (String.eqb (Str.slice 6 line) "[DONE]"); [reflexivity | ].
  destruct (JSON_parse (Str.slice 6 line)) as [parsed | ]; [ | reflexivity].
  destruct (Js.prop parsed "chunk") as [chunk | ]; [ | reflexivity].
  now destruct (Js.truthy chunk).
Qed.

Lemma chunksOf_cons (line : string) (lines : list string) :
  chunksOf (line :: lines) = chunkOf line ++ chunksOf lines.
Proof. reflexivity. Qed.

Lemma chunksOf_app (lines lines' : list string) :
  chunksOf (lines ++ lines') = chunksOf lines ++ chunksOf lines'.
Proof. unfold chunksOf. now rewrite map_app, join_app. Qed.

Lemma chunksOf_none (lines : list string) :
  existsb hasChunk lines = false -> chunksOf lines = "".
Proof.
  induction lines as [ | line lines IH]; [reflexivity | ].
  simpl. intros Hno. apply orb_false_iff in Hno as [Hline Hrest].
  rewrite chunksOf_cons, (IH Hrest). unfold chunkOf.
  unfold hasChunk in Hline. now destruct (lineChunk line).
Qed.

(** What one read does to the state: the chunk payloads of its data lines
    are appended, in order, to the content of the messages with the id of
    the assistant message; without a payload nothing is set. *)
Lemma readLines_chunksOf (aiId : Z) (lines : list string) (s : State) :
  readLines aiId lines s
  = if existsb hasChunk lines
    then setMessages (mapContent aiId (fun c => c ++ chunksOf lines)) s
    else s.
Proof.
  revert s. induction lines as [ | line lines IH]; intros s; [reflexivity | ].
  change (readLines aiId (line :: lines) s)
    with (readLines aiId lines (processLine aiId line s)).
  rewrite IH, processLine_lineChunk, chunksOf_cons. simpl existsb.
  unfold hasChunk at 2, chunkOf.
  destruct (lineChunk line) as [text | ]; simpl.
  - destruct (existsb hasChunk lines) eqn:Hrest.
    + rewrite setMessages_twice. apply setMessages_ext.
      rewrite mapContent_compose. apply mapContent_ext.
      intros c. apply append_assoc.
    + rewrite (chunksOf_none lines Hrest).
      apply setMessages_ext, mapContent_ext. intros c. now rewrite append_empty.
  - reflexivity.
Qed.

Lemma readLines_hook (aiId : Z) (lines : list string) (s : State) :
  hook (readLines aiId lines s)
  = with_messages
      (mapContent aiId (fun c => c ++ chunksOf lines) (messages s)) (hook s).
Proof.
  rewrite readLines_chunksOf.
  destruct (existsb hasChunk lines) eqn:Hany; [reflexivity | ].
  rewrite (chunksOf_none lines Hany), mapContent_id by apply append_empty.
  now destruct s as [[] ?].
Qed.

Lemma readLines_env (aiId : Z) (lines : list string) (s : State) :
  env (readLines aiId lines s)
  = put_arraysReplaced (arraysReplaced s || existsb hasChunk lines) (env s).
Proof.
  rewrite readLines_chunksOf.
  destruct (existsb hasChunk lines); simpl.
  - now rewrite orb_true_r.
  - rewrite orb_false_r. now destruct s as [? []].
Qed.

End ReadLoop.

(** ** Case analysis of a transition *)

Lemma findTurn_controller (c : nat) (l : list Turn) (t : Turn) :
  findTurn c l = Some t -> controller t = c.
Proof.
  unfold findTurn. intros Hfind. apply find_some in Hfind as [_ Heq].
  now apply Nat.eqb_eq.
Qed.

Lemma findStart_key (k : nat) (l : list Start) (a : Start) :
  findStart k l = Some a -> startKey a = k.
Proof.
  unfold findStart. intros Hfind. apply find_some in Hfind as [_ Heq].
  now apply Nat.eqb_eq.
Qed.

Lemma guard_some (b : bool) (s s' : State) :
  guard b s = Some s' -> b = true /\ s' = s.
Proof. destruct b; simpl; [intros [= <-]; now split | discriminate]. Qed.

Section Cases.
Context `{JsEngine}.

(** Every transition applies one of the operations of the hook; a resumed
    activation is one that was suspended. *)
Lemma step_elim (P : State -> Prop) (s : State) :
  P s ->
  P (handleContinueSession s) ->
  P (handleStartFresh s) ->
  P (handleReset s) ->
  (forall name companyName jobInput token uuid,
      P (handleStart name companyName jobInput token uuid s)) ->
  (forall a sid' welcome' prompts now,
      findStart (startKey a) (starts s) = Some a ->
      P (startChat a sid' welcome' prompts now s)) ->
  (forall a,
      findStart (startKey a) (starts s) = Some a ->
      P (suspendStart {| startKey := startKey a; sid := sid a;
                         welcome := welcome a;
                         startPhase := AwaitSessionJson |} s)) ->
  (forall text now1 now2, P (sendMessage text now1 now2 s)) ->
  (forall t err,
      findTurn (controller t) (turns s) = Some t -> P (catchTurn t err s)) ->
  (forall t status,
      findTurn (controller t) (turns s) = Some t ->
      P (turnResponded t status s)) ->
  (forall t r,
      findTurn (controller t) (turns s) = Some t -> P (turnRead t r s)) ->
  forall e s', step s e = Some s' -> P s'.
Proof.
  intros Hsame Hcont Hfresh Hreset Hstart Hchat Hjson Hsend Hcatch Hresp Hread
         e s' Hstep.
  destruct e; unfold step in Hstep.
  - injection Hstep as <-. exact Hcont.
  - injection Hstep as <-. exact Hfresh.
  - injection Hstep as <-. exact Hreset.
  - injection Hstep as <-. unfold handleKeyDown.
    destruct (String.eqb key "Escape"); [ | exact Hsame].
    destruct (showResumeModal s); [exact Hfresh | ].
    destruct (hasStarted s); [exact Hreset | exact Hsame].
  - injection Hstep as <-. apply Hstart.
  - destruct (findStart k (starts s)) as [a | ] eqn:Hfind; [ | discriminate].
    pose proof (findStart_key _ _ _ Hfind) as <-.
    destruct (startPhase a); [ | discriminate].
    injection Hstep as <-. unfold startFailed, startAnswered.
    apply Hchat. exact Hfind.
  - destruct (findStart k (starts s)) as [a | ] eqn:Hfind; [ | discriminate].
    pose proof (findStart_key _ _ _ Hfind) as <-.
    destruct (startPhase a); [ | discriminate].
    injection Hstep as <-. unfold startResponded.
    destruct ok; [apply Hjson | apply Hchat]; exact Hfind.
  - destruct (findStart k (starts s)) as [a | ] eqn:Hfind; [ | discriminate].
    pose proof (findStart_key _ _ _ Hfind) as <-.
    destruct (startPhase a); [discriminate | ].
    injection Hstep as <-. unfold startFailed, startAnswered.
    apply Hchat. exact Hfind.
  - destruct (findStart k (starts s)) as [a | ] eqn:Hfind; [ | discriminate].
    pose proof (findStart_key _ _ _ Hfind) as <-.
    destruct (startPhase a); [discriminate | ].
    injection Hstep as <-. unfold startFailed, startAnswered.
    apply Hchat. exact Hfind.
  - injection Hstep as <-. apply Hsend.
  - destruct (findTurn c (turns s)) as [t | ] eqn:Hfind; [ | discriminate].
    pose proof (findTurn_controller _ _ _ Hfind) as <-.
    destruct (turnPhase t); try discriminate.
    apply guard_some in Hstep as [_ ->]. unfold turnErrorBody.
    apply Hcatch. exact Hfind.
  - destruct (findTurn c (turns s)) as [t | ] eqn:Hfind; [ | discriminate].
    pose proof (findTurn_controller _ _ _ Hfind) as <-.
    destruct (turnPhase t); try discriminate.
    apply guard_some in Hstep as [_ ->]. apply Hresp. exact Hfind.
  - destruct (findTurn c (turns s)) as [t | ] eqn:Hfind; [ | discriminate].
    pose proof (findTurn_controller _ _ _ Hfind) as <-.
    destruct (turnPhase t); try discriminate.
    apply guard_some in Hstep as [_ ->]. unfold turnErrorBody.
    apply Hcatch. exact Hfind.
  - destruct (findTurn c (turns s)) as [t | ] eqn:Hfind; [ | discriminate].
    pose proof (findTurn_controller _ _ _ Hfind) as <-.
    destruct (turnPhase t); try discriminate.
    apply guard_some in Hstep as [_ ->]. apply Hread. exact Hfind.
  - destruct (findTurn c (turns s)) as [t | ] eqn:Hfind; [ | discriminate].
    pose proof (findTurn_controller _ _ _ Hfind) as <-.
    destruct (turnPhase t); try discriminate.
    apply guard_some in Hstep as [_ ->]. unfold turnErrorBody.
    apply Hcatch. exact Hfind.
Qed.

End Cases.

(** ** Renders *)

Lemma commit_hook (now : Z) (s : State) : hook (commit now s) = hook s.
Proof.
  unfold commit, saveEffect.
  destruct (depsChanged s); [ | reflexivity].
  destruct (hasStarted s && (0 <? Z.of_nat (List.length (messages s))));
    reflexivity.
Qed.

Lemma commit_flight (now : Z) (s : State) :
  turns (commit now s) = turns s
  /\ starts (commit now s) = starts s
  /\ aborted (commit now s) = aborted s
  /\ fresh (commit now s) = fresh s
  /\ requests (commit now s) = requests s.
Proof.
  unfold commit, saveEffect.
  destruct (depsChanged s); [ | repeat split].
  destruct (hasStarted s && (0 <? Z.of_nat (List.length (messages s))));
    repeat split.
Qed.

Lemma commit_committed (now : Z) (s : State) : committed (commit now s).
Proof.
  unfold committed. rewrite commit_hook. unfold commit, saveEffect.
  destruct (depsChanged s); [ | now split].
  destruct (hasStarted s && (0 <? Z.of_nat (List.length (messages s))));
    now split.
Qed.

Lemma depsChanged_committed (s : State) : committed s -> depsChanged s = false.
Proof.
  intros [Hrendered Hreplaced]. unfold depsChanged.
  rewrite Hreplaced, Hrendered, !String.eqb_refl, !Bool.eqb_reflx.
  reflexivity.
Qed.

(** Rendering a page that shows the current state changes nothing. *)
Lemma commit_idle (now : Z) (s : State) : committed s -> commit now s = s.
Proof.
  intros Hs. unfold commit. rewrite (depsChanged_committed s Hs).
  destruct Hs as [Hrendered Hreplaced].
  apply state_eq; [reflexivity | ].
  destruct s as [h e]. destruct e. simpl in *. now subst.
Qed.

(** ** At most one turn in flight *)

Lemma flightInv_frame (s s' : State) :
  turns s' = turns s ->
  isLoadingRef s' = isLoadingRef s ->
  streamAbortRef s' = streamAbortRef s ->
  aborted s' = aborted s ->
  fresh s' = fresh s ->
  flightInv s -> flightInv s'.
Proof.
  unfold flightInv, turnsInv, freshInv.
  now intros -> -> -> -> ->.
Qed.

Lemma turnsInv_found (s : State) (c : nat) (t : Turn) :
  turnsInv s -> findTurn c (turns s) = Some t ->
  turns s = [t] /\ isLoadingRef s = true /\ streamAbortRef s = Some (controller t).
Proof.
  unfold turnsInv, findTurn. destruct (turns s) as [ | t1 [ | t2 l]]; simpl.
  - discriminate.
  - intros [Href Hctl]. destruct (Nat.eqb (controller t1) c); [ | discriminate].
    now intros [= <-].
  - contradiction.
Qed.

Lemma flightInv_commit (now : Z) (s : State) :
  flightInv s -> flightInv (commit now s).
Proof.
  destruct (commit_flight now s) as (Ht & _ & Ha & Hf & _).
  apply flightInv_frame; try assumption; now rewrite commit_hook.
Qed.

Lemma flightInv_pageLoad (storage : option Stored) (now : Z) :
  flightInv (pageLoad storage now).
Proof.
  unfold pageLoad. apply flightInv_commit.
  apply (flightInv_frame (blank storage)).
  1-5: unfold restoreEffect;
       destruct (localStorage (blank storage)) as [[ | session] | ];
       try reflexivity;
       destruct (negb (Saved.savedAt session =? 0)
                 && (now - Saved.savedAt session >? SESSION_TTL_MS));
       try reflexivity;
       destruct (negb (Str.isEmpty (Saved.userName session))
                 && (0 <? Z.of_nat (List.length (Saved.messages session))));
       reflexivity.
  repeat split; simpl; [discriminate | constructor].
Qed.

Lemma freshInv_next (s s' : State) :
  fresh s' = S (fresh s) ->
  (forall c, streamAbortRef s' = Some c ->
             streamAbortRef s = Some c \/ c = fresh s) ->
  (forall c, In c (aborted s') -> In c (aborted s)) ->
  freshInv s -> freshInv s'.
Proof.
  unfold freshInv. intros Hfresh Href Hab [Hr Ha]. rewrite Hfresh. split.
  - intros c Hc. destruct (Href c Hc) as [Hold | ->]; [ | lia].
    specialize (Hr c Hold). lia.
  - rewrite Forall_forall in *. intros c Hc. specialize (Ha c (Hab c Hc)). lia.
Qed.

Section Flight.
Context `{JsEngine}.

Lemma flightInv_step (s s' : State) (e : Event) :
  flightInv s -> step s e = Some s' -> flightInv s'.
Proof.
  intros Hinv. revert e s'.
  apply step_elim with (P := flightInv).
  - exact Hinv.
  - (* handleContinueSession *)
    revert Hinv. apply flightInv_frame; unfold handleContinueSession;
      destruct (pendingSession s); reflexivity.
  - revert Hinv. apply flightInv_frame; reflexivity.
  - (* handleReset *)
    destruct Hinv as [Hturns [Href Hab]]. split.
    + revert Hturns. unfold turnsInv.
      change (turns (handleReset s)) with (turns (abortStream s)).
      change (isLoadingRef (handleReset s)) with (isLoadingRef (abortStream s)).
      change (streamAbortRef (handleReset s))
        with (streamAbortRef (abortStream s)).
      unfold abortStream.
      destruct (streamAbortRef s) as [c | ] eqn:Hc; simpl; rewrite ?Hc; trivial.
    + unfold freshInv.
      change (fresh (handleReset s)) with (fresh (abortStream s)).
      change (aborted (handleReset s)) with (aborted (abortStream s)).
      change (streamAbortRef (handleReset s))
        with (streamAbortRef (abortStream s)).
      unfold abortStream.
      destruct (streamAbortRef s) as [c | ] eqn:Hc; simpl; rewrite ?Hc;
        [ | now split].
      split; [exact Href | ].
      constructor; [now apply Href | exact Hab].
  - (* handleStart *)
    intros. destruct Hinv as [Hturns Hfresh]. split; [exact Hturns | ].
    revert Hfresh. apply freshInv_next; [reflexivity | now left | trivial].
  - intros. revert Hinv. apply flightInv_frame; reflexivity.
  - intros. revert Hinv. apply flightInv_frame; reflexivity.
  - (* sendMessage *)
    intros text now1 now2. unfold sendMessage.
    destruct (Str.isEmpty (Str.trim text) || isLoadingRef s) eqn:Hguard;
      [exact Hinv | ].
    apply orb_false_iff in Hguard as [_ Hidle].
    destruct Hinv as [Hturns Hfresh]. split.
    + unfold turnsInv in *. unfold suspendTurn, takeFresh, onEnv. simpl.
      destruct (turns s) as [ | t1 [ | t2 l]]; simpl.
      * now split.
      * destruct Hturns as [Hbusy _]. congruence.
      * contradiction.
    + revert Hfresh. apply freshInv_next; [reflexivity | | trivial].
      simpl. intros c [= <-]. now right.
  - (* catch and finally *)
    intros t err Hfind.
    destruct (turnsInv_found s _ t (proj1 Hinv) Hfind) as (Hts & Hbusy & Hctl).
    destruct Hinv as [_ Hfresh]. unfold catchTurn.
    destruct (String.eqb (Err.name err) "AbortError"); split.
    1, 3: unfold turnsInv, finallyTurn, dropTurn, onEnv; simpl;
          rewrite Hts; simpl; rewrite Nat.eqb_refl; reflexivity.
    1, 2: exact Hfresh.
  - (* the response arrived *)
    intros t status Hfind.
    destruct (turnsInv_found s _ t (proj1 Hinv) Hfind) as (Hts & Hbusy & Hctl).
    destruct Hinv as [_ Hfresh]. split; [ | exact Hfresh].
    unfold turnsInv, turnResponded, suspendTurn, onEnv. simpl.
    rewrite Hts. simpl. rewrite Nat.eqb_refl. simpl. now split.
  - (* a read resolved *)
    intros t r Hfind.
    destruct (turnsInv_found s _ t (proj1 Hinv) Hfind) as (Hts & Hbusy & Hctl).
    destruct Hinv as [_ Hfresh]. unfold turnRead. destruct r as [text | ].
    + split.
      * unfold turnsInv, suspendTurn, onEnv. simpl.
        rewrite readLines_env, readLines_hook. simpl.
        rewrite Hts. simpl. rewrite Nat.eqb_refl. simpl. now split.
      * unfold freshInv, suspendTurn, onEnv. simpl.
        rewrite readLines_env, readLines_hook. exact Hfresh.
    + split; [ | exact Hfresh].
      unfold turnsInv, finallyTurn, dropTurn, onEnv; simpl.
      rewrite Hts; simpl; rewrite Nat.eqb_refl; reflexivity.
Qed.

Lemma flightInv_run (s s' : State) (et : Event * Z) :
  flightInv s -> run s et = Some s' -> flightInv s'.
Proof.
  unfold run. intros Hinv Hrun.
  destruct (step s (fst et)) as [s1 | ] eqn:Hstep; [ | discriminate].
  injection Hrun as <-. apply flightInv_commit.
  exact (flightInv_step _ _ _ Hinv Hstep).
Qed.

Lemma reachable_flightInv (storage : option Stored) (now : Z) (s : State) :
  reachable storage now s -> flightInv s.
Proof.
  induction 1 as [ | s et s' _ IH Hrun].
  - apply flightInv_pageLoad.
  - exact (flightInv_run _ _ _ IH Hrun).
Qed.

Lemma reachable_committed (storage : option Stored) (now : Z) (s : State) :
  reachable storage now s -> committed s.
Proof.
  induction 1 as [ | s et s' _ _ Hrun].
  - apply commit_committed.
  - unfold run in Hrun.
    destruct (step s (fst et)) as [s1 | ]; [ | discriminate].
    injection Hrun as <-. apply commit_committed.
Qed.

End Flight.

(** ** Turn order *)

Lemma turnOrderInv_frame (s s' : State) :
  messages s' = messages s ->
  localStorage s' = localStorage s ->
  pendingSession s' = pendingSession s ->
  turnOrderInv s -> turnOrderInv s'.
Proof. unfold turnOrderInv. now intros -> -> ->. Qed.

Lemma turnOrderInv_commit (now : Z) (s : State) :
  turnOrderInv s -> turnOrderInv (commit now s).
Proof.
  intros (Hm & Hs & Hp). unfold turnOrderInv. rewrite commit_hook.
  repeat split; try assumption.
  unfold commit, saveEffect.
  destruct (depsChanged s); [ | exact Hs].
  destruct (hasStarted s && (0 <? Z.of_nat (List.length (messages s))));
    [exact Hm | exact Hs].
Qed.

Lemma turnOrderInv_pageLoad (storage : option Stored) (now : Z) :
  storedOk storage = true -> turnOrderInv (pageLoad storage now).
Proof.
  intros Hok. unfold pageLoad. apply turnOrderInv_commit.
  unfold restoreEffect.
  change (localStorage (blank storage)) with storage.
  destruct storage as [[ | session] | ]; try (now repeat split).
  destruct (negb (Saved.savedAt session =? 0)
            && (now - Saved.savedAt session >? SESSION_TTL_MS));
    [now repeat split | ].
  destruct (negb (Str.isEmpty (Saved.userName session))
            && (0 <? Z.of_nat (List.length (Saved.messages session))));
    now repeat split.
Qed.

Ltac order_parts Hm Hs Hp :=
  (split; [ | split]); first [exact Hm | exact Hs | exact Hp | reflexivity].

Section TurnOrder.
Context `{JsEngine}.

Lemma turnOrderInv_step (s s' : State) (e : Event) :
  turnOrderInv s -> step s e = Some s' -> turnOrderInv s'.
Proof.
  intros Hinv. revert e s'.
  apply step_elim with (P := turnOrderInv).
  - exact Hinv.
  - (* handleContinueSession *)
    destruct Hinv as (Hm & Hs & Hp). unfold handleContinueSession.
    destruct (pendingSession s) as [p | ]; order_parts Hm Hs Hp.
  - destruct Hinv as (Hm & Hs & Hp). order_parts Hm Hs Hp.
  - (* handleReset *)
    unfold turnOrderInv.
    change (messages (handleReset s)) with (@nil Message).
    change (localStorage (handleReset s)) with (@None Stored).
    change (pendingSession (handleReset s))
      with (pendingSession (abortStream s)).
    destruct Hinv as (Hm & Hs & Hp).
    unfold abortStream. destruct (streamAbortRef s); order_parts Hm Hs Hp.
  - intros. revert Hinv. apply turnOrderInv_frame; reflexivity.
  - (* the chat starts *)
    intros. destruct Hinv as (Hm & Hs & Hp). order_parts Hm Hs Hp.
  - intros. revert Hinv. apply turnOrderInv_frame; reflexivity.
  - (* sendMessage *)
    intros text now1 now2. unfold sendMessage.
    destruct (Str.isEmpty (Str.trim text) || isLoadingRef s); [exact Hinv | ].
    destruct Hinv as (Hm & Hs & Hp). repeat split; try assumption.
    change (noAdjacentAssistants
              ((messages s
                ++ [ {| id := now1; role := user; content := text |} ])
               ++ [ {| id := now2 + 1; role := assistant; content := "" |} ])%list
            = true).
    rewrite <- app_assoc. simpl app.
    now rewrite noAdjacentAssistants_turn.
  - (* catch and finally *)
    intros t err _. unfold catchTurn.
    destruct (String.eqb (Err.name err) "AbortError").
    + revert Hinv. apply turnOrderInv_frame; reflexivity.
    + destruct Hinv as (Hm & Hs & Hp). repeat split; try assumption.
      change (noAdjacentAssistants
                (mapContent (aiMessageId t) (fun _ => fallbackContent)
                            (messages s)) = true).
      now rewrite noAdjacentAssistants_mapContent.
  - intros. revert Hinv. apply turnOrderInv_frame; reflexivity.
  - (* a read resolved *)
    intros t r _. unfold turnRead. destruct r as [text | ].
    + destruct Hinv as (Hm & Hs & Hp).
      unfold turnOrderInv, suspendTurn, onEnv. simpl.
      rewrite readLines_env, readLines_hook. simpl.
      rewrite noAdjacentAssistants_mapContent. order_parts Hm Hs Hp.
    + revert Hinv. apply turnOrderInv_frame; reflexivity.
Qed.

Lemma reachable_turnOrderInv (storage : option Stored) (now : Z) (s : State) :
  storedOk storage = true -> reachable storage now s -> turnOrderInv s.
Proof.
  intros Hok. induction 1 as [ | s et s' _ IH Hrun].
  - now apply turnOrderInv_pageLoad.
  - unfold run in Hrun.
    destruct (step s (fst et)) as [s1 | ] eqn:Hstep; [ | discriminate].
    injection Hrun as <-. apply turnOrderInv_commit.
    exact (turnOrderInv_step _ _ _ IH Hstep).
Qed.

End TurnOrder.

(* ------------------------------------------------------------------ *)
(** ** The guards of [sendMessage] *)

Lemma sendMessage_rejected (text : string) (now1 now2 : Z) (s : State) :
  Str.isEmpty (Str.trim text) || isLoadingRef s = true ->
  sendMessage text now1 now2 s = s.
Proof. unfold sendMessage. now intros ->. Qed.

Lemma sendMessage_admitted (text : string) (now1 now2 : Z) (s : State) :
  Str.isEmpty (Str.trim text) = false -> isLoadingRef s = false ->
  messages (sendMessage text now1 now2 s)
  = (messages s
     ++ [ {| id := now1; role := user; content := text |};
          {| id := now2 + 1; role := assistant; content := "" |} ])%list.
Proof.
  intros Htext Hidle. unfold sendMessage. rewrite Htext, Hidle. simpl.
  now rewrite <- app_assoc.
Qed.

Section Guards.
Context `{JsEngine}.

(** C10.  Sending an empty or whitespace-only query changes nothing: the
    state after the call, and after the render that follows it, is the state
    before (messages, loading flags, error, session and storage), and the
    list of requests made is the same. *)
Theorem blank_query_is_noop (s : State) (text : string) (now1 now2 : Z) :
  Str.WhitespaceOnly text ->
  step s (CallSendMessage text now1 now2) = Some s
  /\ (forall t, committed s -> run s (CallSendMessage text now1 now2, t) = Some s).
Proof.
  intros Hblank.
  assert (Hsame : sendMessage text now1 now2 s = s).
  { apply sendMessage_rejected. now rewrite (trim_whitespaceOnly text Hblank). }
  split.
  - unfold step. now rewrite Hsame.
  - intros t Hs. unfold run, step, fst, snd, option_map.
    now rewrite Hsame, commit_idle.
Qed.

(** Which events clear the busy flag. *)
Lemma busy_cleared (s s' : State) (e : Event) :
  turnsInv s -> step s e = Some s' ->
  isLoadingRef s = true -> isLoadingRef s' = false ->
  exists t, turns s = [t] /\ endsTurn (controller t) e /\ turns s' = [].
Proof.
  intros Hinv Hstep Hbusy Hidle.
  destruct e; unfold step in Hstep.
  - injection Hstep as <-. exfalso. revert Hidle.
    unfold handleContinueSession. destruct (pendingSession s); simpl; congruence.
  - injection Hstep as <-. exfalso. simpl in Hidle. congruence.
  - injection Hstep as <-. exfalso. revert Hidle.
    change (isLoadingRef (handleReset s)) with (isLoadingRef (abortStream s)).
    unfold abortStream. destruct (streamAbortRef s); simpl; congruence.
  - injection Hstep as <-. exfalso. revert Hidle. unfold handleKeyDown.
    destruct (String.eqb key "Escape"); [ | congruence].
    destruct (showResumeModal s); [simpl; congruence | ].
    destruct (hasStarted s); [ | congruence].
    change (isLoadingRef (handleReset s)) with (isLoadingRef (abortStream s)).
    unfold abortStream. destruct (streamAbortRef s); simpl; congruence.
  - injection Hstep as <-. exfalso. simpl in Hidle. congruence.
  - destruct (findStart k (starts s)) as [a | ]; [ | discriminate].
    destruct (startPhase a); [ | discriminate].
    injection Hstep as <-. exfalso. simpl in Hidle. congruence.
  - destruct (findStart k (starts s)) as [a | ]; [ | discriminate].
    destruct (startPhase a); [ | discriminate].
    injection Hstep as <-. exfalso. destruct ok; simpl in Hidle; congruence.
  - destruct (findStart k (starts s)) as [a | ]; [ | discriminate].
    destruct (startPhase a); [discriminate | ].
    injection Hstep as <-. exfalso. simpl in Hidle. congruence.
  - destruct (findStart k (starts s)) as [a | ]; [ | discriminate].
    destruct (startPhase a); [discriminate | ].
    injection Hstep as <-. exfalso. simpl in Hidle. congruence.
  - injection Hstep as <-. exfalso.
    rewrite sendMessage_rejected in Hidle; [congruence | ].
    rewrite Hbusy. apply orb_true_r.
  - destruct (findTurn c (turns s)) as [t | ] eqn:Hfind; [ | discriminate].
    pose proof (findTurn_controller _ _ _ Hfind) as Hc.
    destruct (turnsInv_found s c t Hinv Hfind) as (Hts & _ & _).
    destruct (turnPhase t); try discriminate.
    apply guard_some in Hstep as [_ ->].
    exists t. split; [exact Hts | ]. split; [now simpl | ].
    unfold catchTurn. destruct (String.eqb (Err.name err) "AbortError");
      unfold finallyTurn, dropTurn, onEnv; simpl;
      rewrite Hts; simpl; now rewrite Nat.eqb_refl.
  - destruct (findTurn c (turns s)) as [t | ] eqn:Hfind; [ | discriminate].
    destruct (turnPhase t); try discriminate.
    apply guard_some in Hstep as [_ ->]. exfalso. simpl in Hidle. congruence.
  - destruct (findTurn c (turns s)) as [t | ] eqn:Hfind; [ | discriminate].
    pose proof (findTurn_controller _ _ _ Hfind) as Hc.
    destruct (turnsInv_found s c t Hinv Hfind) as (Hts & _ & _).
    destruct (turnPhase t); try discriminate.
    apply guard_some in Hstep as [_ ->].
    exists t. split; [exact Hts | ]. split; [now simpl | ].
    unfold turnErrorBody, catchTurn.
    destruct (String.eqb (Err.name _) "AbortError");
      unfold finallyTurn, dropTurn, onEnv; simpl;
      rewrite Hts; simpl; now rewrite Nat.eqb_refl.
  - destruct (findTurn c (turns s)) as [t | ] eqn:Hfind; [ | discriminate].
    pose proof (findTurn_controller _ _ _ Hfind) as Hc.
    destruct (turnsInv_found s c t Hinv Hfind) as (Hts & _ & _).
    destruct (turnPhase t); try discriminate.
    apply guard_some in Hstep as [_ ->].
    destruct r as [text | ].
    + exfalso. revert Hidle. unfold turnRead, suspendTurn, onEnv. simpl.
      rewrite readLines_hook. simpl. congruence.
    + exists t. split; [exact Hts | ]. split; [now simpl | ].
      unfold turnRead, finallyTurn, dropTurn, onEnv; simpl;
      rewrite Hts; simpl; now rewrite Nat.eqb_refl.
  - destruct (findTurn c (turns s)) as [t | ] eqn:Hfind; [ | discriminate].
    pose proof (findTurn_controller _ _ _ Hfind) as Hc.
    destruct (turnsInv_found s c t Hinv Hfind) as (Hts & _ & _).
    destruct (turnPhase t); try discriminate.
    apply guard_some in Hstep as [_ ->].
    exists t. split; [exact Hts | ]. split; [now simpl | ].
    unfold catchTurn. destruct (String.eqb (Err.name err) "AbortError");
      unfold finallyTurn, dropTurn, onEnv; simpl;
      rewrite Hts; simpl; now rewrite Nat.eqb_refl.
Qed.

(** C4.  In a loaded page at most one turn is in flight, and the busy flag
    is set exactly while there is one; a call of [sendMessage] made while the
    flag is set returns with the state as it was (no message appended, no
    request made); and the flag is cleared only by the event that ends the
    turn in flight: its stream is done, or its fetch, error body or read has
    failed or was aborted. *)
Theorem one_turn_at_a_time (storage : option Stored) (now : Z) (s : State) :
  reachable storage now s ->
  (List.length (turns s) <= 1)%nat
  /\ (isLoadingRef s = true <-> exists t, turns s = [t])
  /\ (isLoadingRef s = true ->
      forall text now1 now2 t,
        run s (CallSendMessage text now1 now2, t) = Some s
        /\ messages (sendMessage text now1 now2 s) = messages s
        /\ requests (sendMessage text now1 now2 s) = requests s)
  /\ (forall e s',
        step s e = Some s' ->
        isLoadingRef s = true -> isLoadingRef s' = false ->
        exists t, turns s = [t] /\ endsTurn (controller t) e /\ turns s' = []).
Proof.
  intros Hreach.
  destruct (reachable_flightInv _ _ _ Hreach) as [Hturns _].
  pose proof (reachable_committed _ _ _ Hreach) as Hcommitted.
  split; [ | split; [ | split]].
  - unfold turnsInv in Hturns.
    destruct (turns s) as [ | t1 [ | t2 l]]; simpl; [lia | lia | contradiction].
  - unfold turnsInv in Hturns. split.
    + intros Hbusy.
      destruct (turns s) as [ | t1 [ | t2 l]];
        [congruence | now exists t1 | contradiction].
    + intros [t Ht]. rewrite Ht in Hturns. tauto.
  - intros Hbusy text now1 now2 t.
    assert (Hsame : sendMessage text now1 now2 s = s).
    { apply sendMessage_rejected. rewrite Hbusy. apply orb_true_r. }
    rewrite Hsame. split; [ | now split].
    unfold run, step, fst, snd, option_map.
    now rewrite Hsame, commit_idle.
  - intros e s' Hstep. now apply busy_cleared.
Qed.

End Guards.

(* ------------------------------------------------------------------ *)
(** ** Turn order and session requests *)

Section Sessions.
Context `{JsEngine}.

(** C5.  In a page loaded over a storage whose saved messages alternate (or
    that holds none), the message sequence never has two consecutive
    assistant turns: the chat starts with the welcome as its only message,
    an assistant turn, and an admitted [sendMessage] appends one user turn
    followed by one assistant turn. *)
Theorem no_consecutive_assistant_turns
    (storage : option Stored) (now : Z) (s : State) :
  storedOk storage = true ->
  reachable storage now s ->
  noAdjacentAssistants (messages s) = true
  /\ (forall a sid' welcome' prompts t,
        messages (startChat a sid' welcome' prompts t s)
        = [ {| id := t; role := assistant; content := welcome' |} ])
  /\ (forall text now1 now2,
        Str.isEmpty (Str.trim text) = false -> isLoadingRef s = false ->
        messages (sendMessage text now1 now2 s)
        = (messages s
           ++ [ {| id := now1; role := user; content := text |};
                {| id := now2 + 1; role := assistant; content := "" |} ])%list).
Proof.
  intros Hok Hreach. split; [ | split].
  - exact (proj1 (reachable_turnOrderInv _ _ _ Hok Hreach)).
  - reflexivity.
  - intros. now apply sendMessage_admitted.
Qed.

End Sessions.

Lemma sessionBody_carries (name companyName jobInput : string)
    (token : option string) :
  carries (name, companyName, jobInput, token)
          (sessionBody name companyName jobInput token).
Proof.
  unfold carries, sessionBody, isUrl, orNull. simpl.
  split; [reflexivity | ]. split; [reflexivity | ]. split; [reflexivity | ].
  destruct (Str.startsWith (Str.toLowerCase (Str.trim jobInput)) "http").
  - split; [now left | ]. split; [split; [reflexivity | discriminate] | ].
    split; [reflexivity | discriminate].
  - split; [now right | ]. split; [split; [now intros Hne | discriminate] | ].
    split; [discriminate | reflexivity].
Qed.

Lemma sessionBodies_app (l l' : list Request) :
  sessionBodies (l ++ l') = (sessionBodies l ++ sessionBodies l')%list.
Proof. apply flat_map_app. Qed.

Section SessionRequests.
Context `{JsEngine}.

(** The session requests a transition makes: the one of [handleStart], for
    its arguments, and no other. *)
Lemma step_sessionBodies (s s' : State) (e : Event) :
  step s e = Some s' ->
  sessionBodies (requests s')
  = (sessionBodies (requests s)
     ++ match e with
        | CallHandleStart name companyName jobInput token _ =>
            [sessionBody name companyName jobInput token]
        | _ => []
        end)%list.
Proof.
  intros Hstep.
  assert (Hnone : forall x : State,
            requests x = requests s ->
            sessionBodies (requests x) = (sessionBodies (requests s) ++ [])%list).
  { intros x ->. now rewrite app_nil_r. }
  destruct e; unfold step in Hstep.
  - injection Hstep as <-. apply Hnone.
    unfold handleContinueSession. now destruct (pendingSession s).
  - injection Hstep as <-. now apply Hnone.
  - injection Hstep as <-. apply Hnone.
    change (requests (handleReset s)) with (requests (abortStream s)).
    unfold abortStream. now destruct (streamAbortRef s).
  - injection Hstep as <-. apply Hnone. unfold handleKeyDown.
    destruct (String.eqb key "Escape"); [ | reflexivity].
    destruct (showResumeModal s); [reflexivity | ].
    destruct (hasStarted s); [ | reflexivity].
    change (requests (handleReset s)) with (requests (abortStream s)).
    unfold abortStream. now destruct (streamAbortRef s).
  - injection Hstep as <-.
    change (requests (handleStart name companyName jobInput turnstileToken uuid s))
      with (requests s
            ++ [SessionRequest
                  (sessionBody name companyName jobInput turnstileToken)])%list.
    now rewrite sessionBodies_app.
  - destruct (findStart k (starts s)) as [a | ]; [ | discriminate].
    destruct (startPhase a); [ | discriminate].
    injection Hstep as <-. now apply Hnone.
  - destruct (findStart k (starts s)) as [a | ]; [ | discriminate].
    destruct (startPhase a); [ | discriminate].
    injection Hstep as <-. apply Hnone. now destruct ok.
  - destruct (findStart k (starts s)) as [a | ]; [ | discriminate].
    destruct (startPhase a); [discriminate | ].
    injection Hstep as <-. now apply Hnone.
  - destruct (findStart k (starts s)) as [a | ]; [ | discriminate].
    destruct (startPhase a); [discriminate | ].
    injection Hstep as <-. now apply Hnone.
  - injection Hstep as <-. unfold sendMessage.
    destruct (Str.isEmpty (Str.trim messageText) || isLoadingRef s);
      [now apply Hnone | ].
    match goal with
    | |- sessionBodies (requests ?x) = _ =>
        change (requests x)
          with (requests s
                ++ [ChatStreamRequest
                      {| ChatBody.query := messageText;
                         ChatBody.session_id := sessionId s;
                         ChatBody.user_name := userName s;
                         ChatBody.company := orNull (company s);
                         ChatBody.job_posting := orNull (jobPosting s) |}
                      (fresh s)])%list
    end.
    now rewrite sessionBodies_app.
  - destruct (findTurn c (turns s)) as [t | ]; [ | discriminate].
    destruct (turnPhase t); try discriminate.
    apply guard_some in Hstep as [_ ->]. apply Hnone. unfold catchTurn.
    now destruct (String.eqb (Err.name err) "AbortError").
  - destruct (findTurn c (turns s)) as [t | ]; [ | discriminate].
    destruct (turnPhase t); try discriminate.
    apply guard_some in Hstep as [_ ->]. now apply Hnone.
  - destruct (findTurn c (turns s)) as [t | ]; [ | discriminate].
    destruct (turnPhase t); try discriminate.
    apply guard_some in Hstep as [_ ->]. apply Hnone.
    unfold turnErrorBody, catchTurn.
    now destruct (String.eqb (Err.name _) "AbortError").
  - destruct (findTurn c (turns s)) as [t | ]; [ | discriminate].
    destruct (turnPhase t); try discriminate.
    apply guard_some in Hstep as [_ ->]. apply Hnone.
    unfold turnRead. destruct r as [text | ]; [ | reflexivity].
    unfold suspendTurn, onEnv. simpl. now rewrite readLines_env.
  - destruct (findTurn c (turns s)) as [t | ]; [ | discriminate].
    destruct (turnPhase t); try discriminate.
    apply guard_some in Hstep as [_ ->]. apply Hnone. unfold catchTurn.
    now destruct (String.eqb (Err.name err) "AbortError").
Qed.

(** C9.  The session-creation requests sent over any sequence of events are
    those of the calls of [handleStart] among the events, one for each call
    and in their order, and the request of a call carries the job input that
    call received in exactly one place: at most one of [job_posting] and
    [job_url] is not null, [job_url] is not null exactly when the trimmed,
    lowercased job input starts with "http", and it is then that input;
    otherwise [job_posting] is the input, or null when the input is
    empty. *)
Theorem job_text_and_url_exclusive (s s' : State) (trace : list (Event * Z)) :
  runAll s trace = Some s' ->
  exists bodies,
    sessionBodies (requests s') = (sessionBodies (requests s) ++ bodies)%list
    /\ Forall2 carries (startCalls trace) bodies.
Proof.
  revert s. induction trace as [ | et trace IH]; intros s Hrun.
  - injection Hrun as <-. exists []. rewrite app_nil_r.
    split; [reflexivity | constructor].
  - change (runAll s (et :: trace))
      with (match run s et with
            | Some s1 => runAll s1 trace
            | None => None
            end) in Hrun.
    unfold run in Hrun.
    destruct (step s (fst et)) as [s1 | ] eqn:Hstep; [ | discriminate].
    simpl option_map in Hrun.
    destruct (IH _ Hrun) as (rest & Hrest & Hcarried).
    destruct (commit_flight (snd et) s1) as (_ & _ & _ & _ & Hkept).
    rewrite Hkept, (step_sessionBodies _ _ _ Hstep), <- app_assoc in Hrest.
    eexists. split; [exact Hrest | ].
    unfold startCalls. simpl flat_map. fold (startCalls trace).
    destruct (fst et); try exact Hcarried.
    simpl app. constructor; [apply sessionBody_carries | exact Hcarried].
Qed.

End SessionRequests.

(* ------------------------------------------------------------------ *)
(** ** Expiry of a saved session *)

Lemma pageLoad_cases (storage : option Stored) (now : Z) :
  hook (pageLoad storage now) = hook (restoreEffect now (blank storage))
  /\ localStorage (pageLoad storage now)
     = localStorage (restoreEffect now (blank storage)).
Proof.
  unfold pageLoad. rewrite commit_hook. split; [reflexivity | ].
  unfold commit.
  replace (depsChanged (restoreEffect now (blank storage))) with false;
    [reflexivity | ].
  unfold restoreEffect. change (localStorage (blank storage)) with storage.
  destruct storage as [[ | session] | ]; try reflexivity.
  destruct (negb (Saved.savedAt session =? 0)
            && (now - Saved.savedAt session >? SESSION_TTL_MS));
    [reflexivity | ].
  destruct (negb (Str.isEmpty (Saved.userName session))
            && (0 <? Z.of_nat (List.length (Saved.messages session))));
    reflexivity.
Qed.

(** C1, as the hook has it.  The age of a saved session is counted from its
    last save: every run of the save effect that writes stamps the session
    with the time of that run, and a page load drops a session with a
    non-zero stamp (and offers no resumption) once more than 24 hours have
    passed since that stamp; until then a session with a user name and
    messages is offered for resumption, however long ago it was created. *)
Theorem expiry_counts_from_last_save
    (session : Saved.t) (now : Z) (s : State) (t : Z) :
  Saved.savedAt session <> 0 ->
  (now - Saved.savedAt session > SESSION_TTL_MS ->
     localStorage (pageLoad (Some (Session session)) now) = None
     /\ showResumeModal (pageLoad (Some (Session session)) now) = false
     /\ pendingSession (pageLoad (Some (Session session)) now) = None)
  /\ (now - Saved.savedAt session <= SESSION_TTL_MS ->
      Saved.userName session <> "" -> Saved.messages session <> [] ->
      localStorage (pageLoad (Some (Session session)) now) = Some (Session session)
      /\ showResumeModal (pageLoad (Some (Session session)) now) = true
      /\ pendingSession (pageLoad (Some (Session session)) now) = Some session)
  /\ (hasStarted s = true -> messages s <> [] ->
      exists saved,
        localStorage (saveEffect t s) = Some (Session saved)
        /\ Saved.messages saved = messages s
        /\ Saved.savedAt saved = t).
Proof.
  intros Hstamp. split; [ | split].
  - intros Hold.
    destruct (pageLoad_cases (Some (Session session)) now) as [-> ->].
    unfold restoreEffect.
    change (localStorage (blank _)) with (Some (Session session)).
    cbv beta iota.
    replace (Saved.savedAt session =? 0) with false
      by (symmetry; now apply Z.eqb_neq).
    replace (now - Saved.savedAt session >? SESSION_TTL_MS) with true
      by (symmetry; apply Z.gtb_lt; lia).
    now repeat split.
  - intros Hyoung Hname Hmessages.
    destruct (pageLoad_cases (Some (Session session)) now) as [-> ->].
    unfold restoreEffect.
    change (localStorage (blank _)) with (Some (Session session)).
    cbv beta iota.
    replace (now - Saved.savedAt session >? SESSION_TTL_MS) with false
      by (symmetry; rewrite Z.gtb_ltb; apply Z.ltb_ge; lia).
    rewrite andb_false_r.
    replace (Str.isEmpty (Saved.userName session)) with false
      by (destruct (Saved.userName session); [congruence | reflexivity]).
    replace (0 <? Z.of_nat (List.length (Saved.messages session))) with true
      by (destruct (Saved.messages session); [congruence | reflexivity]).
    now repeat split.
  - intros Hstarted Hmessages. unfold saveEffect. rewrite Hstarted.
    replace (0 <? Z.of_nat (List.length (messages s))) with true
      by (destruct (messages s); [congruence | reflexivity]).
    eexists. now repeat split.
Qed.

(* ------------------------------------------------------------------ *)
(** ** Errors of a chat request *)

Lemma catchTurn_error (t : Turn) (err : Err.t) (s : State) :
  String.eqb (Err.name err) "AbortError" = false ->
  error (catchTurn t err s) = Some (shownError err).
Proof. intros Hname. unfold catchTurn. now rewrite Hname. Qed.

Lemma catchTurn_abort (t : Turn) (err : Err.t) (s : State) :
  String.eqb (Err.name err) "AbortError" = true ->
  catchTurn t err s = finallyTurn t s.
Proof. intros Hname. unfold catchTurn. now rewrite Hname. Qed.

Lemma statusMessage_differs (status : Z) :
  "HTTP error! status: " ++ Str.ofZ status <> rateLimitMessage.
Proof. discriminate. Qed.

Section HttpErrors.
Context `{JsEngine}.

Lemma httpError_name (status : Z) (errorData : JsVal) :
  String.eqb (Err.name (httpError status errorData)) "AbortError" = false.
Proof.
  unfold httpError, typeError.
  destruct (Js.prop errorData "detail") as [detail | ]; [ | reflexivity].
  destruct (Js.isObject detail); [ | reflexivity].
  destruct (Js.prop detail "message"); [ | reflexivity].
  destruct (Js.prop detail "error"); reflexivity.
Qed.

Lemma httpError_status (status : Z) (errorData : JsVal) :
  detailRead errorData = true ->
  Err.status (httpError status errorData) = Some status.
Proof.
  unfold detailRead, httpError.
  destruct (Js.prop errorData "detail") as [detail | ]; [ | discriminate].
  destruct detail; try discriminate; reflexivity.
Qed.

(** Without a [detail] in the body, the message names the status. *)
Lemma httpError_no_detail (status : Z) :
  httpError status (JObj [])
  = {| Err.name := "Error";
       Err.message := "HTTP error! status: " ++ Str.ofZ status;
       Err.status := Some status |}.
Proof. reflexivity. Qed.

(** A [detail] that is a text is the message. *)
Lemma httpError_text_detail (status : Z) (text : string) (rest : list (string * JsVal)) :
  text <> "" ->
  Err.message (httpError status (JObj (("detail", JStr text) :: rest))) = text.
Proof. intros Hne. destruct text; [congruence | reflexivity]. Qed.

(** C7, as the hook has it.  A response that is not ok ends the turn with an
    error text.  With status 429, and an error body read as far as its
    [detail], the text is the fixed rate-limit message.  With any other
    status the text is the message of the error built from the body: what
    the body's [detail] says, or "HTTP error! status: N" when the body has
    no [detail] or could not be read (which is not the rate-limit message),
    or the generic failure message when that message is empty.  It differs from the
    rate-limit message unless the body's message is that very text. *)
Theorem rate_limit_is_distinguished
    (t : Turn) (status : Z) (body : option JsVal) (s : State) :
  responseOk status = false ->
  let err := httpError status (errorDataOf body) in
  (status = 429 -> detailRead (errorDataOf body) = true ->
     error (turnErrorBody t status body s) = Some rateLimitMessage)
  /\ (status <> 429 ->
      error (turnErrorBody t status body s)
      = Some (if Str.isEmpty (Err.message err) then genericFailureMessage
              else Err.message err))
  /\ (status <> 429 ->
      Js.prop (errorDataOf body) "detail" = Some JUndefined ->
      error (turnErrorBody t status body s)
      = Some ("HTTP error! status: " ++ Str.ofZ status))
  /\ (status <> 429 -> Err.message err <> rateLimitMessage ->
      error (turnErrorBody t status body s) <> Some rateLimitMessage).
Proof.
  intros Hnotok err.
  assert (Herror : error (turnErrorBody t status body s) = Some (shownError err)).
  { unfold turnErrorBody. apply catchTurn_error, httpError_name. }
  assert (Hother : status <> 429 ->
            shownError err
            = if Str.isEmpty (Err.message err) then genericFailureMessage
              else Err.message err).
  { intros Hne. unfold shownError.
    destruct (Err.status err) as [code | ] eqn:Hcode; [ | reflexivity].
    assert (code = status) as ->.
    { subst err. unfold httpError, typeError in Hcode.
      destruct (Js.prop (errorDataOf body) "detail") as [detail | ];
        [ | discriminate].
      destruct (Js.isObject detail).
      - destruct (Js.prop detail "message"); [ | discriminate].
        destruct (Js.prop detail "error"); [ | discriminate].
        simpl in Hcode. congruence.
      - simpl in Hcode. congruence. }
    destruct status as [ | p | p]; try reflexivity.
    repeat (destruct p as [p | p | ]; try reflexivity). congruence. }
  rewrite Herror. split; [ | split; [ | split]].
  - intros -> Hread. unfold shownError. subst err.
    now rewrite (httpError_status 429 _ Hread).
  - intros Hne. now rewrite (Hother Hne).
  - intros Hne Hnone. rewrite (Hother Hne). subst err.
    unfold httpError. now rewrite Hnone.
  - intros Hne Hmsg. rewrite (Hother Hne).
    destruct (Str.isEmpty (Err.message err)); [discriminate | ].
    congruence.
Qed.

End HttpErrors.

(* ------------------------------------------------------------------ *)
(** ** Starting a chat *)

Lemma find_suspended_start (a : Start) (l : list Start) :
  findStart (startKey a)
    (filter (fun b => negb (Nat.eqb (startKey b) (startKey a))) l ++ [a])%list
  = Some a.
Proof.
  unfold findStart. induction l as [ | b l IH]; simpl.
  - now rewrite Nat.eqb_refl.
  - destruct (Nat.eqb (startKey b) (startKey a)) eqn:Hkey; simpl;
      [exact IH | now rewrite Hkey].
Qed.

Lemma findStart_commit_suspend (a : Start) (t : Z) (s : State) :
  findStart (startKey a) (starts (commit t (suspendStart a s))) = Some a.
Proof.
  destruct (commit_flight t (suspendStart a s)) as (_ & -> & _).
  apply find_suspended_start.
Qed.

Lemma localWelcome_includes (name companyName : string) :
  Str.includes (localWelcome name companyName) name = true.
Proof. unfold localWelcome. apply (includes_app "Hi " name). Qed.

Lemma isUUID_nonempty (v : string) : isUUID v = true -> v <> "".
Proof. now intros Hv ->. Qed.

Section Starting.
Context `{JsEngine}.

Lemma startChat_started (name : string) (a : Start) (sid' welcome' : string)
    (prompts : option (list string)) (now t : Z) (s : State) :
  sid' <> "" -> Str.includes welcome' name = true ->
  started name (commit t (startChat a sid' welcome' prompts now s)).
Proof.
  intros Hsid Hwelcome. unfold started. rewrite commit_hook.
  split; [exact Hsid | ]. split; [reflexivity | ].
  eexists. split; [reflexivity | ]. split; [reflexivity | exact Hwelcome].
Qed.

(** C8.  Creating a session with a name, no company and no job text starts
    the chat with a non-empty session identifier and, as its only message,
    an assistant welcome containing the name: the identifier and welcome of
    the backend when it answers as the spec has it, and the local UUID and
    the locally built welcome when the request fails, times out, is answered
    with an error status, or its body cannot be read. *)
Theorem session_creation_starts_chat
    (s : State) (name : string) (token : option string) (uuid : string)
    (o : SessionOutcome) (now t0 t : Z) :
  isUUID uuid = true ->
  answersAsSpecified name o ->
  exists s',
    runAll s ((CallHandleStart name "" "" token uuid, t0)
              :: sessionEvents (fresh s) o now t) = Some s'
    /\ started name s'
    /\ match o with
       | Answers data =>
           sessionId s' = SessionData.session_id data
           /\ messages s'
              = [ {| id := now; role := assistant;
                     content := SessionData.welcome_message data |} ]
       | _ =>
           sessionId s' = uuid
           /\ messages s'
              = [ {| id := now; role := assistant;
                     content := localWelcome name "" |} ]
       end.
Proof.
  intros Huuid Hspec. apply isUUID_nonempty in Huuid.
  set (a := {| startKey := fresh s; sid := uuid;
               welcome := localWelcome name ""; startPhase := AwaitSession |}).
  set (s0 := s |> setUserName name |> setCompany "" |> setJobPosting ""
               |> fetch (SessionRequest (sessionBody name "" "" token))).
  assert (Hfirst : run s (CallHandleStart name "" "" token uuid, t0)
                   = Some (commit t0 (takeFresh (suspendStart a s0)))) by reflexivity.
  assert (Hfind : findStart (fresh s)
                    (starts (commit t0 (takeFresh (suspendStart a s0)))) = Some a).
  { destruct (commit_flight t0 (takeFresh (suspendStart a s0))) as (_ & -> & _).
    apply (find_suspended_start a). }
  set (s1 := commit t0 (takeFresh (suspendStart a s0))) in *.
  unfold runAll. rewrite Hfirst. clear Hfirst.
  destruct o as [ | | | data]; unfold sessionEvents.
  - (* the fetch is rejected *)
    unfold run at 1, step, fst, snd. rewrite Hfind. simpl startPhase. cbv iota.
    unfold option_map. eexists. split; [reflexivity | ].
    split; [ | rewrite commit_hook; now split].
    unfold startFailed.
    apply startChat_started; [exact Huuid | apply localWelcome_includes].
  - (* the response is not ok *)
    unfold run at 1, step, fst, snd. rewrite Hfind. simpl startPhase. cbv iota.
    unfold option_map, startResponded. eexists. split; [reflexivity | ].
    split; [ | rewrite commit_hook; now split].
    unfold startFailed.
    apply startChat_started; [exact Huuid | apply localWelcome_includes].
  - (* the body cannot be read *)
    unfold run at 1, step, fst, snd. rewrite Hfind. simpl startPhase. cbv iota.
    unfold option_map, startResponded.
    set (a' := {| startKey := startKey a; sid := sid a; welcome := welcome a;
                  startPhase := AwaitSessionJson |}).
    unfold run, step, fst, snd.
    change (fresh s) with (startKey a').
    rewrite (findStart_commit_suspend a' t s1). simpl startPhase. cbv iota.
    unfold option_map. eexists. split; [reflexivity | ].
    split; [ | rewrite commit_hook; now split].
    unfold startFailed.
    apply startChat_started; [exact Huuid | apply localWelcome_includes].
  - (* the backend answers *)
    destruct Hspec as [Hsid Hwelcome].
    unfold run at 1, step, fst, snd. rewrite Hfind. simpl startPhase. cbv iota.
    unfold option_map, startResponded.
    set (a' := {| startKey := startKey a; sid := sid a; welcome := welcome a;
                  startPhase := AwaitSessionJson |}).
    unfold run, step, fst, snd.
    change (fresh s) with (startKey a').
    rewrite (findStart_commit_suspend a' t s1). simpl startPhase. cbv iota.
    unfold option_map. eexists. split; [reflexivity | ].
    split; [ | rewrite commit_hook; now split].
    unfold startAnswered. apply startChat_started; assumption.
Qed.

End Starting.

(* ------------------------------------------------------------------ *)
(** ** A turn, event by event *)

Lemma lastMessage_mapContent (aiId : Z) (f : string -> string)
    (l : list Message) (u a : Message) (s : State) :
  messages s = mapContent aiId f (l ++ [u; a])%list ->
  id a = aiId ->
  lastMessage s
  = Some {| id := id a; role := role a; content := f (content a) |}.
Proof.
  intros Hm Ha. unfold lastMessage. rewrite Hm. unfold mapContent.
  rewrite <- map_rev, rev_app_distr. simpl.
  apply Z.eqb_eq in Ha. now rewrite Ha.
Qed.

Lemma isAborted_fresh (s : State) :
  freshInv s -> isAborted (fresh s) s = false.
Proof.
  intros [_ Hab]. unfold isAborted.
  destruct (existsb (Nat.eqb (fresh s)) (aborted s)) eqn:E; [ | reflexivity].
  apply existsb_exists in E as (c & Hin & Heq). apply Nat.eqb_eq in Heq.
  rewrite Forall_forall in Hab. specialize (Hab c Hin). lia.
Qed.

Section Turns.
Context `{JsEngine}.

Lemma runAll_app (s : State) (l l' : list (Event * Z)) :
  runAll s (l ++ l')
  = match runAll s l with
    | Some s' => runAll s' l'
    | None => None
    end.
Proof.
  revert s. induction l as [ | et l IH]; intros s; [reflexivity | ].
  simpl. destruct (run s et); [apply IH | reflexivity].
Qed.

Lemma turn_eta (t : Turn) :
  turnPhase t = AwaitRead ->
  {| aiMessageId := aiMessageId t; controller := controller t;
     turnPhase := AwaitRead |} = t.
Proof. destruct t. simpl. now intros ->. Qed.

Lemma hook_eta_messages (s : State) : with_messages (messages s) (hook s) = hook s.
Proof. now destruct s as [[] ?]. Qed.

(** One read: its chunks are appended, the loop is suspended again. *)
Lemma run_read (t : Turn) (text : string) (tm : Z) (s : State) :
  reading t s ->
  exists s',
    run s (ReadResolved (controller t) (Some text), tm) = Some s'
    /\ reading t s'
    /\ hook s'
       = with_messages
           (mapContent (aiMessageId t)
              (fun c => c ++ chunksOf (dataLines text)) (messages s))
           (hook s)
    /\ requests s' = requests s.
Proof.
  intros (Hturns & Hphase & Hlive).
  exists (commit tm (turnRead t (Some text) s)). split.
  { unfold run, step, fst, snd. rewrite Hturns. unfold findTurn, find.
    now rewrite Nat.eqb_refl, Hphase, Hlive. }
  destruct (commit_flight tm (turnRead t (Some text) s))
    as (Hts & _ & Hab & _ & Hreq).
  split; [ | split].
  - unfold reading, isAborted. rewrite Hts, Hab. unfold turnRead.
    unfold suspendTurn, onEnv. simpl. rewrite readLines_env. simpl.
    rewrite Hturns. simpl. rewrite Nat.eqb_refl. simpl.
    rewrite (turn_eta t Hphase). now repeat split.
  - rewrite commit_hook. unfold turnRead, suspendTurn, onEnv. simpl.
    apply readLines_hook.
  - rewrite Hreq. unfold turnRead, suspendTurn, onEnv. simpl.
    now rewrite readLines_env.
Qed.

(** The reads of a stream, one after the other: the text assembled is
    appended to the content of the assistant message. *)
Lemma run_reads (t : Turn) (reads : list string) (tm : Z) (s : State) :
  reading t s ->
  exists s',
    runAll s (map (fun text => (ReadResolved (controller t) (Some text), tm)) reads)
    = Some s'
    /\ reading t s'
    /\ hook s'
       = with_messages
           (mapContent (aiMessageId t)
              (fun c => c ++ assembledText reads) (messages s))
           (hook s)
    /\ requests s' = requests s.
Proof.
  revert s. induction reads as [ | text reads IH]; intros s Hs.
  - exists s. split; [reflexivity | ]. split; [exact Hs | ]. split; [ | reflexivity].
    rewrite mapContent_id by apply append_empty.
    symmetry. apply hook_eta_messages.
  - destruct (run_read t text tm s Hs) as (s1 & Hrun & Hs1 & Hhook & Hreq).
    destruct (IH s1 Hs1) as (s' & Hall & Hs' & Hhook' & Hreq').
    exists s'. simpl map. simpl runAll. rewrite Hrun.
    split; [exact Hall | ]. split; [exact Hs' | ]. split; [ | congruence].
    rewrite Hhook'.
    replace (messages s1)
      with (mapContent (aiMessageId t)
              (fun c => c ++ chunksOf (dataLines text)) (messages s))
      by now rewrite Hhook.
    rewrite Hhook, mapContent_compose.
    unfold assembledText. simpl flat_map. rewrite chunksOf_app.
    rewrite (mapContent_ext (aiMessageId t)
               (fun c => (c ++ chunksOf (dataLines text))
                         ++ chunksOf (flat_map dataLines reads))
               (fun c => c ++ chunksOf (dataLines text)
                           ++ chunksOf (flat_map dataLines reads)))
      by (intros c; apply append_assoc).
    reflexivity.
Qed.

End Turns.

Section TurnStart.
Context `{JsEngine}.

Lemma runAll_cons (s : State) (et : Event * Z) (l : list (Event * Z)) :
  runAll s (et :: l)
  = match run s et with
    | Some s' => runAll s' l
    | None => None
    end.
Proof. reflexivity. Qed.

(** An admitted call: the two messages are appended, the request is made,
    and the activation awaits the response. *)
Lemma run_send (text : string) (now1 now2 tm : Z) (s : State) :
  flightInv s -> isLoadingRef s = false -> Str.isEmpty (Str.trim text) = false ->
  exists s1,
    run s (CallSendMessage text now1 now2, tm) = Some s1
    /\ turns s1 = [newTurn now2 s AwaitFetch]
    /\ isAborted (fresh s) s1 = false
    /\ hook s1 = hook (sendMessage text now1 now2 s)
    /\ error s1 = None
    /\ messages s1
       = (messages s
          ++ [ {| id := now1; role := user; content := text |};
               {| id := now2 + 1; role := assistant; content := "" |} ])%list.
Proof.
  intros [Hturns Hfresh] Hidle Htext.
  exists (commit tm (sendMessage text now1 now2 s)).
  split; [reflexivity | ].
  destruct (commit_flight tm (sendMessage text now1 now2 s))
    as (Hts & _ & Hab & _ & _).
  assert (Hnone : turns s = []).
  { unfold turnsInv in Hturns.
    destruct (turns s) as [ | t1 [ | t2 l]];
      [reflexivity | destruct Hturns; congruence | contradiction]. }
  rewrite commit_hook.
  split; [ | split; [ | split; [ | split]]].
  - rewrite Hts. unfold sendMessage. rewrite Htext, Hidle. simpl.
    now rewrite Hnone.
  - unfold isAborted. rewrite Hab.
    replace (aborted (sendMessage text now1 now2 s)) with (aborted s)
      by (unfold sendMessage; now rewrite Htext, Hidle).
    now apply isAborted_fresh.
  - reflexivity.
  - unfold sendMessage. now rewrite Htext, Hidle.
  - now apply sendMessage_admitted.
Qed.

(** The response is ok: the read loop starts. *)
Lemma run_response (t : Turn) (status tm : Z) (s : State) :
  turns s = [t] -> turnPhase t = AwaitFetch ->
  isAborted (controller t) s = false -> responseOk status = true ->
  exists s',
    run s (FetchResolved (controller t) status, tm) = Some s'
    /\ reading {| aiMessageId := aiMessageId t; controller := controller t;
                  turnPhase := AwaitRead |} s'
    /\ hook s' = hook s.
Proof.
  intros Hturns Hphase Hlive Hok.
  exists (commit tm (turnResponded t status s)). split.
  { unfold run, step, fst, snd. rewrite Hturns. unfold findTurn, find.
    now rewrite Nat.eqb_refl, Hphase, Hlive. }
  destruct (commit_flight tm (turnResponded t status s))
    as (Hts & _ & Hab & _ & _).
  split; [ | now rewrite commit_hook].
  unfold reading, isAborted. rewrite Hts, Hab.
  unfold turnResponded, suspendTurn, onEnv. simpl.
  rewrite Hturns, Hok. simpl. rewrite Nat.eqb_refl. simpl. now repeat split.
Qed.

(** A turn up to its last read: the assistant message holds the text
    assembled from the reads, and no error is set. *)
Lemma run_turn (text : string) (now1 now2 : Z) (status : Z)
    (reads : list string) (tm : Z) (s : State) :
  flightInv s -> isLoadingRef s = false -> Str.isEmpty (Str.trim text) = false ->
  responseOk status = true ->
  exists s',
    runAll s (turnEvents text now1 now2 (fresh s) status reads tm) = Some s'
    /\ reading (newTurn now2 s AwaitRead) s'
    /\ error s' = None
    /\ messages s'
       = mapContent (now2 + 1) (fun c => c ++ assembledText reads)
           (messages s
            ++ [ {| id := now1; role := user; content := text |};
                 {| id := now2 + 1; role := assistant; content := "" |} ])%list.
Proof.
  intros Hinv Hidle Htext Hok.
  destruct (run_send text now1 now2 tm s Hinv Hidle Htext)
    as (s1 & Hrun1 & Hturns1 & Hlive1 & _ & Herr1 & Hmsg1).
  destruct (run_response (newTurn now2 s AwaitFetch) status tm s1
              Hturns1 eq_refl Hlive1 Hok)
    as (s2 & Hrun2 & Hreading2 & Hhook2).
  destruct (run_reads _ reads tm s2 Hreading2)
    as (s' & Hrun' & Hreading' & Hhook' & _).
  exists s'. unfold turnEvents.
  rewrite runAll_cons, Hrun1, runAll_cons.
  change (fresh s) with (controller (newTurn now2 s AwaitFetch)) at 1.
  rewrite Hrun2.
  split; [exact Hrun' | ]. split; [exact Hreading' | ].
  rewrite Hhook'. simpl. rewrite Hhook2.
  split; [exact Herr1 | now rewrite Hmsg1].
Qed.

(** C6.  A turn cancelled while its stream is read: [handleReset] aborts the
    controller of the turn in flight; from then on the stream delivers
    nothing to the turn, whose pending read can only reject with an
    AbortError; that rejection makes no request, sets no error and leaves
    the messages as they are (the fallback is not substituted), and ends the
    turn.  In any state, the catch of an AbortError changes neither
    messages, nor error, nor the requests made. *)
Theorem abort_is_not_an_error
    (storage : option Stored) (now : Z) (s : State) (t : Turn) (err : Err.t)
    (t1 t2 : Z) :
  reachable storage now s ->
  turns s = [t] -> turnPhase t = AwaitRead ->
  Err.name err = "AbortError" ->
  (exists s1 s2,
     run s (CallHandleReset, t1) = Some s1
     /\ (forall r t3, run s1 (ReadResolved (controller t) r, t3) = None)
     /\ (forall err' t3 s',
           run s1 (ReadRejected (controller t) err', t3) = Some s' ->
           Err.name err' = "AbortError")
     /\ run s1 (ReadRejected (controller t) err, t2) = Some s2
     /\ messages s2 = messages s1
     /\ error s2 = None
     /\ requests s2 = requests s
     /\ isLoading s2 = false
     /\ isLoadingRef s2 = false
     /\ turns s2 = [])
  /\ (forall s0,
        messages (catchTurn t err s0) = messages s0
        /\ error (catchTurn t err s0) = error s0
        /\ requests (catchTurn t err s0) = requests s0).
Proof.
  intros Hreach Hturns Hphase Hname.
  assert (Habort : String.eqb (Err.name err) "AbortError" = true)
    by (now rewrite Hname).
  split.
  2: { intros s0. now rewrite (catchTurn_abort t err s0 Habort). }
  destruct (reachable_flightInv _ _ _ Hreach) as [Hinv _].
  unfold turnsInv in Hinv. rewrite Hturns in Hinv. destruct Hinv as [_ Href].
  destruct (commit_flight t1 (handleReset s)) as (Hts & _ & Hab & _ & Hreq).
  assert (Hturns1 : turns (commit t1 (handleReset s)) = [t]).
  { rewrite Hts.
    change (turns (handleReset s)) with (turns (abortStream s)).
    unfold abortStream. now rewrite Href. }
  assert (Hdead : isAborted (controller t) (commit t1 (handleReset s)) = true).
  { unfold isAborted. rewrite Hab.
    change (aborted (handleReset s)) with (aborted (abortStream s)).
    unfold abortStream. rewrite Href. simpl. now rewrite Nat.eqb_refl. }
  assert (Hrun1 : run s (CallHandleReset, t1) = Some (commit t1 (handleReset s)))
    by reflexivity.
  assert (Herr1 : error (commit t1 (handleReset s)) = None)
    by (now rewrite commit_hook).
  assert (Hreq1 : requests (commit t1 (handleReset s)) = requests s).
  { rewrite Hreq.
    change (requests (handleReset s)) with (requests (abortStream s)).
    unfold abortStream. now rewrite Href. }
  clear Hts Hab Hreq.
  generalize dependent (commit t1 (handleReset s)). intros s1 Hturns1 Hdead Hrun1 Herr1 Hreq1.
  assert (Hfind : findTurn (controller t) (turns s1) = Some t).
  { rewrite Hturns1. unfold findTurn, find. now rewrite Nat.eqb_refl. }
  exists s1, (commit t2 (finallyTurn t s1)).
  split; [exact Hrun1 | ]. split; [ | split; [ | split]].
  - intros r t3. unfold run, step, fst, snd.
    now rewrite Hfind, Hphase, Hdead.
  - intros err' t3 s'. unfold run, step, fst, snd.
    rewrite Hfind, Hphase, Hdead. simpl negb. simpl orb.
    unfold isAbortError.
    destruct (String.eqb (Err.name err') "AbortError") eqn:E; [ | discriminate].
    intros _. now apply String.eqb_eq.
  - unfold run, step, fst, snd. rewrite Hfind, Hphase, Hdead.
    unfold isAbortError. rewrite Habort. simpl guard. unfold option_map.
    now rewrite (catchTurn_abort t err s1 Habort).
  - destruct (commit_flight t2 (finallyTurn t s1)) as (Hts2 & _ & _ & _ & Hreq2).
    rewrite Hts2, Hreq2, !commit_hook.
    split; [reflexivity | ]. split; [exact Herr1 | ].
    split; [exact Hreq1 | ]. split; [reflexivity | ]. split; [reflexivity | ].
    unfold finallyTurn, dropTurn, onEnv. simpl. rewrite Hturns1. simpl.
    now rewrite Nat.eqb_refl.
Qed.

End TurnStart.

(* ------------------------------------------------------------------ *)
(** ** How a turn ends *)

Section TurnEnd.
Context `{JsEngine}.

(** The stream is done: the assistant message holds the text assembled from
    the reads, no error is set, the flags are cleared. *)
Lemma completed_turn
    (storage : option Stored) (now : Z) (s : State) (text : string)
    (now1 now2 status : Z) (reads : list string) (tm : Z) :
  reachable storage now s ->
  isLoadingRef s = false -> Str.isEmpty (Str.trim text) = false ->
  responseOk status = true ->
  exists s',
    runAll s (turnEvents text now1 now2 (fresh s) status reads tm
              ++ [(ReadResolved (fresh s) None, tm)]) = Some s'
    /\ lastMessage s'
       = Some {| id := now2 + 1; role := assistant;
                 content := assembledText reads |}
    /\ error s' = None
    /\ isLoading s' = false /\ isLoadingRef s' = false /\ turns s' = [].
Proof.
  intros Hreach Hidle Htext Hok.
  destruct (run_turn text now1 now2 status reads tm s
              (reachable_flightInv _ _ _ Hreach) Hidle Htext Hok)
    as (s1 & Hrun & (Hturns & _ & Hlive) & Herr & Hmsg).
  exists (commit tm (finallyTurn (newTurn now2 s AwaitRead) s1)).
  split.
  { rewrite runAll_app, Hrun, runAll_cons. unfold run, step, fst, snd.
    rewrite Hturns. unfold findTurn, find.
    simpl controller in *. rewrite Nat.eqb_refl. simpl turnPhase.
    rewrite Hlive. reflexivity. }
  destruct (commit_flight tm (finallyTurn (newTurn now2 s AwaitRead) s1))
    as (Hts & _).
  rewrite Hts. unfold lastMessage. rewrite !commit_hook.
  split; [ | split; [exact Herr | ]].
  - exact (lastMessage_mapContent _ _ _ _ _ s1 Hmsg eq_refl).
  - split; [reflexivity | ]. split; [reflexivity | ].
    unfold finallyTurn, dropTurn, onEnv. simpl. rewrite Hturns. simpl.
    now rewrite Nat.eqb_refl.
Qed.

(** C2, as the hook has it.  When the read of a stream fails after some
    reads delivered fragments, the turn ends with the content of the
    assistant message replaced by the fixed fallback message (the fragments
    shown so far are not kept) and with an error text set, where a stream
    that completes leaves the error null. *)
Theorem failed_turn_shows_fallback
    (storage : option Stored) (now : Z) (s : State) (text : string)
    (now1 now2 status : Z) (reads : list string) (err : Err.t) (tm : Z) :
  reachable storage now s ->
  isLoadingRef s = false -> Str.isEmpty (Str.trim text) = false ->
  responseOk status = true ->
  Err.name err <> "AbortError" ->
  (exists s',
     runAll s (turnEvents text now1 now2 (fresh s) status reads tm
               ++ [(ReadRejected (fresh s) err, tm)]) = Some s'
     /\ lastMessage s'
        = Some {| id := now2 + 1; role := assistant; content := fallbackContent |}
     /\ error s' = Some (shownError err)
     /\ isLoading s' = false /\ isLoadingRef s' = false /\ turns s' = [])
  /\ (exists s',
        runAll s (turnEvents text now1 now2 (fresh s) status reads tm
                  ++ [(ReadResolved (fresh s) None, tm)]) = Some s'
        /\ error s' = None).
Proof.
  intros Hreach Hidle Htext Hok Hname. split.
  2: { destruct (completed_turn storage now s text now1 now2 status reads tm
                   Hreach Hidle Htext Hok) as (s' & Hrun & _ & Herr & _).
       now exists s'. }
  assert (Hcatch : String.eqb (Err.name err) "AbortError" = false)
    by (now apply String.eqb_neq).
  destruct (run_turn text now1 now2 status reads tm s
              (reachable_flightInv _ _ _ Hreach) Hidle Htext Hok)
    as (s1 & Hrun & (Hturns & _ & Hlive) & Herr & Hmsg).
  exists (commit tm (catchTurn (newTurn now2 s AwaitRead) err s1)).
  split.
  { rewrite runAll_app, Hrun, runAll_cons. unfold run, step, fst, snd.
    rewrite Hturns. unfold findTurn, find.
    simpl controller in *. rewrite Nat.eqb_refl. simpl turnPhase.
    rewrite Hlive. reflexivity. }
  destruct (commit_flight tm (catchTurn (newTurn now2 s AwaitRead) err s1))
    as (Hts & _).
  rewrite Hts. unfold lastMessage. rewrite !commit_hook.
  unfold catchTurn. rewrite Hcatch.
  split; [ | split; [reflexivity | ]].
  - apply (lastMessage_mapContent (now2 + 1) (fun _ => fallbackContent)
             (messages s) {| id := now1; role := user; content := text |}
             {| id := now2 + 1; role := assistant; content := "" |});
      [ | reflexivity].
    simpl. rewrite Hmsg. apply mapContent_compose.
  - split; [reflexivity | ]. split; [reflexivity | ].
    unfold finallyTurn, dropTurn, onEnv. simpl. rewrite Hturns. simpl.
    now rewrite Nat.eqb_refl.
Qed.

(** ** Reads and line boundaries *)

Lemma split_at_line_end (a : string) :
  endsWithNewline a = true ->
  exists pieces,
    Str.split Str.newline a = (pieces ++ [""])%list
    /\ (a <> "" -> pieces <> [])
    /\ forall b, Str.split Str.newline (a ++ b)
                 = (pieces ++ Str.split Str.newline b)%list.
Proof.
  induction a as [ | c r IH]; intros Hend.
  - exists []. split; [reflexivity | ]. split; [congruence | reflexivity].
  - destruct r as [ | c' r'].
    + simpl in Hend. exists [""]. simpl. rewrite Hend.
      split; [reflexivity | ]. split; [discriminate | reflexivity].
    + destruct (IH Hend) as (pieces & Hsplit & Hne & Happ).
      destruct pieces as [ | p q]; [now elim Hne | ].
      destruct (Ascii.eqb c Str.newline) eqn:Hc.
      * exists ("" :: p :: q).
        split; [ | split; [discriminate | ]].
        -- change (Str.split Str.newline (String c (String c' r')))
             with (if Ascii.eqb c Str.newline
                   then "" :: Str.split Str.newline (String c' r')
                   else match Str.split Str.newline (String c' r') with
                        | [] => [String c ""]
                        | piece :: rest => String c piece :: rest
                        end).
           now rewrite Hc, Hsplit.
        -- intros b.
           change (Str.split Str.newline (String c (String c' r') ++ b))
             with (if Ascii.eqb c Str.newline
                   then "" :: Str.split Str.newline (String c' r' ++ b)
                   else match Str.split Str.newline (String c' r' ++ b) with
                        | [] => [String c ""]
                        | piece :: rest => String c piece :: rest
                        end).
           now rewrite Hc, Happ.
      * exists (String c p :: q).
        split; [ | split; [discriminate | ]].
        -- change (Str.split Str.newline (String c (String c' r')))
             with (if Ascii.eqb c Str.newline
                   then "" :: Str.split Str.newline (String c' r')
                   else match Str.split Str.newline (String c' r') with
                        | [] => [String c ""]
                        | piece :: rest => String c piece :: rest
                        end).
           now rewrite Hc, Hsplit.
        -- intros b.
           change (Str.split Str.newline (String c (String c' r') ++ b))
             with (if Ascii.eqb c Str.newline
                   then "" :: Str.split Str.newline (String c' r' ++ b)
                   else match Str.split Str.newline (String c' r' ++ b) with
                        | [] => [String c ""]
                        | piece :: rest => String c piece :: rest
                        end).
           now rewrite Hc, Happ.
Qed.

Lemma dataLines_app (a b : string) :
  endsWithNewline a = true ->
  dataLines (a ++ b) = (dataLines a ++ dataLines b)%list.
Proof.
  intros Hend. destruct (split_at_line_end a Hend) as (pieces & Hsplit & _ & Happ).
  unfold dataLines. rewrite Happ, Hsplit, !filter_app. simpl.
  now rewrite app_nil_r.
Qed.

(** When every read ends at a line boundary, the read loop assembles the
    text the stream carries. *)
Lemma assembledText_aligned (reads : list string) :
  forallb endsWithNewline reads = true ->
  assembledText reads = streamText reads.
Proof.
  unfold assembledText, streamText. intros Hall. f_equal.
  induction reads as [ | r reads IH]; [reflexivity | ].
  simpl in Hall. apply andb_true_iff in Hall as [Hr Hrest].
  simpl. now rewrite dataLines_app, IH.
Qed.

End TurnEnd.

(* ------------------------------------------------------------------ *)
(** ** Concrete runs *)

Lemma reachable_runAll `{JsEngine} (storage : option Stored) (now : Z)
    (trace : list (Event * Z)) (s s' : State) :
  reachable storage now s -> runAll s trace = Some s' ->
  reachable storage now s'.
Proof.
  revert s. induction trace as [ | et trace IH]; intros s Hs Hrun.
  - injection Hrun as <-. exact Hs.
  - simpl in Hrun. destruct (run s et) as [s1 | ] eqn:Hstep; [ | discriminate].
    exact (IH s1 (reach_run _ _ _ _ _ Hs Hstep) Hrun).
Qed.

Lemma after_reachable (trace : list (Event * Z)) :
  @reachable Sample.engine None 0 (Sample.after trace).
Proof.
  unfold Sample.after.
  destruct (@runAll Sample.engine (pageLoad None 0) trace) as [s | ] eqn:Hrun.
  - exact (@reachable_runAll Sample.engine None 0 trace _ s
             (@reach_load Sample.engine None 0) Hrun).
  - apply reach_load.
Qed.

Example dana_is_answered :
  messages (Sample.after Sample.danaAsks)
  = [ {| id := 1000; role := assistant; content := localWelcome "Dana" "" |};
      {| id := 2000; role := user; content := "What are his strengths?" |};
      {| id := 2001; role := assistant; content := "Hello world" |} ]
  /\ isLoadingRef (Sample.after Sample.danaAsks) = true
  /\ turns (Sample.after Sample.danaAsks)
     = [ {| aiMessageId := 2001; controller := 1%nat; turnPhase := AwaitRead |} ].
Proof. vm_compute. repeat split. Qed.

Lemma blank_text : Str.WhitespaceOnly ("  " ++ Sample.lineEnd).
Proof.
  apply (Str.ws_more " " (" " ++ Sample.lineEnd)); [simpl; tauto | ].
  apply (Str.ws_more " " Sample.lineEnd); [simpl; tauto | ].
  apply (Str.ws_more Sample.lineEnd ""); [simpl; tauto | ].
  constructor.
Qed.

Lemma blank_query_is_noop_witness :
  Str.WhitespaceOnly ("  " ++ Sample.lineEnd)
  /\ @step Sample.engine (Sample.after Sample.danaStarts)
       (CallSendMessage ("  " ++ Sample.lineEnd) 2000 2000)
     = Some (Sample.after Sample.danaStarts).
Proof.
  split; [exact blank_text | ].
  exact (proj1 (@blank_query_is_noop Sample.engine
                  (Sample.after Sample.danaStarts) ("  " ++ Sample.lineEnd)
                  2000 2000 blank_text)).
Defined.

Lemma one_turn_at_a_time_witness :
  @reachable Sample.engine None 0 (Sample.after Sample.danaAsks)
  /\ (List.length (turns (Sample.after Sample.danaAsks)) <= 1)%nat
  /\ (forall text now1 now2 t,
        @run Sample.engine (Sample.after Sample.danaAsks)
          (CallSendMessage text now1 now2, t)
        = Some (Sample.after Sample.danaAsks)).
Proof.
  split; [apply after_reachable | ].
  destruct (@one_turn_at_a_time Sample.engine None 0
              (Sample.after Sample.danaAsks)
              (after_reachable Sample.danaAsks))
    as (Hone & _ & Hbusy & _).
  split; [exact Hone | ].
  intros text now1 now2 t.
  exact (proj1 (Hbusy eq_refl text now1 now2 t)).
Defined.

Lemma no_consecutive_assistant_turns_witness :
  storedOk None = true
  /\ @reachable Sample.engine None 0 (Sample.after Sample.danaAsks)
  /\ noAdjacentAssistants (messages (Sample.after Sample.danaAsks)) = true.
Proof.
  split; [reflexivity | ]. split; [apply after_reachable | ].
  exact (proj1 (@no_consecutive_assistant_turns Sample.engine None 0
                  (Sample.after Sample.danaAsks) eq_refl
                  (after_reachable Sample.danaAsks))).
Defined.

Example recruiter_request :
  requests (Sample.after Sample.recruiterStarts)
  = [ SessionRequest
        {| SessionBody.user_name := "Dana";
           SessionBody.company := Some "Acme";
           SessionBody.job_posting := None;
           SessionBody.job_url := Some Sample.pastedUrl;
           SessionBody.turnstile_token := None |} ].
Proof. vm_compute. reflexivity. Qed.

Lemma job_text_and_url_exclusive_witness :
  @runAll Sample.engine (pageLoad None 0) Sample.recruiterStarts
  = Some (Sample.after Sample.recruiterStarts)
  /\ startCalls Sample.recruiterStarts
     = [("Dana", "Acme", Sample.pastedUrl, None)]
  /\ exists bodies,
       sessionBodies (requests (Sample.after Sample.recruiterStarts))
       = (sessionBodies (requests (pageLoad None 0)) ++ bodies)%list
       /\ Forall2 carries (startCalls Sample.recruiterStarts) bodies.
Proof.
  assert (Hrun : @runAll Sample.engine (pageLoad None 0) Sample.recruiterStarts
                 = Some (Sample.after Sample.recruiterStarts))
    by (vm_compute; reflexivity).
  split; [exact Hrun | ]. split; [reflexivity | ].
  exact (@job_text_and_url_exclusive Sample.engine _ _ _ Hrun).
Defined.

(** C1 fails on the hook: a session created at time 1000 and saved again 23
    hours later is offered for resumption by a page loaded 25 hours after
    its creation. *)
Lemma expiry_ignores_creation_time :
  (exists created,
     localStorage (Sample.after Sample.danaStarts) = Some (Session created)
     /\ Saved.savedAt created = 1000)
  /\ (1000 + 25 * Sample.hour) - 1000 > SESSION_TTL_MS
  /\ showResumeModal
       (pageLoad (localStorage (Sample.after Sample.danaReturns))
                 (1000 + 25 * Sample.hour)) = true
  /\ pendingSession
       (pageLoad (localStorage (Sample.after Sample.danaReturns))
                 (1000 + 25 * Sample.hour)) <> None
  /\ localStorage
       (pageLoad (localStorage (Sample.after Sample.danaReturns))
                 (1000 + 25 * Sample.hour)) <> None.
Proof.
  split; [eexists; split; vm_compute; reflexivity | ].
  split; [reflexivity | ].
  split; [vm_compute; reflexivity | ].
  split; vm_compute; discriminate.
Qed.

Lemma expiry_counts_from_last_save_witness :
  Saved.savedAt Sample.savedYesterday <> 0
  /\ 1000 + 25 * Sample.hour - Saved.savedAt Sample.savedYesterday
     > SESSION_TTL_MS
  /\ localStorage
       (pageLoad (Some (Session Sample.savedYesterday)) (1000 + 25 * Sample.hour))
     = None
  /\ showResumeModal
       (pageLoad (Some (Session Sample.savedYesterday)) (1000 + 25 * Sample.hour))
     = false
  /\ pendingSession
       (pageLoad (Some (Session Sample.savedYesterday)) (1000 + 25 * Sample.hour))
     = None.
Proof.
  assert (Hstamp : Saved.savedAt Sample.savedYesterday <> 0) by discriminate.
  assert (Hold : 1000 + 25 * Sample.hour - Saved.savedAt Sample.savedYesterday
                 > SESSION_TTL_MS) by reflexivity.
  split; [exact Hstamp | ]. split; [exact Hold | ].
  exact (proj1 (expiry_counts_from_last_save Sample.savedYesterday
                  (1000 + 25 * Sample.hour)
                  (Sample.after Sample.danaStarts) 5000 Hstamp) Hold).
Defined.

(** C7 fails on the hook: a response with status 500 whose detail is the
    text of the rate-limit message sets the very error a 429 sets. *)
Lemma server_text_can_be_the_rate_limit_text :
  responseOk 500 = false
  /\ 500 <> 429
  /\ error (Sample.after (Sample.danaIsRefused 500 rateLimitMessage))
     = Some rateLimitMessage
  /\ error (Sample.after (Sample.danaIsRefused 429 "Rate limit exceeded"))
     = Some rateLimitMessage.
Proof.
  split; [reflexivity | ]. split; [discriminate | ].
  split; vm_compute; reflexivity.
Qed.

Lemma rate_limit_is_distinguished_witness :
  responseOk 429 = false
  /\ detailRead (errorDataOf (Some (JObj [("detail", JStr "Rate limit exceeded")])))
     = true
  /\ error (@turnErrorBody Sample.engine
              {| aiMessageId := 2001; controller := 1%nat;
                 turnPhase := AwaitErrorBody 429 |}
              429 (Some (JObj [("detail", JStr "Rate limit exceeded")]))
              (Sample.after Sample.danaStarts))
     = Some rateLimitMessage.
Proof.
  split; [reflexivity | ]. split; [reflexivity | ].
  exact (proj1 (@rate_limit_is_distinguished Sample.engine
                  {| aiMessageId := 2001; controller := 1%nat;
                     turnPhase := AwaitErrorBody 429 |}
                  429 (Some (JObj [("detail", JStr "Rate limit exceeded")]))
                  (Sample.after Sample.danaStarts) eq_refl)
               eq_refl eq_refl).
Defined.

Lemma session_creation_starts_chat_witness :
  isUUID Sample.uuid = true
  /\ answersAsSpecified "Dana" (Answers Sample.backendAnswer)
  /\ exists s',
       @runAll Sample.engine (pageLoad None 0)
         ((CallHandleStart "Dana" "" "" None Sample.uuid, 1000)
          :: sessionEvents (fresh (pageLoad None 0))
               (Answers Sample.backendAnswer) 1200 1200) = Some s'
       /\ started "Dana" s'
       /\ sessionId s' = SessionData.session_id Sample.backendAnswer
       /\ messages s'
          = [ {| id := 1200; role := assistant;
                 content := SessionData.welcome_message Sample.backendAnswer |} ].
Proof.
  assert (Hspec : answersAsSpecified "Dana" (Answers Sample.backendAnswer)).
  { split; [discriminate | reflexivity]. }
  split; [reflexivity | ]. split; [exact Hspec | ].
  exact (@session_creation_starts_chat Sample.engine (pageLoad None 0) "Dana"
           None Sample.uuid (Answers Sample.backendAnswer) 1200 1000 1200
           eq_refl Hspec).
Defined.

Example dana_starts_without_backend :
  sessionId (Sample.after Sample.danaStarts) = Sample.uuid
  /\ hasStarted (Sample.after Sample.danaStarts) = true
  /\ messages (Sample.after Sample.danaStarts)
     = [ {| id := 1000; role := assistant; content := localWelcome "Dana" "" |} ].
Proof. vm_compute. repeat split. Qed.

Lemma abort_is_not_an_error_witness :
  @reachable Sample.engine None 0 (Sample.after Sample.danaAsks)
  /\ turns (Sample.after Sample.danaAsks)
     = [ {| aiMessageId := 2001; controller := 1%nat; turnPhase := AwaitRead |} ]
  /\ Err.name Sample.abortError = "AbortError"
  /\ exists s1 s2,
       @run Sample.engine (Sample.after Sample.danaAsks) (CallHandleReset, 2002)
       = Some s1
       /\ (forall r t3, @run Sample.engine s1 (ReadResolved 1 r, t3) = None)
       /\ @run Sample.engine s1 (ReadRejected 1 Sample.abortError, 2003) = Some s2
       /\ messages s2 = messages s1
       /\ error s2 = None
       /\ requests s2 = requests (Sample.after Sample.danaAsks)
       /\ isLoadingRef s2 = false.
Proof.
  assert (Hturns : turns (Sample.after Sample.danaAsks)
                   = [ {| aiMessageId := 2001; controller := 1%nat;
                          turnPhase := AwaitRead |} ])
    by (vm_compute; reflexivity).
  split; [apply after_reachable | ]. split; [exact Hturns | ].
  split; [reflexivity | ].
  destruct (proj1 (@abort_is_not_an_error Sample.engine None 0
                     (Sample.after Sample.danaAsks)
                     {| aiMessageId := 2001; controller := 1%nat;
                        turnPhase := AwaitRead |}
                     Sample.abortError 2002 2003
                     (after_reachable Sample.danaAsks) Hturns eq_refl eq_refl))
    as (s1 & s2 & Hreset & Hsilent & _ & Hreject & Hmsg & Herr & Hreq & _ & Href & _).
  exists s1, s2. repeat split; assumption.
Defined.

(** C2 fails on the hook: the two fragments shown, "Hello world", are gone
    once the stream has failed; the content is the fallback message alone. *)
Lemma partial_answer_is_replaced :
  option_map content (lastMessage (Sample.after Sample.danaAsks))
  = Some "Hello world"
  /\ option_map content (lastMessage (Sample.after Sample.danaIsCutOff))
     = Some fallbackContent
  /\ fallbackContent <> "Hello world" ++ fallbackContent.
Proof.
  split; [vm_compute; reflexivity | ].
  split; [vm_compute; reflexivity | discriminate].
Qed.

Lemma failed_turn_shows_fallback_witness :
  @reachable Sample.engine None 0 (Sample.after Sample.danaStarts)
  /\ isLoadingRef (Sample.after Sample.danaStarts) = false
  /\ Str.isEmpty (Str.trim "What are his strengths?") = false
  /\ responseOk 200 = true
  /\ Err.name Sample.networkError <> "AbortError"
  /\ exists s',
       @runAll Sample.engine (Sample.after Sample.danaStarts)
         (turnEvents "What are his strengths?" 2000 2000
            (fresh (Sample.after Sample.danaStarts)) 200
            [Sample.twoFragments] 2001
          ++ [(ReadRejected (fresh (Sample.after Sample.danaStarts))
                 Sample.networkError, 2001)]) = Some s'
       /\ lastMessage s'
          = Some {| id := 2000 + 1; role := assistant; content := fallbackContent |}
       /\ error s' = Some (shownError Sample.networkError)
       /\ isLoading s' = false /\ isLoadingRef s' = false /\ turns s' = [].
Proof.
  assert (Hname : Err.name Sample.networkError <> "AbortError") by discriminate.
  split; [apply after_reachable | ]. split; [reflexivity | ].
  split; [reflexivity | ]. split; [reflexivity | ]. split; [exact Hname | ].
  exact (proj1 (@failed_turn_shows_fallback Sample.engine None 0
                  (Sample.after Sample.danaStarts) "What are his strengths?"
                  2000 2000 200 [Sample.twoFragments] Sample.networkError 2001
                  (after_reachable Sample.danaStarts) eq_refl eq_refl eq_refl
                  Hname)).
Defined.

(** C3 fails on the hook for a stream whose reads cut an event in two: the
    stream carries the answer "Hello", the first read ends inside the event
    and the second begins with its rest; the turn completes without error
    and the assistant message is empty. *)
Theorem split_event_is_lost :
  @streamText Sample.engine Sample.splitReads = "Hello"
  /\ @assembledText Sample.engine Sample.splitReads = ""
  /\ option_map content (lastMessage (Sample.after Sample.danaAsksOverSplitReads))
     = Some ""
  /\ error (Sample.after Sample.danaAsksOverSplitReads) = None
  /\ isLoading (Sample.after Sample.danaAsksOverSplitReads) = false
  /\ turns (Sample.after Sample.danaAsksOverSplitReads) = [].
Proof. repeat split; vm_compute; reflexivity. Qed.

(** With the same event in one read, the message is the answer. *)
Example whole_event_is_shown :
  @assembledText Sample.engine [Sample.event "Hello" ++ Sample.doneEvent] = "Hello"
  /\ @streamText Sample.engine [Sample.event "Hello" ++ Sample.doneEvent] = "Hello".
Proof. split; vm_compute; reflexivity. Qed.

(* ------------------------------------------------------------------ *)
(** ** The resume modal *)

Lemma restoreEffect_cases (now : Z) (storage : option Stored) :
  (exists p,
      storage = Some (Session p) /\ resumable now p
      /\ restoreEffect now (blank storage)
         = blank storage |> setPendingSession (Some p) |> setShowResumeModal true)
  \/ (hook (restoreEffect now (blank storage)) = initialHook
      /\ (localStorage (restoreEffect now (blank storage)) = None
          \/ localStorage (restoreEffect now (blank storage)) = storage)).
Proof.
  unfold restoreEffect. change (localStorage (blank storage)) with storage.
  destruct storage as [[ | p] | ]; try (right; split; [reflexivity | now right]).
  destruct (negb (Saved.savedAt p =? 0)
            && (now - Saved.savedAt p >? SESSION_TTL_MS)) eqn:Hexp;
    [right; split; [reflexivity | now left] | ].
  destruct (negb (Str.isEmpty (Saved.userName p))
            && (0 <? Z.of_nat (List.length (Saved.messages p)))) eqn:Hok;
    [ | right; split; [reflexivity | now right]].
  left. exists p. split; [reflexivity | ]. split; [ | reflexivity].
  apply andb_true_iff in Hok as [Hname Hmsgs].
  split; [ | split].
  - intros Hempty. now rewrite Hempty in Hname.
  - intros Hnone. now rewrite Hnone in Hmsgs.
  - apply andb_false_iff in Hexp as [Hzero | Hage].
    + left. apply negb_false_iff, Z.eqb_eq in Hzero. exact Hzero.
    + right. rewrite Z.gtb_ltb in Hage. now apply Z.ltb_ge in Hage.
Qed.

Lemma modalInv_frame (storage : option Stored) (now : Z) (s s' : State) :
  showResumeModal s' = showResumeModal s ->
  pendingSession s' = pendingSession s ->
  modalInv storage now s -> modalInv storage now s'.
Proof. unfold modalInv. now intros -> ->. Qed.

Lemma modalInv_pageLoad (storage : option Stored) (now : Z) :
  modalInv storage now (pageLoad storage now).
Proof.
  unfold modalInv. destruct (pageLoad_cases storage now) as [Hhook _].
  change (pendingSession (pageLoad storage now))
    with (pendingSession (hook (pageLoad storage now))).
  change (showResumeModal (pageLoad storage now))
    with (showResumeModal (hook (pageLoad storage now))).
  rewrite Hhook.
  destruct (restoreEffect_cases now storage) as [(p & Hs & Hp & ->) | [-> _]].
  - simpl. split; [reflexivity | split; [exact Hs | exact Hp]].
  - reflexivity.
Qed.

Section Modal.
Context `{JsEngine}.

Lemma modalInv_step (storage : option Stored) (now : Z) (s s' : State) (e : Event) :
  modalInv storage now s -> step s e = Some s' -> modalInv storage now s'.
Proof.
  intros Hinv. revert e s'.
  apply step_elim with (P := modalInv storage now).
  - exact Hinv.
  - unfold modalInv, handleContinueSession.
    destruct (pendingSession s); reflexivity.
  - reflexivity.
  - revert Hinv. apply modalInv_frame.
    + change (showResumeModal (handleReset s))
        with (showResumeModal (abortStream s)).
      unfold abortStream. now destruct (streamAbortRef s).
    + change (pendingSession (handleReset s))
        with (pendingSession (abortStream s)).
      unfold abortStream. now destruct (streamAbortRef s).
  - intros. revert Hinv. apply modalInv_frame; reflexivity.
  - intros. revert Hinv. apply modalInv_frame; reflexivity.
  - intros. revert Hinv. apply modalInv_frame; reflexivity.
  - intros text now1 now2. unfold sendMessage.
    destruct (Str.isEmpty (Str.trim text) || isLoadingRef s); [exact Hinv | ].
    revert Hinv. apply modalInv_frame; reflexivity.
  - intros t err _. unfold catchTurn.
    destruct (String.eqb (Err.name err) "AbortError");
      revert Hinv; apply modalInv_frame; reflexivity.
  - intros. revert Hinv. apply modalInv_frame; reflexivity.
  - intros t r _. unfold turnRead. destruct r as [text | ].
    + revert Hinv. apply modalInv_frame;
        unfold suspendTurn, onEnv; simpl; now rewrite readLines_hook.
    + revert Hinv. apply modalInv_frame; reflexivity.
Qed.

Lemma reachable_modalInv (storage : option Stored) (now : Z) (s : State) :
  reachable storage now s -> modalInv storage now s.
Proof.
  induction 1 as [ | s et s' _ IH Hrun].
  - apply modalInv_pageLoad.
  - unfold run in Hrun.
    destruct (step s (fst et)) as [s1 | ] eqn:Hstep; [ | discriminate].
    injection Hrun as <-.
    apply (modalInv_frame storage now s1); [now rewrite commit_hook .. | ].
    exact (modalInv_step _ _ _ _ _ IH Hstep).
Qed.

(** X1.  The resume modal of a loaded page is rendered exactly while a
    session is pending ([showResumeModal] and [pendingSession] never
    disagree), and what it offers is the session the page was loaded over: it
    names a user, counts at least one message, and had not expired when the
    page was loaded. *)
Theorem resume_modal_offers_stored_session
    (storage : option Stored) (now : Z) (s : State) :
  reachable storage now s ->
  (showResumeModal s = true <-> pendingSession s <> None)
  /\ (resumeModalProps s = None <-> showResumeModal s = false)
  /\ forall name count,
       resumeModalProps s = Some (name, count) ->
       name <> "" /\ (1 <= count)%nat
       /\ exists p,
            storage = Some (Session p) /\ pendingSession s = Some p
            /\ name = Saved.userName p
            /\ count = List.length (Saved.messages p)
            /\ (Saved.savedAt p = 0 \/ now - Saved.savedAt p <= SESSION_TTL_MS).
Proof.
  intros Hreach. pose proof (reachable_modalInv _ _ _ Hreach) as Hinv.
  unfold modalInv in Hinv. unfold resumeModalProps.
  destruct (pendingSession s) as [p | ] eqn:Hp.
  - destruct Hinv as (Hshow & Hstored & Hname & Hmsgs & Hage). rewrite Hshow.
    split; [split; [discriminate | reflexivity] | ].
    split; [split; discriminate | ].
    intros name count [= <- <-]. split; [exact Hname | ]. split.
    + destruct (Saved.messages p); [now elim Hmsgs | simpl; lia].
    + exists p. now repeat split.
  - rewrite Hinv. split; [split; [discriminate | now intros Hne] | ].
    split; [now split | discriminate].
Qed.

End Modal.

Lemma resume_modal_offers_stored_session_witness :
  @reachable Sample.engine (Some (Session Sample.savedYesterday)) (23 * Sample.hour)
     (pageLoad (Some (Session Sample.savedYesterday)) (23 * Sample.hour))
  /\ resumeModalProps (pageLoad (Some (Session Sample.savedYesterday)) (23 * Sample.hour))
     = Some ("Dana", 1%nat)
  /\ "Dana" <> "" /\ (1 <= 1)%nat.
Proof.
  split; [apply reach_load | ]. split; [reflexivity | ].
  destruct (@resume_modal_offers_stored_session Sample.engine
              (Some (Session Sample.savedYesterday)) (23 * Sample.hour) _
              (@reach_load Sample.engine _ _))
    as (_ & _ & Hprops).
  destruct (Hprops "Dana" 1%nat eq_refl) as (Hname & Hcount & _).
  split; [exact Hname | exact Hcount].
Defined.

(* ------------------------------------------------------------------ *)
(** ** Resuming and declining *)

Lemma length_positive {A : Type} (l : list A) :
  l <> [] -> (0 <? Z.of_nat (List.length l)) = true.
Proof. destruct l; [now intros Hne | intros _; reflexivity]. Qed.

Lemma isEmpty_false (v : string) : v <> "" -> Str.isEmpty v = false.
Proof. destruct v; [now intros Hne | reflexivity]. Qed.

Lemma saveEffect_started (t : Z) (s : State) :
  hasStarted s = true -> messages s <> [] ->
  saveEffect t s = setItem (snapshot t s) s.
Proof.
  intros Hstarted Hmsgs. unfold saveEffect.
  now rewrite Hstarted, (length_positive _ Hmsgs).
Qed.

(** A page loaded over a session that can be resumed. *)
Lemma pageLoad_resumable (p : Saved.t) (now : Z) :
  resumable now p ->
  hook (pageLoad (Some (Session p)) now)
  = with_showResumeModal true (with_pendingSession (Some p) initialHook)
  /\ localStorage (pageLoad (Some (Session p)) now) = Some (Session p)
  /\ turns (pageLoad (Some (Session p)) now) = []
  /\ requests (pageLoad (Some (Session p)) now) = [].
Proof.
  intros (Hname & Hmsgs & Hage).
  assert (Hrestore : restoreEffect now (blank (Some (Session p)))
                     = blank (Some (Session p)) |> setPendingSession (Some p)
                         |> setShowResumeModal true).
  { unfold restoreEffect.
    change (localStorage (blank (Some (Session p)))) with (Some (Session p)).
    cbv beta iota.
    replace (negb (Saved.savedAt p =? 0)
             && (now - Saved.savedAt p >? SESSION_TTL_MS)) with false.
    - now rewrite (isEmpty_false _ Hname), (length_positive _ Hmsgs).
    - symmetry. destruct Hage as [-> | Hage]; [reflexivity | ].
      apply andb_false_iff. right. rewrite Z.gtb_ltb. now apply Z.ltb_ge. }
  destruct (pageLoad_cases (Some (Session p)) now) as [Hhook Hstore].
  rewrite Hhook, Hstore. unfold pageLoad.
  destruct (commit_flight now (restoreEffect now (blank (Some (Session p)))))
    as (-> & _ & _ & _ & ->).
  rewrite Hrestore. now repeat split.
Qed.

(** Continuing the pending session, and the render that follows. *)
Lemma continue_pending (p : Saved.t) (t : Z) (s : State) :
  pendingSession s = Some p -> Saved.messages p <> [] ->
  hook (commit t (handleContinueSession s))
  = {| userName := Saved.userName p; company := Saved.company p;
       jobPosting := Saved.jobPosting p; sessionId := Saved.sessionId p;
       hasStarted := true; suggestedPrompts := Saved.suggestedPrompts p;
       messages := Saved.messages p; isLoading := isLoading s;
       error := error s; isLoadingRef := isLoadingRef s;
       streamAbortRef := streamAbortRef s; showResumeModal := false;
       pendingSession := None |}
  /\ localStorage (commit t (handleContinueSession s))
     = Some (Session {| Saved.userName := Saved.userName p;
                        Saved.company := Saved.company p;
                        Saved.jobPosting := Saved.jobPosting p;
                        Saved.sessionId := Saved.sessionId p;
                        Saved.suggestedPrompts := Saved.suggestedPrompts p;
                        Saved.messages := Saved.messages p;
                        Saved.savedAt := t |}).
Proof.
  intros Hp Hmsgs. rewrite commit_hook.
  unfold handleContinueSession. rewrite Hp.
  split; [reflexivity | ].
  unfold commit, depsChanged. simpl arraysReplaced. simpl orb.
  cbv iota. unfold saveEffect. simpl hasStarted. simpl messages.
  rewrite (length_positive _ Hmsgs). reflexivity.
Qed.

Section Resume.
Context `{JsEngine}.

(** X2.  Save, reload, continue.  A started chat with a user name and
    messages that was saved at [saved] is offered by a page loaded at [now]
    before it expired, and continuing it restores what was saved: user name,
    company, job posting, session id, suggested prompts and messages are
    those of the chat that was saved, and the chat is started.  The modal is
    closed, the chat is idle and shows no error, and the render that follows
    stores the restored session again, stamped with the time of that
    render. *)
Theorem continue_restores_saved_session (s : State) (saved now resumed : Z) :
  hasStarted s = true -> messages s <> [] -> userName s <> "" ->
  saved = 0 \/ now - saved <= SESSION_TTL_MS ->
  let loaded := pageLoad (localStorage (saveEffect saved s)) now in
  resumeModalProps loaded = Some (userName s, List.length (messages s))
  /\ exists s',
       run loaded (CallHandleContinueSession, resumed) = Some s'
       /\ snapshot resumed s' = snapshot resumed s
       /\ hasStarted s' = true
       /\ showResumeModal s' = false /\ pendingSession s' = None
       /\ localStorage s' = Some (Session (snapshot resumed s))
       /\ isLoading s' = false /\ isLoadingRef s' = false
       /\ error s' = None /\ turns s' = [].
Proof.
  intros Hstarted Hmsgs Hname Hage loaded.
  assert (Hres : resumable now (snapshot saved s)).
  { split; [exact Hname | split; [exact Hmsgs | exact Hage]]. }
  assert (Hloaded : loaded = pageLoad (Some (Session (snapshot saved s))) now).
  { unfold loaded. now rewrite (saveEffect_started saved s Hstarted Hmsgs). }
  destruct (pageLoad_resumable _ now Hres) as (Hhook & Hstore & Hturns & _).
  rewrite <- Hloaded in Hhook, Hstore, Hturns. clearbody loaded. clear Hloaded.
  assert (Hpending : pendingSession loaded = Some (snapshot saved s)).
  { change (pendingSession (hook loaded) = Some (snapshot saved s)).
    now rewrite Hhook. }
  split.
  - unfold resumeModalProps.
    change (showResumeModal loaded) with (showResumeModal (hook loaded)).
    rewrite Hpending, Hhook. reflexivity.
  - exists (commit resumed (handleContinueSession loaded)).
    split; [reflexivity | ].
    destruct (continue_pending _ resumed loaded Hpending Hmsgs) as [Hh Hs].
    destruct (commit_flight resumed (handleContinueSession loaded))
      as (Ht & _).
    assert (Hidle : turns (handleContinueSession loaded) = []).
    { unfold handleContinueSession. rewrite Hpending. exact Hturns. }
    rewrite Hidle in Ht. clear Hidle.
    generalize dependent (commit resumed (handleContinueSession loaded)).
    intros s' Hh Hs Ht.
    unfold snapshot.
    change (userName s') with (userName (hook s')).
    change (company s') with (company (hook s')).
    change (jobPosting s') with (jobPosting (hook s')).
    change (sessionId s') with (sessionId (hook s')).
    change (suggestedPrompts s') with (suggestedPrompts (hook s')).
    change (messages s') with (messages (hook s')).
    change (hasStarted s') with (hasStarted (hook s')).
    change (showResumeModal s') with (showResumeModal (hook s')).
    change (pendingSession s') with (pendingSession (hook s')).
    change (isLoading s') with (isLoading (hook s')).
    change (isLoadingRef s') with (isLoadingRef (hook s')).
    change (error s') with (error (hook s')).
    rewrite Hh, Hs, Ht. simpl.
    change (isLoading loaded) with (isLoading (hook loaded)).
    change (isLoadingRef loaded) with (isLoadingRef (hook loaded)).
    change (error loaded) with (error (hook loaded)).
    rewrite Hhook. now repeat split.
Qed.

End Resume.


Lemma continue_restores_saved_session_witness :
  hasStarted (Sample.after Sample.danaStarts) = true
  /\ messages (Sample.after Sample.danaStarts) <> []
  /\ userName (Sample.after Sample.danaStarts) <> ""
  /\ 1000 + 23 * Sample.hour - 2000 <= SESSION_TTL_MS
  /\ resumeModalProps
       (pageLoad (localStorage (saveEffect 2000 (Sample.after Sample.danaStarts)))
                 (1000 + 23 * Sample.hour))
     = Some ("Dana", 1%nat).
Proof.
  assert (Hstarted : hasStarted (Sample.after Sample.danaStarts) = true)
    by reflexivity.
  assert (Hmsgs : messages (Sample.after Sample.danaStarts) <> [])
    by (vm_compute; discriminate).
  assert (Hname : userName (Sample.after Sample.danaStarts) <> "")
    by (vm_compute; discriminate).
  assert (Hage : 1000 + 23 * Sample.hour - 2000 <= SESSION_TTL_MS)
    by (vm_compute; discriminate).
  split; [exact Hstarted | ]. split; [exact Hmsgs | ].
  split; [exact Hname | ]. split; [exact Hage | ].
  exact (proj1 (@continue_restores_saved_session Sample.engine
                  (Sample.after Sample.danaStarts) 2000
                  (1000 + 23 * Sample.hour) (1001 + 23 * Sample.hour)
                  Hstarted Hmsgs Hname (or_intror Hage))).
Defined.

Lemma commit_quiet (t : Z) (s : State) :
  depsChanged s = false -> localStorage (commit t s) = localStorage s.
Proof. intros Hquiet. unfold commit. now rewrite Hquiet. Qed.

(* ------------------------------------------------------------------ *)
(** ** What is stored *)

Lemma depsChanged_false (s : State) :
  depsChanged s = false ->
  arraysReplaced s = false
  /\ hasStarted s = hasStarted (rendered s)
  /\ userName s = userName (rendered s)
  /\ company s = company (rendered s)
  /\ jobPosting s = jobPosting (rendered s)
  /\ sessionId s = sessionId (rendered s).
Proof.
  unfold depsChanged. intros Hquiet.
  repeat (apply orb_false_iff in Hquiet as [Hquiet ?]).
  repeat match goal with
         | Hneg : negb _ = false |- _ => apply negb_false_iff in Hneg
         end.
  split; [exact Hquiet | ].
  split; [now apply Bool.eqb_prop | ].
  repeat split; now apply String.eqb_eq.
Qed.

Lemma commit_stopped (t : Z) (s : State) :
  hasStarted s = false -> localStorage (commit t s) = localStorage s.
Proof.
  intros Hstopped. unfold commit, saveEffect. rewrite Hstopped.
  now destruct (depsChanged s).
Qed.

Lemma commit_saves (t : Z) (s : State) :
  depsChanged s = true -> hasStarted s = true -> messages s <> [] ->
  localStorage (commit t s) = Some (Session (snapshot t s)).
Proof.
  intros Hchanged Hstarted Hmsgs. unfold commit.
  rewrite Hchanged, (saveEffect_started t s Hstarted Hmsgs). reflexivity.
Qed.

Lemma mapContent_nonempty (aiId : Z) (f : string -> string) (l : list Message) :
  l <> [] -> mapContent aiId f l <> [].
Proof. destruct l; [now intros Hne | discriminate]. Qed.

Section Storage.
Context `{JsEngine}.

(** What a transition leaves alone. *)
Lemma step_storage (storage : option Stored) (now : Z) (s s' : State) (e : Event) :
  arraysReplaced s = false ->
  modalInv storage now s ->
  (hasStarted s = true -> messages s <> []) ->
  step s e = Some s' ->
  rendered s' = rendered s
  /\ (localStorage s' = localStorage s \/ localStorage s' = None)
  /\ (arraysReplaced s' = false ->
      messages s' = messages s /\ suggestedPrompts s' = suggestedPrompts s)
  /\ (hasStarted s' = true -> messages s' <> [])
  /\ (hasStarted s = true -> hasStarted s' = false -> localStorage s' = None).
Proof.
  intros Hfresh Hmodal Hmsgs. revert e s'.
  apply step_elim
    with (P := fun s' : State =>
      rendered s' = rendered s
      /\ (localStorage s' = localStorage s \/ localStorage s' = None)
      /\ (arraysReplaced s' = false ->
          messages s' = messages s /\ suggestedPrompts s' = suggestedPrompts s)
      /\ (hasStarted s' = true -> messages s' <> [])
      /\ (hasStarted s = true -> hasStarted s' = false -> localStorage s' = None)).
  - repeat split; [now left | exact Hmsgs | congruence].
  - (* handleContinueSession *)
    unfold modalInv in Hmodal. unfold handleContinueSession.
    destruct (pendingSession s) as [p | ].
    + destruct Hmodal as (_ & _ & _ & Hp & _).
      split; [reflexivity | ]. split; [now left | ].
      split; [discriminate | ]. split; [intros _; exact Hp | discriminate].
    + repeat split; [now left | exact Hmsgs | ].
      intros Hon Hoff. simpl in Hoff. congruence.
  - (* handleStartFresh *)
    repeat split; [now right | exact Hmsgs ].
  - (* handleReset *)
    split; [ | split; [now right | ]].
    + change (rendered (handleReset s)) with (rendered (abortStream s)).
      unfold abortStream. now destruct (streamAbortRef s).
    + split; [discriminate | ]. split; [discriminate | reflexivity].
  - (* handleStart *)
    intros. repeat split; [now left | exact Hmsgs | ].
    intros Hon Hoff. simpl in Hoff. congruence.
  - (* the chat starts *)
    intros. split; [reflexivity | ]. split; [now left | ].
    split; [discriminate | ]. split; [discriminate | discriminate].
  - intros. repeat split; [now left | exact Hmsgs | ].
    intros Hon Hoff. simpl in Hoff. congruence.
  - (* sendMessage *)
    intros text now1 now2. unfold sendMessage.
    destruct (Str.isEmpty (Str.trim text) || isLoadingRef s).
    + repeat split; [now left | exact Hmsgs | congruence].
    + split; [reflexivity | ]. split; [now left | ].
      split; [discriminate | ]. split.
      * intros _. simpl. now destruct (messages s).
      * intros Hon Hoff. simpl in Hoff. congruence.
  - (* catch and finally *)
    intros t err _. unfold catchTurn.
    destruct (String.eqb (Err.name err) "AbortError").
    + repeat split; [now left | exact Hmsgs | ].
      intros Hon Hoff. simpl in Hoff. congruence.
    + split; [reflexivity | ]. split; [now left | ].
      split; [discriminate | ]. split.
      * intros Hon. apply mapContent_nonempty. now apply Hmsgs.
      * intros Hon Hoff. simpl in Hoff. congruence.
  - intros. repeat split; [now left | exact Hmsgs | ].
    intros Hon Hoff. simpl in Hoff. congruence.
  - (* a read resolved *)
    intros t r _. unfold turnRead. destruct r as [text | ].
    + unfold suspendTurn, onEnv. simpl.
      rewrite readLines_env, readLines_hook. simpl.
      split; [reflexivity | ]. split; [now left | ]. rewrite Hfresh. simpl.
      split; [ | split].
      * intros Hnone. rewrite (chunksOf_none _ Hnone).
        now rewrite mapContent_id by apply append_empty.
      * intros Hon. apply mapContent_nonempty. now apply Hmsgs.
      * congruence.
    + repeat split; [now left | exact Hmsgs | ].
      intros Hon Hoff. simpl in Hoff. congruence.
Qed.


Lemma storageInv_run (storage stored : option Stored) (now : Z) (s s' : State)
    (et : Event * Z) :
  committed s -> modalInv storage now s -> storageInv stored s ->
  run s et = Some s' -> storageInv stored s'.
Proof.
  intros [Hrendered Hfresh] Hmodal Hinv Hrun. unfold run in Hrun.
  destruct (step s (fst et)) as [s1 | ] eqn:Hstep; [ | discriminate].
  injection Hrun as <-.
  assert (Hmsgs : hasStarted s = true -> messages s <> []).
  { intros Hon. unfold storageInv in Hinv. rewrite Hon in Hinv. apply Hinv. }
  destruct (step_storage storage now s s1 (fst et) Hfresh Hmodal Hmsgs Hstep)
    as (Hrend & Hstore & Hkept & Hmsgs1 & Hstopped).
  unfold storageInv.
  change (hasStarted (commit (snd et) s1))
    with (hasStarted (hook (commit (snd et) s1))).
  change (messages (commit (snd et) s1))
    with (messages (hook (commit (snd et) s1))).
  rewrite commit_hook.
  destruct (hasStarted s1) eqn:Hon1.
  - split; [now apply Hmsgs1 | ].
    destruct (depsChanged s1) eqn:Hchanged.
    + right. exists (snd et).
      rewrite (commit_saves _ _ Hchanged Hon1 (Hmsgs1 eq_refl)).
      reflexivity.
    + rewrite (commit_quiet _ _ Hchanged).
      destruct Hstore as [Hsame | Hnone]; [ | now left].
      apply depsChanged_false in Hchanged
        as (Hfresh1 & Hs & Hu & Hc & Hj & Hi).
      rewrite Hrend, Hrendered in Hs, Hu, Hc, Hj, Hi.
      destruct (Hkept Hfresh1) as [Hm Hp].
      unfold storageInv in Hinv.
      change (hasStarted s1) with (hasStarted (hook s1)) in Hon1.
      rewrite Hs in Hon1. rewrite Hon1 in Hinv.
      destruct Hinv as [_ [Hnone | [t0 Hsaved]]];
        [left; congruence | right].
      exists t0. rewrite Hsame, Hsaved. unfold snapshot.
      change (userName s1) with (userName (hook s1)).
      change (company s1) with (company (hook s1)).
      change (jobPosting s1) with (jobPosting (hook s1)).
      change (sessionId s1) with (sessionId (hook s1)).
      now rewrite Hu, Hc, Hj, Hi, Hm, Hp.
  - rewrite (commit_stopped _ _ Hon1).
    destruct Hstore as [Hsame | Hnone]; [ | now left].
    destruct (hasStarted s) eqn:Hon.
    + left. now apply Hstopped.
    + unfold storageInv in Hinv. rewrite Hon in Hinv. now rewrite Hsame.
Qed.

Lemma storageInv_pageLoad (storage : option Stored) (now : Z) :
  storageInv storage (pageLoad storage now).
Proof.
  unfold storageInv. destruct (pageLoad_cases storage now) as [Hhook ->].
  change (hasStarted (pageLoad storage now))
    with (hasStarted (hook (pageLoad storage now))).
  rewrite Hhook.
  destruct (restoreEffect_cases now storage) as [(p & _ & _ & ->) | [-> Hs]].
  - now right.
  - exact Hs.
Qed.

Lemma reachable_storageInv (storage : option Stored) (now : Z) (s : State) :
  reachable storage now s -> storageInv storage s.
Proof.
  induction 1 as [ | s et s' Hreach IH Hrun].
  - apply storageInv_pageLoad.
  - exact (storageInv_run _ _ _ _ _ _ (reachable_committed _ _ _ Hreach)
             (reachable_modalInv _ _ _ Hreach) IH Hrun).
Qed.

(** X4.  What is stored is what is shown.  On a loaded page a started chat
    always has a message, and the session in [localStorage] is then the chat
    as the page shows it (user name, company, job posting, session id,
    suggested prompts and all messages, the text streamed so far included),
    or the slot is empty; before a chat is started the slot holds what the
    page was loaded over, or nothing.  A session of an earlier chat is never
    left behind under a started one. *)
Theorem stored_session_is_the_chat_shown
    (storage : option Stored) (now : Z) (s : State) :
  reachable storage now s ->
  (hasStarted s = true ->
   messages s <> []
   /\ (localStorage s = None
       \/ exists t, localStorage s = Some (Session (snapshot t s))))
  /\ (hasStarted s = false -> localStorage s = None \/ localStorage s = storage).
Proof.
  intros Hreach. pose proof (reachable_storageInv _ _ _ Hreach) as Hinv.
  unfold storageInv in Hinv.
  split; intros Hon; rewrite Hon in Hinv; exact Hinv.
Qed.

End Storage.

Lemma stored_session_is_the_chat_shown_witness :
  @reachable Sample.engine None 0 (Sample.after Sample.danaAsks)
  /\ hasStarted (Sample.after Sample.danaAsks) = true
  /\ messages (Sample.after Sample.danaAsks) <> []
  /\ (localStorage (Sample.after Sample.danaAsks) = None
      \/ exists t,
           localStorage (Sample.after Sample.danaAsks)
           = Some (Session (snapshot t (Sample.after Sample.danaAsks)))).
Proof.
  split; [apply after_reachable | ]. split; [reflexivity | ].
  exact (proj1 (@stored_session_is_the_chat_shown Sample.engine None 0 _
                  (after_reachable Sample.danaAsks))
               eq_refl).
Defined.

(* ------------------------------------------------------------------ *)
(** ** The chat interface *)

Lemma sendMessage_request (text : string) (now1 now2 : Z) (s : State) :
  Str.isEmpty (Str.trim text) = false -> isLoadingRef s = false ->
  requests (sendMessage text now1 now2 s)
  = (requests s
     ++ [ ChatStreamRequest
            {| ChatBody.query := text;
               ChatBody.session_id := sessionId s;
               ChatBody.user_name := userName s;
               ChatBody.company := orNull (company s);
               ChatBody.job_posting := orNull (jobPosting s) |}
            (fresh s) ])%list.
Proof.
  intros Htext Hidle. unfold sendMessage. now rewrite Htext, Hidle.
Qed.

Section Busy.
Context `{JsEngine}.

(** The flag the interface is rendered with and the flag [sendMessage]
    consults are set and cleared together. *)
Lemma step_busy (s s' : State) (e : Event) :
  isLoading s = isLoadingRef s -> step s e = Some s' ->
  isLoading s' = isLoadingRef s'.
Proof.
  intros Hinv. revert e s'.
  apply step_elim with (P := fun s' : State => isLoading s' = isLoadingRef s').
  - exact Hinv.
  - unfold handleContinueSession. now destruct (pendingSession s).
  - exact Hinv.
  - change (isLoading (abortStream s) = isLoadingRef (abortStream s)).
    unfold abortStream. now destruct (streamAbortRef s).
  - intros. exact Hinv.
  - intros. exact Hinv.
  - intros. exact Hinv.
  - intros text now1 now2. unfold sendMessage.
    now destruct (Str.isEmpty (Str.trim text) || isLoadingRef s).
  - intros t err _. unfold catchTurn.
    now destruct (String.eqb (Err.name err) "AbortError").
  - intros. exact Hinv.
  - intros t r _. unfold turnRead. destruct r as [text | ]; [ | reflexivity].
    unfold suspendTurn, onEnv. simpl. now rewrite readLines_hook.
Qed.

Lemma reachable_busy (storage : option Stored) (now : Z) (s : State) :
  reachable storage now s -> isLoading s = isLoadingRef s.
Proof.
  induction 1 as [ | s et s' _ IH Hrun].
  - destruct (pageLoad_cases storage now) as [Hhook _].
    change (isLoading (hook (pageLoad storage now))
            = isLoadingRef (hook (pageLoad storage now))).
    rewrite Hhook.
    destruct (restoreEffect_cases now storage) as [(p & _ & _ & ->) | [-> _]];
      reflexivity.
  - unfold run in Hrun.
    destruct (step s (fst et)) as [s1 | ] eqn:Hstep; [ | discriminate].
    injection Hrun as <-.
    change (isLoading (hook (commit (snd et) s1))
            = isLoadingRef (hook (commit (snd et) s1))).
    rewrite commit_hook. exact (step_busy _ _ _ IH Hstep).
Qed.

(** X5.  The chat form loses no message.  On a loaded page the flag the
    interface is disabled by ([isLoading]) always equals the flag
    [sendMessage] refuses by ([isLoadingRef]).  So submitting the form either
    changes nothing (blank input, or a turn in flight: the text stays in the
    field), or clears the field and the text, untrimmed, is the new user
    message and the query of the one request made; and a click on a quick
    question is the call of [sendMessage] with its text. *)
Theorem chat_form_sends_what_it_clears
    (storage : option Stored) (now : Z) (s : State) (input : string)
    (now1 now2 : Z) :
  reachable storage now s ->
  isLoading s = isLoadingRef s
  /\ ChatInterface.inputDisabled s = isLoadingRef s
  /\ (Str.isEmpty (Str.trim input) = false -> isLoadingRef s = false ->
      ChatInterface.sendDisabled input s = false
      /\ fst (ChatInterface.handleSubmit input now1 now2 s) = ""
      /\ messages (snd (ChatInterface.handleSubmit input now1 now2 s))
         = (messages s
            ++ [ {| id := now1; role := user; content := input |};
                 {| id := now2 + 1; role := assistant; content := "" |} ])%list
      /\ requests (snd (ChatInterface.handleSubmit input now1 now2 s))
         = (requests s
            ++ [ ChatStreamRequest
                   {| ChatBody.query := input;
                      ChatBody.session_id := sessionId s;
                      ChatBody.user_name := userName s;
                      ChatBody.company := orNull (company s);
                      ChatBody.job_posting := orNull (jobPosting s) |}
                   (fresh s) ])%list)
  /\ (Str.isEmpty (Str.trim input) || isLoadingRef s = true ->
      ChatInterface.sendDisabled input s = true
      /\ ChatInterface.handleSubmit input now1 now2 s = (input, s))
  /\ (forall question,
        ChatInterface.handleQuickQuestion (Some question) now1 now2 s
        = sendMessage question now1 now2 s).
Proof.
  intros Hreach.
  pose proof (reachable_busy _ _ _ Hreach) as Hbusy.
  destruct (reachable_committed _ _ _ Hreach) as [Hrendered _].
  assert (Hprop : isLoading (rendered s) = isLoadingRef s).
  { rewrite Hrendered. exact Hbusy. }
  unfold ChatInterface.inputDisabled, ChatInterface.sendDisabled,
    ChatInterface.handleSubmit, ChatInterface.handleQuickQuestion.
  rewrite Hprop.
  split; [exact Hbusy | ]. split; [reflexivity | ]. split; [ | split].
  - intros Htext Hidle. rewrite Htext, Hidle. simpl orb. cbv iota.
    split; [reflexivity | ]. split; [reflexivity | ]. unfold snd. split.
    + now apply sendMessage_admitted.
    + now apply sendMessage_request.
  - intros Hrefused. rewrite Hrefused. now split.
  - intros question. destruct (isLoadingRef s) eqn:Href; [ | reflexivity].
    symmetry. apply sendMessage_rejected. rewrite Href. apply orb_true_r.
Qed.

End Busy.

Lemma chat_form_sends_what_it_clears_witness :
  @reachable Sample.engine None 0 (Sample.after Sample.danaStarts)
  /\ Str.isEmpty (Str.trim " What are his strengths?") = false
  /\ isLoadingRef (Sample.after Sample.danaStarts) = false
  /\ fst (ChatInterface.handleSubmit " What are his strengths?" 2000 2000
            (Sample.after Sample.danaStarts)) = ""
  /\ messages (snd (ChatInterface.handleSubmit " What are his strengths?" 2000 2000
                      (Sample.after Sample.danaStarts)))
     = (messages (Sample.after Sample.danaStarts)
        ++ [ {| id := 2000; role := user; content := " What are his strengths?" |};
             {| id := 2000 + 1; role := assistant; content := "" |} ])%list.
Proof.
  split; [apply after_reachable | ]. split; [reflexivity | ].
  split; [reflexivity | ].
  destruct (@chat_form_sends_what_it_clears Sample.engine None 0
              (Sample.after Sample.danaStarts) " What are his strengths?"
              2000 2000 (after_reachable Sample.danaStarts))
    as (_ & _ & Hsent & _).
  destruct (Hsent eq_refl eq_refl) as (_ & Hfield & Hmsgs & _).
  split; [exact Hfield | exact Hmsgs].
Defined.

(* ------------------------------------------------------------------ *)
(** ** From the welcome form to the first question *)

Section Continuity.
Context `{JsEngine}.

(** [handleStart] from its call to its end, whatever the outcome of the
    session call. *)
Lemma run_start (s : State) (name companyName jobInput : string)
    (token : option string) (uuid : string) (o : SessionOutcome) (now t0 t : Z) :
  exists s',
    runAll s ((CallHandleStart name companyName jobInput token uuid, t0)
              :: sessionEvents (fresh s) o now t) = Some s'
    /\ hook s'
       = {| userName := name; company := companyName; jobPosting := jobInput;
            sessionId := sessionIdOf uuid o; hasStarted := true;
            suggestedPrompts := promptsOf o;
            messages := [ {| id := now; role := assistant;
                             content := welcomeOf name companyName o |} ];
            isLoading := isLoading s; error := error s;
            isLoadingRef := isLoadingRef s; streamAbortRef := streamAbortRef s;
            showResumeModal := showResumeModal s;
            pendingSession := pendingSession s |}
    /\ requests s'
       = (requests s
          ++ [SessionRequest (sessionBody name companyName jobInput token)])%list
    /\ turns s' = turns s /\ aborted s' = aborted s
    /\ fresh s' = S (fresh s)
    /\ committed s'.
Proof.
  set (a := {| startKey := fresh s; sid := uuid;
               welcome := localWelcome name companyName;
               startPhase := AwaitSession |}).
  set (s0 := s |> setUserName name |> setCompany companyName
               |> setJobPosting jobInput
               |> fetch (SessionRequest
                           (sessionBody name companyName jobInput token))).
  assert (Hfirst : run s (CallHandleStart name companyName jobInput token uuid, t0)
                   = Some (commit t0 (takeFresh (suspendStart a s0))))
    by reflexivity.
  assert (Hfind : findStart (fresh s)
                    (starts (commit t0 (takeFresh (suspendStart a s0)))) = Some a).
  { destruct (commit_flight t0 (takeFresh (suspendStart a s0))) as (_ & -> & _).
    apply (find_suspended_start a). }
  assert (Hhook1 : hook (commit t0 (takeFresh (suspendStart a s0)))
                   = with_jobPosting jobInput
                       (with_company companyName (with_userName name (hook s))))
    by (rewrite commit_hook; reflexivity).
  destruct (commit_flight t0 (takeFresh (suspendStart a s0)))
    as (Ht1 & _ & Ha1 & Hf1 & Hr1).
  change (turns (takeFresh (suspendStart a s0))) with (turns s) in Ht1.
  change (aborted (takeFresh (suspendStart a s0))) with (aborted s) in Ha1.
  change (fresh (takeFresh (suspendStart a s0))) with (S (fresh s)) in Hf1.
  change (requests (takeFresh (suspendStart a s0)))
    with (requests s
          ++ [SessionRequest (sessionBody name companyName jobInput token)])%list
    in Hr1.
  rewrite runAll_cons, Hfirst. clear Hfirst.
  generalize dependent (commit t0 (takeFresh (suspendStart a s0))).
  intros s1 Hfind Hhook1 Ht1 Ha1 Hf1 Hr1. clear s0.
  assert (Hend : forall s2 sid' welcome' prompts b,
            hook s2
            = with_jobPosting jobInput
                (with_company companyName (with_userName name (hook s))) ->
            requests s2
            = (requests s
               ++ [SessionRequest
                     (sessionBody name companyName jobInput token)])%list ->
            turns s2 = turns s -> aborted s2 = aborted s ->
            fresh s2 = S (fresh s) ->
            hook (commit t (startChat b sid' welcome' prompts now s2))
            = {| userName := name; company := companyName; jobPosting := jobInput;
                 sessionId := sid'; hasStarted := true;
                 suggestedPrompts := prompts;
                 messages := [ {| id := now; role := assistant;
                                  content := welcome' |} ];
                 isLoading := isLoading s; error := error s;
                 isLoadingRef := isLoadingRef s;
                 streamAbortRef := streamAbortRef s;
                 showResumeModal := showResumeModal s;
                 pendingSession := pendingSession s |}
            /\ requests (commit t (startChat b sid' welcome' prompts now s2))
               = (requests s
                  ++ [SessionRequest
                        (sessionBody name companyName jobInput token)])%list
            /\ turns (commit t (startChat b sid' welcome' prompts now s2)) = turns s
            /\ aborted (commit t (startChat b sid' welcome' prompts now s2))
               = aborted s
            /\ fresh (commit t (startChat b sid' welcome' prompts now s2))
               = S (fresh s)
            /\ committed (commit t (startChat b sid' welcome' prompts now s2))).
  { intros s2 sid' welcome' prompts b Hh2 Hr2 Ht2 Ha2 Hf2.
    destruct (commit_flight t (startChat b sid' welcome' prompts now s2))
      as (-> & _ & -> & -> & ->).
    rewrite commit_hook.
    split; [ | split; [exact Hr2 | split; [exact Ht2 | split; [exact Ha2 | ]]]].
    - unfold startChat, dropStart, setHasStarted, setMessages, setSuggestedPrompts,
        setSessionId, onHook, onEnv. simpl. rewrite Hh2. reflexivity.
    - split; [exact Hf2 | apply commit_committed]. }
  assert (Hjson : forall a',
            hook (commit t (suspendStart a' s1))
            = with_jobPosting jobInput
                (with_company companyName (with_userName name (hook s)))
            /\ requests (commit t (suspendStart a' s1))
               = (requests s
                  ++ [SessionRequest
                        (sessionBody name companyName jobInput token)])%list
            /\ turns (commit t (suspendStart a' s1)) = turns s
            /\ aborted (commit t (suspendStart a' s1)) = aborted s
            /\ fresh (commit t (suspendStart a' s1)) = S (fresh s)).
  { intros a'.
    destruct (commit_flight t (suspendStart a' s1)) as (-> & _ & -> & -> & ->).
    rewrite commit_hook.
    split; [exact Hhook1 | ]. split; [exact Hr1 | ].
    split; [exact Ht1 | ]. split; [exact Ha1 | exact Hf1]. }
  destruct o as [ | | | data]; unfold sessionEvents.
  - rewrite runAll_cons. unfold run at 1, step, fst, snd. rewrite Hfind.
    simpl startPhase. cbv iota. unfold option_map, startFailed.
    eexists. split; [reflexivity | ]. now apply Hend.
  - rewrite runAll_cons. unfold run at 1, step, fst, snd. rewrite Hfind.
    simpl startPhase. cbv iota. unfold option_map, startResponded.
    eexists. split; [reflexivity | ]. now apply Hend.
  - rewrite runAll_cons. unfold run at 1, step, fst, snd. rewrite Hfind.
    simpl startPhase. cbv iota. unfold option_map, startResponded.
    set (a' := {| startKey := startKey a; sid := sid a; welcome := welcome a;
                  startPhase := AwaitSessionJson |}).
    rewrite runAll_cons. unfold run, step, fst, snd.
    change (fresh s) with (startKey a').
    rewrite (findStart_commit_suspend a' t s1). simpl startPhase. cbv iota.
    unfold option_map, startFailed.
    eexists. split; [reflexivity | ].
    destruct (Hjson a') as (Hh2 & Hr2 & Ht2 & Ha2 & Hf2).
    exact (Hend _ _ _ _ _ Hh2 Hr2 Ht2 Ha2 Hf2).
  - rewrite runAll_cons. unfold run at 1, step, fst, snd. rewrite Hfind.
    simpl startPhase. cbv iota. unfold option_map, startResponded.
    set (a' := {| startKey := startKey a; sid := sid a; welcome := welcome a;
                  startPhase := AwaitSessionJson |}).
    rewrite runAll_cons. unfold run, step, fst, snd.
    change (fresh s) with (startKey a').
    rewrite (findStart_commit_suspend a' t s1). simpl startPhase. cbv iota.
    unfold option_map, startAnswered.
    eexists. split; [reflexivity | ].
    destruct (Hjson a') as (Hh2 & Hr2 & Ht2 & Ha2 & Hf2).
    exact (Hend _ _ _ _ _ Hh2 Hr2 Ht2 Ha2 Hf2).
Qed.

(** X6.  The questions of a chat go out under the session it was started
    with.  When a chat is started from an idle page and a first question is
    sent, two requests are made: the session request of [handleStart] and one
    chat request, which carries the question as typed, the session id the
    backend answered with (the local UUID when the session call failed, was
    refused or could not be read), the user name, the company ([null] when
    empty) and the job input as [handleStart] received it: the address
    itself when it was a URL, not what the backend extracted from it. *)
Theorem chat_request_carries_session
    (s : State) (name companyName jobInput : string) (token : option string)
    (uuid : string) (o : SessionOutcome) (now t0 t : Z)
    (text : string) (now1 now2 tm : Z) :
  isLoadingRef s = false -> Str.isEmpty (Str.trim text) = false ->
  exists s',
    runAll s ((CallHandleStart name companyName jobInput token uuid, t0)
              :: sessionEvents (fresh s) o now t
              ++ [(CallSendMessage text now1 now2, tm)]) = Some s'
    /\ requests s'
       = (requests s
          ++ [ SessionRequest (sessionBody name companyName jobInput token);
               ChatStreamRequest
                 {| ChatBody.query := text;
                    ChatBody.session_id := sessionIdOf uuid o;
                    ChatBody.user_name := name;
                    ChatBody.company := orNull companyName;
                    ChatBody.job_posting := orNull jobInput |}
                 (S (fresh s)) ])%list
    /\ messages s'
       = [ {| id := now; role := assistant;
              content := welcomeOf name companyName o |};
           {| id := now1; role := user; content := text |};
           {| id := now2 + 1; role := assistant; content := "" |} ].
Proof.
  intros Hidle Htext.
  destruct (run_start s name companyName jobInput token uuid o now t0 t)
    as (s1 & Hrun & Hhook & Hreq & _ & _ & Hfresh & _).
  change ((CallHandleStart name companyName jobInput token uuid, t0)
          :: sessionEvents (fresh s) o now t
             ++ [(CallSendMessage text now1 now2, tm)])%list
    with (((CallHandleStart name companyName jobInput token uuid, t0)
           :: sessionEvents (fresh s) o now t)
          ++ [(CallSendMessage text now1 now2, tm)])%list.
  rewrite runAll_app, Hrun, runAll_cons.
  unfold run, step, fst, snd, option_map, runAll.
  exists (commit tm (sendMessage text now1 now2 s1)).
  split; [reflexivity | ].
  assert (Hidle1 : isLoadingRef s1 = false).
  { change (isLoadingRef (hook s1) = false). rewrite Hhook. exact Hidle. }
  destruct (commit_flight tm (sendMessage text now1 now2 s1))
    as (_ & _ & _ & _ & ->).
  change (messages (commit tm (sendMessage text now1 now2 s1)))
    with (messages (hook (commit tm (sendMessage text now1 now2 s1)))).
  rewrite commit_hook.
  change (messages (hook (sendMessage text now1 now2 s1)))
    with (messages (sendMessage text now1 now2 s1)).
  rewrite (sendMessage_request text now1 now2 s1 Htext Hidle1).
  rewrite (sendMessage_admitted text now1 now2 s1 Htext Hidle1).
  rewrite Hreq, Hfresh, <- app_assoc.
  change (sessionId s1) with (sessionId (hook s1)).
  change (userName s1) with (userName (hook s1)).
  change (company s1) with (company (hook s1)).
  change (jobPosting s1) with (jobPosting (hook s1)).
  change (messages s1) with (messages (hook s1)).
  rewrite Hhook. split; reflexivity.
Qed.

End Continuity.

Lemma chat_request_carries_session_witness :
  isLoadingRef (pageLoad None 0) = false
  /\ Str.isEmpty (Str.trim "What are his strengths?") = false
  /\ exists s',
       @runAll Sample.engine (pageLoad None 0)
         ((CallHandleStart "Dana" "Acme" Sample.pastedUrl None Sample.uuid, 1000)
          :: sessionEvents (fresh (pageLoad None 0))
               (Answers Sample.backendAnswer) 1200 1200
          ++ [(CallSendMessage "What are his strengths?" 2000 2000, 2000)])
       = Some s'
       /\ requests s'
          = (requests (pageLoad None 0)
             ++ [ SessionRequest (sessionBody "Dana" "Acme" Sample.pastedUrl None);
                  ChatStreamRequest
                    {| ChatBody.query := "What are his strengths?";
                       ChatBody.session_id :=
                         sessionIdOf Sample.uuid (Answers Sample.backendAnswer);
                       ChatBody.user_name := "Dana";
                       ChatBody.company := orNull "Acme";
                       ChatBody.job_posting := orNull Sample.pastedUrl |}
                    (S (fresh (pageLoad None 0))) ])%list.
Proof.
  split; [reflexivity | ]. split; [reflexivity | ].
  destruct (@chat_request_carries_session Sample.engine (pageLoad None 0)
              "Dana" "Acme" Sample.pastedUrl None Sample.uuid
              (Answers Sample.backendAnswer) 1200 1000 1200
              "What are his strengths?" 2000 2000 2000 eq_refl eq_refl)
    as (s' & Hrun & Hreq & _).
  exists s'. split; [exact Hrun | exact Hreq].
Defined.

(* ------------------------------------------------------------------ *)
(** ** A turn and the messages before it *)

Lemma mapContent_other (aiId : Z) (f : string -> string) (l : list Message) :
  Forall (fun m => id m <> aiId) l -> mapContent aiId f l = l.
Proof.
  induction 1 as [ | m l Hm _ IH]; [reflexivity | ].
  simpl. rewrite IH. apply Z.eqb_neq in Hm. now rewrite Hm.
Qed.

Lemma mapContent_turn (aiId : Z) (f : string -> string) (l : list Message)
    (now1 : Z) (text : string) :
  Forall (fun m => id m <> aiId) l -> now1 <> aiId ->
  mapContent aiId f
    (l ++ [ {| id := now1; role := user; content := text |};
            {| id := aiId; role := assistant; content := "" |} ])%list
  = (l ++ [ {| id := now1; role := user; content := text |};
            {| id := aiId; role := assistant; content := f "" |} ])%list.
Proof.
  intros Hl Hnow1. rewrite mapContent_app, (mapContent_other _ _ _ Hl).
  simpl. apply Z.eqb_neq in Hnow1. now rewrite Hnow1, Z.eqb_refl.
Qed.

Section History.
Context `{JsEngine}.

(** X7.  A turn leaves the earlier messages alone.  When no message on the
    page has the id of the new assistant message (the second reading of the
    clock plus one) and the user message does not have it either, a turn that
    is admitted, answered ok and streamed to its end leaves exactly the
    messages there were, followed by the user message and the assistant
    message with the text assembled from the reads; when its stream breaks
    with an error that is not an abort, the same with the fallback text as
    the assistant message. *)
Theorem turn_leaves_history
    (storage : option Stored) (now : Z) (s : State) (text : string)
    (now1 now2 status : Z) (reads : list string) (err : Err.t) (tm : Z) :
  reachable storage now s ->
  isLoadingRef s = false -> Str.isEmpty (Str.trim text) = false ->
  responseOk status = true ->
  Forall (fun m => id m <> now2 + 1) (messages s) -> now1 <> now2 + 1 ->
  (exists s',
     runAll s (turnEvents text now1 now2 (fresh s) status reads tm
               ++ [(ReadResolved (fresh s) None, tm)]) = Some s'
     /\ messages s'
        = (messages s
           ++ [ {| id := now1; role := user; content := text |};
                {| id := now2 + 1; role := assistant;
                   content := assembledText reads |} ])%list)
  /\ (Err.name err <> "AbortError" ->
      exists s',
        runAll s (turnEvents text now1 now2 (fresh s) status reads tm
                  ++ [(ReadRejected (fresh s) err, tm)]) = Some s'
        /\ messages s'
           = (messages s
              ++ [ {| id := now1; role := user; content := text |};
                   {| id := now2 + 1; role := assistant;
                      content := fallbackContent |} ])%list).
Proof.
  intros Hreach Hidle Htext Hok Hids Hnow1.
  destruct (run_turn text now1 now2 status reads tm s
              (reachable_flightInv _ _ _ Hreach) Hidle Htext Hok)
    as (s1 & Hrun & (Hturns & _ & Hlive) & _ & Hraw).
  pose proof Hraw as Hmsg.
  rewrite (mapContent_turn _ _ _ _ _ Hids Hnow1) in Hmsg. simpl in Hmsg.
  split.
  - exists (commit tm (finallyTurn (newTurn now2 s AwaitRead) s1)). split.
    + rewrite runAll_app, Hrun, runAll_cons. unfold run, step, fst, snd.
      rewrite Hturns. unfold findTurn, find.
      simpl controller in *. rewrite Nat.eqb_refl. simpl turnPhase.
      rewrite Hlive. reflexivity.
    + change (messages (hook (commit tm (finallyTurn (newTurn now2 s AwaitRead) s1)))
              = (messages s
                 ++ [ {| id := now1; role := user; content := text |};
                      {| id := now2 + 1; role := assistant;
                         content := assembledText reads |} ])%list).
      rewrite commit_hook. exact Hmsg.
  - intros Hname.
    assert (Hcatch : String.eqb (Err.name err) "AbortError" = false)
      by (now apply String.eqb_neq).
    exists (commit tm (catchTurn (newTurn now2 s AwaitRead) err s1)). split.
    + rewrite runAll_app, Hrun, runAll_cons. unfold run, step, fst, snd.
      rewrite Hturns. unfold findTurn, find.
      simpl controller in *. rewrite Nat.eqb_refl. simpl turnPhase.
      rewrite Hlive. reflexivity.
    + change (messages
                (hook (commit tm (catchTurn (newTurn now2 s AwaitRead) err s1)))
              = (messages s
                 ++ [ {| id := now1; role := user; content := text |};
                      {| id := now2 + 1; role := assistant;
                         content := fallbackContent |} ])%list).
      rewrite commit_hook. unfold catchTurn. rewrite Hcatch.
      change (mapContent (now2 + 1) (fun _ => fallbackContent) (messages s1)
              = (messages s
                 ++ [ {| id := now1; role := user; content := text |};
                      {| id := now2 + 1; role := assistant;
                         content := fallbackContent |} ])%list).
      rewrite Hraw, mapContent_compose.
      exact (mapContent_turn _ _ _ _ _ Hids Hnow1).
Qed.

End History.

Lemma turn_leaves_history_witness :
  @reachable Sample.engine None 0 (Sample.after Sample.danaStarts)
  /\ isLoadingRef (Sample.after Sample.danaStarts) = false
  /\ Str.isEmpty (Str.trim "What are his strengths?") = false
  /\ responseOk 200 = true
  /\ Forall (fun m => id m <> 2000 + 1) (messages (Sample.after Sample.danaStarts))
  /\ 2000 <> 2000 + 1
  /\ exists s',
       @runAll Sample.engine (Sample.after Sample.danaStarts)
         (turnEvents "What are his strengths?" 2000 2000
            (fresh (Sample.after Sample.danaStarts)) 200
            [Sample.twoFragments] 2001
          ++ [(ReadResolved (fresh (Sample.after Sample.danaStarts)) None, 2001)])
       = Some s'
       /\ messages s'
          = (messages (Sample.after Sample.danaStarts)
             ++ [ {| id := 2000; role := user; content := "What are his strengths?" |};
                  {| id := 2000 + 1; role := assistant;
                     content := @assembledText Sample.engine [Sample.twoFragments] |} ])%list.
Proof.
  assert (Hids : Forall (fun m => id m <> 2000 + 1)
                   (messages (Sample.after Sample.danaStarts))).
  { vm_compute. constructor; [discriminate | constructor]. }
  assert (Hnow1 : 2000 <> 2000 + 1) by discriminate.
  split; [apply after_reachable | ]. split; [reflexivity | ].
  split; [reflexivity | ]. split; [reflexivity | ].
  split; [exact Hids | ]. split; [exact Hnow1 | ].
  exact (proj1 (@turn_leaves_history Sample.engine None 0
                  (Sample.after Sample.danaStarts) "What are his strengths?"
                  2000 2000 200 [Sample.twoFragments] Sample.networkError 2001
                  (after_reachable Sample.danaStarts) eq_refl eq_refl eq_refl
                  Hids Hnow1)).
Defined.

(* ------------------------------------------------------------------ *)
(** ** A reset while an error response is read *)

Lemma shownError_other (name message : string) (status : Z) :
  status <> 429 ->
  shownError {| Err.name := name; Err.message := message;
                Err.status := Some status |}
  = if Str.isEmpty message then genericFailureMessage else message.
Proof.
  intros Hne. unfold shownError. simpl.
  destruct status as [ | p | p]; try reflexivity.
  repeat (destruct p as [p | p | ]; try reflexivity). congruence.
Qed.

Section ResetOnError.
Context `{JsEngine}.

(** X8.  A reset does not silence a request that was refused.  When
    [handleReset] runs while the body of a response that is not ok is still
    awaited, it clears the error, the messages and the stored session and
    aborts the request; the aborted body
    can then only fail to be read, which the code takes for an empty body.
    The turn then ends as a failure, not as an abort: the error text is set
    after the reset (the rate-limit text for status 429, "HTTP error! status:
    N" otherwise) while no chat is started and nothing is stored, the flags
    are cleared, and a chat started afterwards begins with that error text
    set, since [handleStart] leaves the error as it is. *)
Theorem reset_does_not_silence_refused_request
    (storage : option Stored) (now : Z) (s : State) (t : Turn) (status : Z)
    (t1 t2 : Z) :
  reachable storage now s ->
  turns s = [t] -> turnPhase t = AwaitErrorBody status ->
  exists s1 s2,
    run s (CallHandleReset, t1) = Some s1
    /\ error s1 = None /\ messages s1 = [] /\ hasStarted s1 = false
    /\ (forall body t3 s',
          run s1 (ErrorBodySettled (controller t) body, t3) = Some s' ->
          body = None)
    /\ run s1 (ErrorBodySettled (controller t) None, t2) = Some s2
    /\ error s2
       = Some (if status =? 429 then rateLimitMessage
               else "HTTP error! status: " ++ Str.ofZ status)
    /\ messages s2 = [] /\ hasStarted s2 = false /\ localStorage s2 = None
    /\ isLoading s2 = false /\ isLoadingRef s2 = false /\ turns s2 = []
    /\ forall name companyName jobInput token uuid o now' t0 t',
         exists s3,
           runAll s2 ((CallHandleStart name companyName jobInput token uuid, t0)
                      :: sessionEvents (fresh s2) o now' t') = Some s3
           /\ hasStarted s3 = true
           /\ error s3 = error s2.
Proof.
  intros Hreach Hturns Hphase.
  destruct (reachable_flightInv _ _ _ Hreach) as [Hinv _].
  unfold turnsInv in Hinv. rewrite Hturns in Hinv. destruct Hinv as [_ Href].
  destruct (commit_flight t1 (handleReset s)) as (Hts & _ & Hab & _ & _).
  assert (Hturns1 : turns (commit t1 (handleReset s)) = [t]).
  { rewrite Hts.
    change (turns (handleReset s)) with (turns (abortStream s)).
    unfold abortStream. now rewrite Href. }
  assert (Hdead : isAborted (controller t) (commit t1 (handleReset s)) = true).
  { unfold isAborted. rewrite Hab.
    change (aborted (handleReset s)) with (aborted (abortStream s)).
    unfold abortStream. rewrite Href. simpl. now rewrite Nat.eqb_refl. }
  assert (Hrun1 : run s (CallHandleReset, t1) = Some (commit t1 (handleReset s)))
    by reflexivity.
  assert (Hhook1 : error (commit t1 (handleReset s)) = None
                   /\ messages (commit t1 (handleReset s)) = []
                   /\ hasStarted (commit t1 (handleReset s)) = false).
  { change (error (hook (commit t1 (handleReset s))) = None
            /\ messages (hook (commit t1 (handleReset s))) = []
            /\ hasStarted (hook (commit t1 (handleReset s))) = false).
    rewrite commit_hook. now repeat split. }
  assert (Hstore1 : localStorage (commit t1 (handleReset s)) = None).
  { rewrite commit_stopped; reflexivity. }
  pose proof (commit_committed t1 (handleReset s)) as Hcommitted1.
  clear Hts Hab.
  generalize dependent (commit t1 (handleReset s)).
  intros s1 Hturns1 Hdead Hrun1 (Herr1 & Hmsgs1 & Hoff1) Hstore1 Hcommitted1.
  assert (Hfind : findTurn (controller t) (turns s1) = Some t).
  { rewrite Hturns1. unfold findTurn, find. now rewrite Nat.eqb_refl. }
  set (err := httpError status (errorDataOf None)).
  assert (Hcatch : String.eqb (Err.name err) "AbortError" = false)
    by apply httpError_name.
  exists s1, (commit t2 (catchTurn t err s1)).
  split; [exact Hrun1 | ]. split; [exact Herr1 | ]. split; [exact Hmsgs1 | ].
  split; [exact Hoff1 | ]. split; [ | split].
  - intros body t3 s'. unfold run, step, fst, snd.
    rewrite Hfind, Hphase, Hdead. simpl negb. simpl orb.
    destruct body as [v | ]; [discriminate | reflexivity].
  - unfold run, step, fst, snd. rewrite Hfind, Hphase, Hdead. reflexivity.
  - assert (Hhook2 : hook (commit t2 (catchTurn t err s1))
                     = with_isLoadingRef false
                         (with_isLoading false
                            (with_messages
                               (mapContent (aiMessageId t)
                                  (fun _ => fallbackContent) (messages s1))
                               (with_error (Some (shownError err)) (hook s1))))).
    { rewrite commit_hook. unfold catchTurn. rewrite Hcatch. reflexivity. }
    assert (Hstore2 : localStorage (commit t2 (catchTurn t err s1)) = None).
    { rewrite commit_stopped.
      - unfold catchTurn. rewrite Hcatch. exact Hstore1.
      - unfold catchTurn. rewrite Hcatch. exact Hoff1. }
    destruct (commit_flight t2 (catchTurn t err s1)) as (Hts2 & _).
    assert (Hturns2 : turns (commit t2 (catchTurn t err s1)) = []).
    { rewrite Hts2. unfold catchTurn. rewrite Hcatch.
      unfold finallyTurn, dropTurn, onEnv. simpl. rewrite Hturns1. simpl.
      now rewrite Nat.eqb_refl. }
    clear Hts2.
    generalize dependent (commit t2 (catchTurn t err s1)).
    intros s2 Hhook2 Hstore2 Hturns2.
    assert (Hshown : shownError err
                     = if status =? 429 then rateLimitMessage
                       else "HTTP error! status: " ++ Str.ofZ status).
    { subst err. change (errorDataOf None) with (JObj []).
      rewrite httpError_no_detail.
      destruct (Z.eqb_spec status 429) as [-> | Hne]; [reflexivity | ].
      now rewrite (shownError_other _ _ _ Hne). }
    assert (Herr2 : error s2 = Some (shownError err)).
    { change (error (hook s2) = Some (shownError err)). now rewrite Hhook2. }
    split; [now rewrite Herr2, Hshown | ].
    split; [change (messages (hook s2) = []); rewrite Hhook2; simpl;
            change (messages (hook s1)) with (messages s1);
            now rewrite Hmsgs1 | ].
    split; [change (hasStarted (hook s2) = false); now rewrite Hhook2 | ].
    split; [exact Hstore2 | ].
    split; [change (isLoading (hook s2) = false); now rewrite Hhook2 | ].
    split; [change (isLoadingRef (hook s2) = false); now rewrite Hhook2 | ].
    split; [exact Hturns2 | ].
    intros name companyName jobInput token uuid o now' t0 t'.
    destruct (run_start s2 name companyName jobInput token uuid o now' t0 t')
      as (s3 & Hrun3 & Hhook3 & _).
    exists s3. split; [exact Hrun3 | ].
    change (hasStarted (hook s3) = true /\ error (hook s3) = error s2).
    rewrite Hhook3. now split.
Qed.

End ResetOnError.

Lemma reset_does_not_silence_refused_request_witness :
  @reachable Sample.engine None 0 (Sample.after Runs.danaAwaitsErrorBody)
  /\ turns (Sample.after Runs.danaAwaitsErrorBody)
     = [ {| aiMessageId := 2001; controller := 1%nat;
            turnPhase := AwaitErrorBody 500 |} ]
  /\ exists s1 s2,
       @run Sample.engine (Sample.after Runs.danaAwaitsErrorBody)
         (CallHandleReset, 2002) = Some s1
       /\ error s1 = None
       /\ @run Sample.engine s1 (ErrorBodySettled 1 None, 2003) = Some s2
       /\ error s2 = Some "HTTP error! status: 500"
       /\ hasStarted s2 = false.
Proof.
  split; [apply after_reachable | ]. split; [reflexivity | ].
  destruct (@reset_does_not_silence_refused_request Sample.engine None 0
              (Sample.after Runs.danaAwaitsErrorBody)
              {| aiMessageId := 2001; controller := 1%nat;
                 turnPhase := AwaitErrorBody 500 |}
              500 2002 2003
              (after_reachable Runs.danaAwaitsErrorBody) eq_refl eq_refl)
    as (s1 & s2 & Hrun1 & Herr1 & _ & _ & _ & Hrun2 & Herr2 & _ & Hoff & _).
  exists s1, s2.
  split; [exact Hrun1 | ]. split; [exact Herr1 | ].
  split; [exact Hrun2 | ]. split; [exact Herr2 | exact Hoff].
Defined.

(* ------------------------------------------------------------------ *)
(** ** Trimming *)

Lemma trimStart_length (s : string) :
  (String.length (Str.trimStart s) <= String.length s)%nat.
Proof.
  remember (String.length s) as n eqn:Hn.
  revert s Hn. induction n as [n IH] using lt_wf_ind. intros s ->.
  destruct s as [ | c1 [ | c2 [ | c3 r3]]]; simpl; try lia.
  - destruct (Str.ws1 c1); simpl; lia.
  - destruct (Str.ws1 c1).
    + specialize (IH _ (Nat.lt_succ_diag_r _) (String c2 "") eq_refl).
      simpl in *. lia.
    + destruct (Str.ws2 c1 c2); simpl; lia.
  - destruct (Str.ws1 c1).
    + assert (Hlt : (String.length (String c2 (String c3 r3))
                     < S (S (S (String.length r3))))%nat) by (simpl; lia).
      specialize (IH _ Hlt _ eq_refl). simpl in *. lia.
    + destruct (Str.ws2 c1 c2).
      * assert (Hlt : (String.length (String c3 r3)
                       < S (S (S (String.length r3))))%nat) by (simpl; lia).
        specialize (IH _ Hlt _ eq_refl). simpl in *. lia.
      * destruct (Str.ws3 c1 c2 c3); [ | simpl; lia].
        assert (Hlt : (String.length r3 < S (S (S (String.length r3))))%nat)
          by lia.
        specialize (IH _ Hlt _ eq_refl). lia.
Qed.

(** White space in front of a text made of white space only is dropped
    with it. *)
Lemma trimStart_blank_prefix (u q : string) :
  Str.trimStart u = "" -> Str.trimStart (u ++ q) = Str.trimStart q.
Proof.
  remember (String.length u) as n eqn:Hn.
  revert u Hn. induction n as [n IH] using lt_wf_ind. intros u -> Hblank.
  destruct u as [ | c1 [ | c2 [ | c3 r3]]]; [reflexivity | | | ].
  - simpl in *. destruct (Str.ws1 c1); [reflexivity | discriminate].
  - simpl in Hblank. simpl.
    destruct (Str.ws1 c1) eqn:H1.
    + apply (IH 1%nat (Nat.lt_succ_diag_r _) (String c2 "") eq_refl Hblank).
    + destruct (Str.ws2 c1 c2); [reflexivity | discriminate].
  - simpl in Hblank.
    change (Str.trimStart (String c1 (String c2 (String c3 (r3 ++ q))))
            = Str.trimStart q).
    simpl.
    destruct (Str.ws1 c1) eqn:H1.
    + refine (IH _ _ (String c2 (String c3 r3)) eq_refl Hblank). simpl. lia.
    + destruct (Str.ws2 c1 c2) eqn:H2.
      * refine (IH _ _ (String c3 r3) eq_refl Hblank). simpl. lia.
      * destruct (Str.ws3 c1 c2 c3) eqn:H3; [ | discriminate].
        refine (IH _ _ r3 eq_refl Hblank). simpl. lia.
Qed.

(** A text that does not begin with white space has no prefix that
    does. *)
Lemma trimStart_prefix (a b : string) :
  Str.trimStart (a ++ b) = a ++ b -> Str.trimStart a = a.
Proof.
  intros Hfixed.
  assert (Hshort : forall (c : ascii) (r : string),
            Str.trimStart r <> String c r).
  { intros c r Heq. pose proof (trimStart_length r) as Hlen.
    rewrite Heq in Hlen. simpl in Hlen. lia. }
  assert (Hshort2 : forall (c c' : ascii) (r : string),
            Str.trimStart r <> String c (String c' r)).
  { intros c c' r Heq. pose proof (trimStart_length r) as Hlen.
    rewrite Heq in Hlen. simpl in Hlen. lia. }
  assert (Hshort3 : forall (c c' c'' : ascii) (r : string),
            Str.trimStart r <> String c (String c' (String c'' r))).
  { intros c c' c'' r Heq. pose proof (trimStart_length r) as Hlen.
    rewrite Heq in Hlen. simpl in Hlen. lia. }
  destruct a as [ | c1 [ | c2 [ | c3 r3]]]; [reflexivity | | | ].
  - simpl in *. destruct (Str.ws1 c1); [ | reflexivity].
    now elim (Hshort c1 b).
  - change (Str.trimStart (String c1 (String c2 b)) = String c1 (String c2 b))
      in Hfixed.
    simpl in *. destruct (Str.ws1 c1).
    + now elim (Hshort c1 (String c2 b)).
    + destruct (Str.ws2 c1 c2); [ | reflexivity].
      now elim (Hshort2 c1 c2 b).
  - change (Str.trimStart (String c1 (String c2 (String c3 (r3 ++ b))))
            = String c1 (String c2 (String c3 (r3 ++ b)))) in Hfixed.
    simpl in *. destruct (Str.ws1 c1).
    + now elim (Hshort c1 (String c2 (String c3 (r3 ++ b)))).
    + destruct (Str.ws2 c1 c2).
      * now elim (Hshort2 c1 c2 (String c3 (r3 ++ b))).
      * destruct (Str.ws3 c1 c2 c3); [ | reflexivity].
        now elim (Hshort3 c1 c2 c3 (r3 ++ b)).
Qed.

Lemma trimStart_idempotent (s : string) :
  Str.trimStart (Str.trimStart s) = Str.trimStart s.
Proof.
  remember (String.length s) as n eqn:Hn.
  revert s Hn. induction n as [n IH] using lt_wf_ind. intros s ->.
  destruct s as [ | c1 [ | c2 [ | c3 r3]]]; [reflexivity | | | ].
  - simpl. destruct (Str.ws1 c1) eqn:H1; [reflexivity | ].
    simpl. now rewrite H1.
  - simpl. destruct (Str.ws1 c1) eqn:H1.
    + apply (IH 1%nat (Nat.lt_succ_diag_r _) (String c2 "") eq_refl).
    + destruct (Str.ws2 c1 c2) eqn:H2; [reflexivity | ].
      simpl. now rewrite H1, H2.
  - simpl. destruct (Str.ws1 c1) eqn:H1.
    + refine (IH _ _ (String c2 (String c3 r3)) eq_refl). simpl. lia.
    + destruct (Str.ws2 c1 c2) eqn:H2.
      * refine (IH _ _ (String c3 r3) eq_refl). simpl. lia.
      * destruct (Str.ws3 c1 c2 c3) eqn:H3.
        -- refine (IH _ _ r3 eq_refl). simpl. lia.
        -- simpl. now rewrite H1, H2, H3.
Qed.

(** What [trimEnd] drops is white space. *)
Lemma trimEnd_split (s : string) :
  exists q, s = Str.trimEnd s ++ q /\ Str.trimStart q = "".
Proof.
  induction s as [ | c r [q [Hr Hq]]]; [now exists "" | ].
  change (Str.trimEnd (String c r))
    with (if Str.isEmpty (Str.trimStart (String c r)) then ""
          else String c (Str.trimEnd r)).
  destruct (Str.trimStart (String c r)) eqn:Hblank.
  - exists (String c r). now split.
  - exists q. split; [ | exact Hq]. simpl. now rewrite <- Hr.
Qed.

Lemma trimEnd_idempotent (s : string) :
  Str.trimEnd (Str.trimEnd s) = Str.trimEnd s.
Proof.
  induction s as [ | c r IH]; [reflexivity | ].
  change (Str.trimEnd (String c r))
    with (if Str.isEmpty (Str.trimStart (String c r)) then ""
          else String c (Str.trimEnd r)).
  destruct (Str.trimStart (String c r)) as [ | c' r'] eqn:Hblank;
    [reflexivity | ].
  simpl Str.isEmpty. cbv iota.
  change (Str.trimEnd (String c (Str.trimEnd r)))
    with (if Str.isEmpty (Str.trimStart (String c (Str.trimEnd r))) then ""
          else String c (Str.trimEnd (Str.trimEnd r))).
  destruct (Str.trimStart (String c (Str.trimEnd r))) eqn:Hhead.
  - exfalso. destruct (trimEnd_split r) as [q [Hr Hq]].
    pose proof (trimStart_blank_prefix _ q Hhead) as Hall.
    change (String c (Str.trimEnd r) ++ q)
      with (String c (Str.trimEnd r ++ q)) in Hall.
    rewrite <- Hr, Hblank, Hq in Hall. discriminate.
  - simpl Str.isEmpty. cbv iota. now rewrite IH.
Qed.

(** Trimming a trimmed text changes nothing. *)
Lemma trim_idempotent (s : string) : Str.trim (Str.trim s) = Str.trim s.
Proof.
  unfold Str.trim.
  destruct (trimEnd_split (Str.trimStart s)) as [q [Hsplit _]].
  assert (Hfixed : Str.trimStart (Str.trimEnd (Str.trimStart s))
                   = Str.trimEnd (Str.trimStart s)).
  { apply (trimStart_prefix _ q). rewrite <- Hsplit.
    apply trimStart_idempotent. }
  rewrite Hfixed. apply trimEnd_idempotent.
Qed.

(* ------------------------------------------------------------------ *)
(** ** The welcome form *)

(** X9.  The welcome form sends what it shows.  Submitting with a blank
    name does nothing.  Otherwise the form is marked as submitting and one
    session request is made, with the name, the company and the job input
    trimmed (trimming them again changes nothing) and a name that is not
    empty; the request carries the job input as [job_url] exactly when the
    form shows its "URL detected" hint, and as [job_posting] otherwise; the
    token is the one the Turnstile widget delivered last, or [null]. *)
Theorem welcome_form_sends_what_it_shows
    (f : WelcomeForm.t) (uuid : string) (s : State) :
  (Str.isEmpty (Str.trim (WelcomeForm.name f)) = true ->
   WelcomeForm.submit f uuid s = (f, s))
  /\ (Str.isEmpty (Str.trim (WelcomeForm.name f)) = false ->
      exists body,
        requests (snd (WelcomeForm.submit f uuid s))
        = (requests s ++ [SessionRequest body])%list
        /\ WelcomeForm.isSubmitting (fst (WelcomeForm.submit f uuid s)) = true
        /\ SessionBody.user_name body = Str.trim (WelcomeForm.name f)
        /\ SessionBody.user_name body <> ""
        /\ Str.trim (SessionBody.user_name body) = SessionBody.user_name body
        /\ SessionBody.company body = orNull (Str.trim (WelcomeForm.company f))
        /\ SessionBody.job_url body
           = (if WelcomeForm.isUrl f
              then Some (Str.trim (WelcomeForm.jobInput f)) else None)
        /\ SessionBody.job_posting body
           = (if WelcomeForm.isUrl f
              then None else orNull (Str.trim (WelcomeForm.jobInput f)))
        /\ SessionBody.turnstile_token body
           = match WelcomeForm.tokenRef f with
             | Some token => orNull token
             | None => None
             end
        /\ userName (snd (WelcomeForm.submit f uuid s))
           = Str.trim (WelcomeForm.name f)).
Proof.
  unfold WelcomeForm.submit, WelcomeForm.handleSubmit. split.
  - now intros ->.
  - intros Hname. rewrite Hname.
    exists (sessionBody (Str.trim (WelcomeForm.name f))
              (Str.trim (WelcomeForm.company f))
              (Str.trim (WelcomeForm.jobInput f)) (WelcomeForm.tokenRef f)).
    split; [reflexivity | ]. split; [reflexivity | ].
    split; [reflexivity | ]. split.
    { simpl. intros Hempty. now rewrite Hempty in Hname. }
    split; [apply trim_idempotent | ]. split; [reflexivity | ].
    unfold sessionBody, isUrl, WelcomeForm.isUrl. simpl.
    rewrite trim_idempotent. now repeat split.
Qed.

Lemma turnstileInv_step (f f' : WelcomeForm.t) (e : WelcomeForm.Event) :
  turnstileInv f -> WelcomeForm.step f e = Some f' -> turnstileInv f'.
Proof.
  unfold turnstileInv. intros Hinv Hstep.
  destruct e; simpl in Hstep.
  - injection Hstep as <-. exact Hinv.
  - injection Hstep as <-. exact Hinv.
  - injection Hstep as <-. exact Hinv.
  - destruct (WelcomeForm.polling f); [ | discriminate].
    destruct apiLoaded; injection Hstep as <-; [ | exact Hinv].
    simpl. intros Hlive. rewrite Hlive, orb_true_r.
    split; [now apply Hinv | now left].
  - destruct (WelcomeForm.widgetRendered f) eqn:Hwidget; [ | discriminate].
    injection Hstep as <-. unfold WelcomeForm.readyIfMounted. simpl.
    intros ->. split; [reflexivity | discriminate].
  - destruct (WelcomeForm.widgetRendered f) eqn:Hwidget; [ | discriminate].
    injection Hstep as <-. simpl. intros _. split; [now intros Hne | now left].
  - destruct (WelcomeForm.widgetRendered f) eqn:Hwidget; [ | discriminate].
    injection Hstep as <-. simpl. intros _. split; [now intros Hne | now left].
  - destruct (WelcomeForm.fallbackTimers f); [discriminate | ].
    injection Hstep as <-. unfold WelcomeForm.readyIfMounted. simpl.
    intros ->. split; [reflexivity | discriminate].
  - destruct (WelcomeForm.loadTimeout f); [ | discriminate].
    injection Hstep as <-. simpl. intros Hlive. rewrite Hlive. simpl.
    destruct (Hinv Hlive) as [Htoken _].
    destruct (WelcomeForm.tokenRef f) as [token | ].
    + destruct (Str.isEmpty token); [split; [reflexivity | discriminate] | ].
      rewrite Htoken by discriminate. split; [reflexivity | discriminate].
    + split; [reflexivity | discriminate].
  - injection Hstep as <-. simpl. discriminate.
Qed.

Lemma turnstileInv_runAll (events : list WelcomeForm.Event) (f f' : WelcomeForm.t) :
  turnstileInv f -> WelcomeForm.runAll f events = Some f' -> turnstileInv f'.
Proof.
  revert f. induction events as [ | e events IH]; intros f Hinv Hrun.
  - injection Hrun as <-. exact Hinv.
  - simpl in Hrun.
    destruct (WelcomeForm.step f e) as [f1 | ] eqn:Hstep; [ | discriminate].
    exact (IH f1 (turnstileInv_step _ _ _ Hinv Hstep) Hrun).
Qed.

(** X10.  Turnstile does not lock the form for good.  Whatever the widget,
    the timers and the visitor have done since the form was mounted, while
    the form is mounted: a token at hand means the form is ready; a form
    that is not ready has its widget on the page or the timeout of the
    Turnstile script pending; that timeout makes the form ready when it
    fires; and after an error of the widget its 3 s timer is pending and
    makes the form ready, without a token. *)
Theorem turnstile_does_not_lock_the_form
    (defaultName defaultCompany defaultJob : string) (apiLoaded : bool)
    (events : list WelcomeForm.Event) (f : WelcomeForm.t) :
  WelcomeForm.runAll
    (WelcomeForm.mount defaultName defaultCompany defaultJob apiLoaded) events
  = Some f ->
  WelcomeForm.mounted f = true ->
  (WelcomeForm.tokenRef f <> None -> WelcomeForm.turnstileReady f = true)
  /\ (WelcomeForm.turnstileReady f = false ->
      WelcomeForm.widgetRendered f = true \/ WelcomeForm.loadTimeout f = true)
  /\ (forall f',
        WelcomeForm.step f WelcomeForm.LoadTimeout = Some f' ->
        WelcomeForm.turnstileReady f' = true)
  /\ (forall f1,
        WelcomeForm.step f WelcomeForm.ErrorCallback = Some f1 ->
        exists f2,
          WelcomeForm.step f1 WelcomeForm.FallbackTimer = Some f2
          /\ WelcomeForm.turnstileReady f2 = true
          /\ WelcomeForm.tokenRef f2 = None).
Proof.
  intros Hrun Hlive.
  assert (Hinv : turnstileInv f).
  { refine (turnstileInv_runAll events _ _ _ Hrun).
    unfold turnstileInv. simpl. intros _. split; [now intros Hne | ].
    intros _. destruct apiLoaded; [now left | now right]. }
  destruct (Hinv Hlive) as [Htoken Hwait].
  split; [exact Htoken | ]. split; [exact Hwait | ]. split.
  - intros f' Hstep.
    assert (Hinv' : turnstileInv f') by exact (turnstileInv_step _ _ _ Hinv Hstep).
    simpl in Hstep. destruct (WelcomeForm.loadTimeout f); [ | discriminate].
    injection Hstep as <-. simpl. rewrite Hlive. simpl.
    destruct (WelcomeForm.tokenRef f) as [token | ]; [ | reflexivity].
    destruct (Str.isEmpty token); [reflexivity | ].
    apply Htoken. discriminate.
  - intros f1 Hstep. simpl in Hstep.
    destruct (WelcomeForm.widgetRendered f); [ | discriminate].
    injection Hstep as <-. simpl. eexists. split; [reflexivity | ].
    unfold WelcomeForm.readyIfMounted. simpl. rewrite Hlive. now split.
Qed.

Lemma turnstile_does_not_lock_the_form_witness :
  WelcomeForm.runAll (WelcomeForm.mount "Dana" "" "" false) Runs.widgetFails
  = Some Runs.formAfterWidgetFails
  /\ WelcomeForm.mounted Runs.formAfterWidgetFails = true
  /\ forall f',
       WelcomeForm.step Runs.formAfterWidgetFails WelcomeForm.LoadTimeout
       = Some f' ->
       WelcomeForm.turnstileReady f' = true.
Proof.
  split; [reflexivity | ]. split; [reflexivity | ].
  exact (proj1 (proj2 (proj2
           (turnstile_does_not_lock_the_form "Dana" "" "" false
              Runs.widgetFails Runs.formAfterWidgetFails eq_refl eq_refl)))).
Defined.

(* ------------------------------------------------------------------ *)
(** ** The quick questions *)

Lemma companyQuestions_two (key : string) (texts : list string) :
  QuickQuestions.companyQuestions key = Some (QuickQuestions.Texts texts) ->
  List.length texts = 2%nat.
Proof.
  unfold QuickQuestions.companyQuestions.
  repeat match goal with
         | |- context [String.eqb key ?k] => destruct (String.eqb key k)
         end;
    intros [= <-] || discriminate; reflexivity.
Qed.

(** X11.  The quick questions.  There are always four, with the ids 1 to 4
    in this order.  Exactly four prompts of the backend become their texts,
    whatever the company; a list of prompts of any other length is ignored
    as a whole, as if there were none.  Without usable prompts the third
    and the fourth question are the base ones for every company, every
    question has a text unless the company reads "constructor", and the
    questions do not depend on the case of the letters A to Z in the company
    name. *)
Theorem quick_questions_are_four
    (company : string) (customPrompts : option (list string)) :
  map QuickQuestions.id (QuickQuestions.questions company customPrompts)
  = [1; 2; 3; 4]
  /\ (forall a b c d,
        customPrompts = Some [a; b; c; d] ->
        map QuickQuestions.text (QuickQuestions.questions company customPrompts)
        = [Some a; Some b; Some c; Some d])
  /\ ((forall prompts,
         customPrompts = Some prompts -> List.length prompts <> 4%nat) ->
      QuickQuestions.questions company customPrompts
      = QuickQuestions.questions company None
      /\ skipn 2 (QuickQuestions.questions company customPrompts)
         = skipn 2 QuickQuestions.baseQuestions
      /\ (QuickQuestions.normalized company <> "constructor" ->
          Forall (fun q => QuickQuestions.text q <> None)
                 (QuickQuestions.questions company customPrompts)))
  /\ (forall company',
        Str.toLowerCase company' = Str.toLowerCase company ->
        QuickQuestions.questions company' customPrompts
        = QuickQuestions.questions company customPrompts).
Proof.
  assert (Hfallback :
            map QuickQuestions.id (QuickQuestions.companyFallback company)
            = [1; 2; 3; 4]
            /\ skipn 2 (QuickQuestions.companyFallback company)
               = skipn 2 QuickQuestions.baseQuestions
            /\ (QuickQuestions.normalized company <> "constructor" ->
                Forall (fun q => QuickQuestions.text q <> None)
                       (QuickQuestions.companyFallback company))).
  { unfold QuickQuestions.companyFallback.
    destruct (QuickQuestions.companyQuestions (QuickQuestions.normalized company))
      as [[texts | | ] | ] eqn:Hkey.
    - pose proof (companyQuestions_two _ _ Hkey) as Hlen.
      destruct texts as [ | x [ | y [ | z texts]]]; try discriminate.
      split; [reflexivity | ]. split; [reflexivity | ].
      intros _. repeat constructor; discriminate.
    - split; [reflexivity | ]. split; [reflexivity | ].
      intros Hne. exfalso. apply Hne. revert Hkey.
      unfold QuickQuestions.companyQuestions.
      repeat match goal with
             | |- context [String.eqb ?key ?k] =>
                 destruct (String.eqb_spec key k); try discriminate
             end.
      intros _. assumption.
    - split; [reflexivity | ]. split; [reflexivity | ].
      intros _. repeat constructor; discriminate.
    - split; [reflexivity | ]. split; [reflexivity | ].
      intros _. repeat constructor; discriminate. }
  destruct Hfallback as (Hids & Hlast & Htexts).
  split; [ | split; [ | split]].
  - unfold QuickQuestions.questions.
    destruct customPrompts as [prompts | ]; [ | exact Hids].
    destruct (List.length prompts =? 4)%nat; [reflexivity | exact Hids].
  - intros a b c d ->. reflexivity.
  - intros Hunusable.
    assert (Hsame : QuickQuestions.questions company customPrompts
                    = QuickQuestions.companyFallback company).
    { unfold QuickQuestions.questions.
      destruct customPrompts as [prompts | ]; [ | reflexivity].
      destruct (Nat.eqb_spec (List.length prompts) 4) as [Hfour | _];
        [ | reflexivity].
      now elim (Hunusable prompts eq_refl). }
    rewrite Hsame. split; [reflexivity | ]. split; [exact Hlast | exact Htexts].
  - intros company' Hcase.
    unfold QuickQuestions.questions, QuickQuestions.companyFallback,
      QuickQuestions.normalized.
    now rewrite Hcase.
Qed.

Lemma quick_questions_are_four_witness :
  (forall prompts,
      Some ["Only one prompt"] = Some prompts -> List.length prompts <> 4%nat)
  /\ QuickQuestions.questions " Google" (Some ["Only one prompt"])
     = QuickQuestions.questions " Google" None
  /\ map QuickQuestions.text (QuickQuestions.questions " Google" None)
     = [ Some "Why would Rayhan fit Google's AI team?";
         Some "Experience with large-scale ML systems?";
         Some "Tell me about his projects";
         Some "What makes him unique?" ].
Proof.
  assert (Hone : forall prompts,
             Some ["Only one prompt"] = Some prompts ->
             List.length prompts <> 4%nat).
  { intros prompts [= <-]. discriminate. }
  split; [exact Hone | ]. split; [ | reflexivity].
  exact (proj1 (proj1 (proj2 (proj2
           (quick_questions_are_four " Google" (Some ["Only one prompt"]))))
         Hone)).
Defined.

(* ------------------------------------------------------------------ *)
(** ** The theme toggle *)

Lemma toggles_render (clicks : nat) (dark : bool) :
  Nat.iter clicks ThemeToggle.toggle (ThemeToggle.render dark)
  = ThemeToggle.render (xorb dark (Nat.odd clicks)).
Proof.
  induction clicks as [ | clicks IH].
  - simpl. now rewrite xorb_false_r.
  - rewrite Nat.odd_succ, <- Nat.negb_odd. simpl Nat.iter. rewrite IH.
    unfold ThemeToggle.toggle. simpl ThemeToggle.isDark.
    now destruct dark, (Nat.odd clicks).
Qed.

(** X12.  The theme chosen survives a reload.  After any number of clicks
    on the toggle the component is dark exactly when it started dark and the
    number of clicks is even, or started light and the number is odd; the
    [light-mode] class of the document is set exactly when it is not dark;
    and mounting the component again over what it stored gives the same
    state, whatever the colour scheme the system prefers by then.  A first
    visit (nothing stored) is dark unless the system prefers light. *)
Theorem theme_choice_survives_reload
    (saved : option string) (prefersLight prefersLightLater : bool)
    (clicks : nat) :
  let s := Nat.iter clicks ThemeToggle.toggle
             (ThemeToggle.mount saved prefersLight) in
  ThemeToggle.isDark s
  = xorb (ThemeToggle.initial saved prefersLight) (Nat.odd clicks)
  /\ ThemeToggle.lightMode s = negb (ThemeToggle.isDark s)
  /\ ThemeToggle.mount (ThemeToggle.theme s) prefersLightLater = s
  /\ ThemeToggle.isDark (ThemeToggle.mount None prefersLight) = negb prefersLight.
Proof.
  unfold ThemeToggle.mount. rewrite toggles_render.
  split; [reflexivity | ]. split; [reflexivity | ]. split; [ | reflexivity].
  now destruct (xorb (ThemeToggle.initial saved prefersLight) (Nat.odd clicks)).
Qed.

(* ------------------------------------------------------------------ *)
(** ** Sharing a chat *)

Lemma joinWith_cons (sep piece : string) (rest : list string) :
  joinWith sep (piece :: rest)
  = piece ++ Str.join (map (fun p => sep ++ p) rest).
Proof.
  revert piece. induction rest as [ | next rest IH]; intros piece.
  - simpl. now rewrite append_empty.
  - change (joinWith sep (piece :: next :: rest))
      with (piece ++ sep ++ joinWith sep (next :: rest)).
    rewrite IH. simpl. now rewrite append_assoc.
Qed.

Lemma joinWith_split (sep piece : string) (before rest : list string) :
  joinWith sep (before ++ piece :: rest)
  = Str.join (map (fun p => p ++ sep) before)
    ++ piece ++ Str.join (map (fun p => sep ++ p) rest).
Proof.
  induction before as [ | first before IH].
  - apply joinWith_cons.
  - change (joinWith sep ((first :: before) ++ piece :: rest))
      with (joinWith sep (first :: (before ++ piece :: rest))).
    destruct (before ++ piece :: rest)%list as [ | next more] eqn:Hrest.
    + now destruct before.
    + change (joinWith sep (first :: next :: more))
        with (first ++ sep ++ joinWith sep (next :: more)).
      rewrite IH. simpl. now rewrite !append_assoc.
Qed.

Lemma prefix_split (p s : string) :
  String.prefix p s = true -> exists q, s = p ++ q.
Proof.
  revert s. induction p as [ | c p IH]; intros s Hprefix.
  - now exists s.
  - destruct s as [ | c' s]; [discriminate | ]. simpl in Hprefix.
    destruct (ascii_dec c c') as [<- | _]; [ | discriminate].
    destruct (IH s Hprefix) as [q ->]. now exists q.
Qed.

Lemma includes_split (s sub : string) :
  Str.includes s sub = true -> exists p q, s = p ++ sub ++ q.
Proof.
  induction s as [ | c s IH]; intros Hin.
  - change (String.prefix sub "" || false = true) in Hin.
    rewrite orb_false_r in Hin. destruct (prefix_split _ _ Hin) as [q Hq].
    now exists "", q.
  - change (String.prefix sub (String c s) || Str.includes s sub = true) in Hin.
    apply orb_true_iff in Hin as [Hprefix | Hrest].
    + destruct (prefix_split sub (String c s)) as [q Hq]; [exact Hprefix | ].
      now exists "", q.
    + destruct (IH Hrest) as (p & q & ->). now exists (String c p), q.
Qed.

(** A text found in a part is found in the whole. *)
Lemma includes_within (a s b sub : string) :
  Str.includes s sub = true -> Str.includes (a ++ s ++ b) sub = true.
Proof.
  intros Hin. destruct (includes_split _ _ Hin) as (p & q & ->).
  rewrite !append_assoc, <- (append_assoc a p). apply includes_app.
Qed.

Lemma join_includes (f : string -> string) (pieces : list string) (piece : string) :
  (forall p, exists a b, f p = a ++ p ++ b) ->
  In piece pieces -> Str.includes (Str.join (map f pieces)) piece = true.
Proof.
  intros Hf Hin. apply in_split in Hin as (l1 & l2 & ->).
  rewrite map_app, join_app. simpl.
  destruct (Hf piece) as (a & b & ->).
  rewrite !append_assoc, <- append_assoc.
  apply includes_app.
Qed.

(** X13.  A shared chat is complete and in order.  The text copied to the
    clipboard holds the line of every message, "name: content" for a user
    message and "Rayhan's AI: content" for an assistant message, the
    streamed text of an unfinished answer included; and around the line of a
    message, the lines of the messages before it come before it and those of
    the messages after it come after it. *)
Theorem shared_chat_is_complete (name : string) (l : list Message) :
  (forall m, In m l -> Str.includes (shareText name l) (shareLine name m) = true)
  /\ (forall before m rest,
        l = (before ++ m :: rest)%list ->
        exists pre post,
          shareText name l = pre ++ shareLine name m ++ post
          /\ (forall m', In m' before ->
                         Str.includes pre (shareLine name m') = true)
          /\ (forall m', In m' rest ->
                         Str.includes post (shareLine name m') = true)).
Proof.
  assert (Horder : forall before m rest,
            l = (before ++ m :: rest)%list ->
            exists pre post,
              shareText name l = pre ++ shareLine name m ++ post
              /\ (forall m', In m' before ->
                             Str.includes pre (shareLine name m') = true)
              /\ (forall m', In m' rest ->
                             Str.includes post (shareLine name m') = true)).
  { intros before m rest ->. unfold shareText.
    rewrite map_app. simpl map. rewrite joinWith_split.
    exists (shareHeader
            ++ Str.join (map (fun p => p ++ shareSeparator)
                             (map (shareLine name) before))),
           (Str.join (map (fun p => shareSeparator ++ p)
                          (map (shareLine name) rest))
            ++ shareFooter).
    split; [now rewrite !append_assoc | ]. split.
    - intros m' Hin.
      rewrite <- (append_empty (Str.join _)).
      apply includes_within, join_includes.
      + intros p. now exists "", shareSeparator.
      + now apply in_map.
    - intros m' Hin.
      apply (includes_within "" _ shareFooter), join_includes.
      + intros p. exists shareSeparator, "". now rewrite append_empty.
      + now apply in_map. }
  split; [ | exact Horder].
  intros m Hin. apply in_split in Hin as (before & rest & Hl).
  destruct (Horder before m rest Hl) as (pre & post & -> & _).
  apply includes_app.
Qed.

Lemma shared_chat_is_complete_witness :
  In {| id := 1000; role := assistant; content := localWelcome "Dana" "" |}
     (messages (Sample.after Sample.danaAsks))
  /\ Str.includes (shareText "Dana" (messages (Sample.after Sample.danaAsks)))
        ("Rayhan's AI: " ++ localWelcome "Dana" "") = true.
Proof.
  assert (Hin : In {| id := 1000; role := assistant;
                      content := localWelcome "Dana" "" |}
                   (messages (Sample.after Sample.danaAsks))).
  { vm_compute. left. reflexivity. }
  split; [exact Hin | ].
  exact (proj1 (shared_chat_is_complete "Dana"
                  (messages (Sample.after Sample.danaAsks))) _ Hin).
Defined.

(* ------------------------------------------------------------------ *)
(** ** An error body that cannot be read through *)

Section NullBodies.
Context `{JsEngine}.

(** X14.  A null error body hides the status.  When a response that is not
    ok has the body [null], or a body whose [detail] is [null], building the
    error fails with a TypeError ([typeof null] is ['object']), and the turn
    ends with the message of that TypeError as its error text (the generic
    failure message if that message is empty) and with the fallback text as
    the assistant message, whatever the status: for status 429 the
    rate-limit message is shown only if the engine words its TypeError that
    way. *)
Theorem null_error_body_hides_status
    (t : Turn) (status : Z) (rest : list (string * JsVal)) (s : State) :
  let shown property :=
    if Str.isEmpty (nullishReadMessage property) then genericFailureMessage
    else nullishReadMessage property in
  error (turnErrorBody t status (Some JNull) s) = Some (shown "detail")
  /\ error (turnErrorBody t status (Some (JObj (("detail", JNull) :: rest))) s)
     = Some (shown "message")
  /\ messages (turnErrorBody t status (Some JNull) s)
     = mapContent (aiMessageId t) (fun _ => fallbackContent) (messages s)
  /\ isLoadingRef (turnErrorBody t status (Some JNull) s) = false
  /\ (nullishReadMessage "detail" <> rateLimitMessage ->
      error (turnErrorBody t 429 (Some JNull) s) <> Some rateLimitMessage).
Proof.
  intros shown. unfold turnErrorBody, catchTurn. simpl.
  repeat split.
  intros Hne. unfold shownError. simpl.
  destruct (Str.isEmpty (nullishReadMessage "detail")); [discriminate | ].
  congruence.
Qed.

End NullBodies.

Lemma null_error_body_hides_status_witness :
  @nullishReadMessage Sample.engine "detail" <> rateLimitMessage
  /\ error (@turnErrorBody Sample.engine
              {| aiMessageId := 2001; controller := 1%nat;
                 turnPhase := AwaitErrorBody 429 |}
              429 (Some JNull) (Sample.after Sample.danaStarts))
     <> Some rateLimitMessage.
Proof.
  assert (Hne : @nullishReadMessage Sample.engine "detail" <> rateLimitMessage)
    by discriminate.
  split; [exact Hne | ].
  exact (proj2 (proj2 (proj2 (proj2
           (@null_error_body_hides_status Sample.engine
              {| aiMessageId := 2001; controller := 1%nat;
                 turnPhase := AwaitErrorBody 429 |}
              429 [] (Sample.after Sample.danaStarts))))) Hne).
Defined.

(* ------------------------------------------------------------------ *)
(** ** A click on a quick question *)

Lemma fallback_texts (company : string) (q : QuickQuestions.Question) :
  QuickQuestions.normalized company <> "constructor" ->
  In q (QuickQuestions.companyFallback company) ->
  exists text,
    QuickQuestions.text q = Some text /\ Str.isEmpty (Str.trim text) = false.
Proof.
  intros Hne. unfold QuickQuestions.companyFallback.
  destruct (QuickQuestions.companyQuestions (QuickQuestions.normalized company))
    as [[texts | | ] | ] eqn:Hkey.
  - revert Hkey. unfold QuickQuestions.companyQuestions.
    repeat match goal with
           | |- context [String.eqb ?key ?k] => destruct (String.eqb key k)
           end;
      intros [= <-] || discriminate;
      simpl; intros Hin;
      repeat (destruct Hin as [<- | Hin]; [eexists; split; reflexivity | ]);
      contradiction.
  - exfalso. apply Hne. revert Hkey.
    unfold QuickQuestions.companyQuestions.
    repeat match goal with
           | |- context [String.eqb ?key ?k] =>
               destruct (String.eqb_spec key k); try discriminate
           end.
    intros _. assumption.
  - simpl; intros Hin;
      repeat (destruct Hin as [<- | Hin]; [eexists; split; reflexivity | ]);
      contradiction.
  - simpl; intros Hin;
      repeat (destruct Hin as [<- | Hin]; [eexists; split; reflexivity | ]);
      contradiction.
Qed.

Section QuickClick.
Context `{JsEngine}.

(** X15.  A click on a quick question asks it.  When the backend supplied
    no prompts and the company does not read "constructor", every question
    shown has a text that is not blank, and a click on it while no turn is
    in flight appends it as the user message, followed by the empty
    assistant message, and sends it as the query of one chat request.  For
    the company "constructor" the first question has no text, and a click on
    it changes nothing. *)
Theorem quick_question_click_asks_it
    (storage : option Stored) (now : Z) (s : State) (company : string)
    (now1 now2 : Z) :
  reachable storage now s -> isLoadingRef s = false ->
  (QuickQuestions.normalized company <> "constructor" ->
   forall q,
     In q (QuickQuestions.questions company None) ->
     exists text,
       QuickQuestions.text q = Some text
       /\ messages (ChatInterface.handleQuickQuestion
                      (QuickQuestions.text q) now1 now2 s)
          = (messages s
             ++ [ {| id := now1; role := user; content := text |};
                  {| id := now2 + 1; role := assistant; content := "" |} ])%list
       /\ exists body,
            requests (ChatInterface.handleQuickQuestion
                        (QuickQuestions.text q) now1 now2 s)
            = (requests s ++ [ChatStreamRequest body (fresh s)])%list
            /\ ChatBody.query body = text)
  /\ (QuickQuestions.normalized company = "constructor" ->
      exists q,
        nth_error (QuickQuestions.questions company None) 0 = Some q
        /\ QuickQuestions.text q = None
        /\ ChatInterface.handleQuickQuestion
             (QuickQuestions.text q) now1 now2 s = s).
Proof.
  intros Hreach Hidle.
  pose proof (reachable_busy _ _ _ Hreach) as Hbusy.
  destruct (reachable_committed _ _ _ Hreach) as [Hrendered _].
  assert (Hprop : isLoading (rendered s) = false).
  { rewrite Hrendered, Hbusy. exact Hidle. }
  unfold ChatInterface.handleQuickQuestion. rewrite Hprop. split.
  - intros Hne q Hin.
    destruct (fallback_texts company q Hne Hin) as (text & -> & Htext).
    exists text. split; [reflexivity | ]. split.
    + now apply sendMessage_admitted.
    + eexists. split; [now apply sendMessage_request | reflexivity].
  - intros Hkey. unfold QuickQuestions.questions, QuickQuestions.companyFallback.
    rewrite Hkey. simpl. eexists. split; [reflexivity | now split].
Qed.

End QuickClick.

Lemma quick_question_click_asks_it_witness :
  @reachable Sample.engine None 0 (Sample.after Sample.danaStarts)
  /\ isLoadingRef (Sample.after Sample.danaStarts) = false
  /\ QuickQuestions.normalized "OpenAI " <> "constructor"
  /\ In {| QuickQuestions.id := 2; QuickQuestions.text := Some "His LLM/RAG experience?" |}
        (QuickQuestions.questions "OpenAI " None)
  /\ exists text,
       Some "His LLM/RAG experience?" = Some text
       /\ messages (ChatInterface.handleQuickQuestion
                      (Some "His LLM/RAG experience?") 2000 2000
                      (Sample.after Sample.danaStarts))
          = (messages (Sample.after Sample.danaStarts)
             ++ [ {| id := 2000; role := user; content := text |};
                  {| id := 2000 + 1; role := assistant; content := "" |} ])%list.
Proof.
  assert (Hne : QuickQuestions.normalized "OpenAI " <> "constructor")
    by (vm_compute; discriminate).
  assert (Hin : In {| QuickQuestions.id := 2;
                      QuickQuestions.text := Some "His LLM/RAG experience?" |}
                   (QuickQuestions.questions "OpenAI " None)).
  { vm_compute. right. left. reflexivity. }
  split; [apply after_reachable | ]. split; [reflexivity | ].
  split; [exact Hne | ]. split; [exact Hin | ].
  destruct (proj1 (@quick_question_click_asks_it Sample.engine None 0
                     (Sample.after Sample.danaStarts) "OpenAI " 2000 2000
                     (after_reachable Sample.danaStarts) eq_refl)
                  Hne _ Hin)
    as (text & Htext & Hmsgs & _).
  exists text. split; [exact Htext | exact Hmsgs].
Defined.

(* ------------------------------------------------------------------ *)
(** ** The end of a turn *)

Lemma turn_ended (t : Turn) (s : State) :
  turns s = [t] ->
  (isLoading (finallyTurn t s) = false
   /\ isLoadingRef (finallyTurn t s) = false
   /\ turns (finallyTurn t s) = []
   /\ requests (finallyTurn t s) = requests s)
  /\ forall err,
       isLoading (catchTurn t err s) = false
       /\ isLoadingRef (catchTurn t err s) = false
       /\ turns (catchTurn t err s) = []
       /\ requests (catchTurn t err s) = requests s.
Proof.
  intros Hturns.
  assert (Hfinally : forall s0 : State,
            turns s0 = [t] ->
            isLoading (finallyTurn t s0) = false
            /\ isLoadingRef (finallyTurn t s0) = false
            /\ turns (finallyTurn t s0) = []
            /\ requests (finallyTurn t s0) = requests s0).
  { intros s0 Hs0. split; [reflexivity | ]. split; [reflexivity | ].
    split; [ | reflexivity].
    unfold finallyTurn, dropTurn, onEnv. simpl. rewrite Hs0. simpl.
    now rewrite Nat.eqb_refl. }
  split; [now apply Hfinally | ].
  intros err. unfold catchTurn.
  destruct (String.eqb (Err.name err) "AbortError"); [now apply Hfinally | ].
  exact (Hfinally
           (s |> setError (Some (shownError err))
              |> setMessages (mapContent (aiMessageId t) (fun _ => fallbackContent)))
           Hturns).
Qed.

Section TurnEnds.
Context `{JsEngine}.

(** The controller in [streamAbortRef] stays while the chat is busy. *)
Lemma step_abortRef (s s' : State) (e : Event) :
  isLoadingRef s = true -> step s e = Some s' ->
  streamAbortRef s' = streamAbortRef s.
Proof.
  intros Hbusy. revert e s'.
  apply step_elim
    with (P := fun s' : State => streamAbortRef s' = streamAbortRef s).
  - reflexivity.
  - unfold handleContinueSession. now destruct (pendingSession s).
  - reflexivity.
  - change (streamAbortRef (abortStream s) = streamAbortRef s).
    unfold abortStream.
    destruct (streamAbortRef s) as [c | ] eqn:Hc; simpl; now rewrite ?Hc.
  - intros. reflexivity.
  - intros. reflexivity.
  - intros. reflexivity.
  - intros text now1 now2. rewrite sendMessage_rejected; [reflexivity | ].
    rewrite Hbusy. apply orb_true_r.
  - intros t err _. unfold catchTurn.
    now destruct (String.eqb (Err.name err) "AbortError").
  - intros. reflexivity.
  - intros t r _. unfold turnRead. destruct r as [text | ]; [ | reflexivity].
    unfold suspendTurn, onEnv. simpl. now rewrite readLines_hook.
Qed.

(** Without an event that ends the turn of controller [c], the chat stays
    busy with that turn. *)
Lemma busy_runAll (storage : option Stored) (now : Z) (c : nat)
    (trace : list (Event * Z)) (s s' : State) :
  reachable storage now s ->
  isLoadingRef s = true -> streamAbortRef s = Some c ->
  Forall (fun et => ~ endsTurn c (fst et)) trace ->
  runAll s trace = Some s' ->
  reachable storage now s'
  /\ isLoadingRef s' = true /\ streamAbortRef s' = Some c.
Proof.
  revert s. induction trace as [ | et trace IH];
    intros s Hreach Hbusy Href Hquiet Hrun.
  - injection Hrun as <-. now repeat split.
  - rewrite runAll_cons in Hrun.
    destruct (run s et) as [s1 | ] eqn:Hrun1; [ | discriminate].
    inversion Hquiet as [ | ? ? Het Hrest]; subst.
    pose proof (reach_run _ _ _ _ _ Hreach Hrun1) as Hreach1.
    unfold run in Hrun1.
    destruct (step s (fst et)) as [s0 | ] eqn:Hstep; [ | discriminate].
    injection Hrun1 as Hs1.
    assert (Hhook : hook s1 = hook s0) by (rewrite <- Hs1; apply commit_hook).
    destruct (reachable_flightInv _ _ _ Hreach) as [Hturns _].
    apply (IH s1 Hreach1); [ | | exact Hrest | exact Hrun].
    + change (isLoadingRef (hook s1) = true). rewrite Hhook.
      destruct (isLoadingRef s0) eqn:Hbusy0; [reflexivity | exfalso].
      destruct (busy_cleared _ _ _ Hturns Hstep Hbusy Hbusy0)
        as (t0 & Ht0 & Hends & _).
      unfold turnsInv in Hturns. rewrite Ht0 in Hturns.
      destruct Hturns as [_ Hctl]. rewrite Href in Hctl.
      injection Hctl as ->. now apply Het.
    + change (streamAbortRef (hook s1) = Some c). rewrite Hhook.
      change (streamAbortRef s0 = Some c).
      now rewrite (step_abortRef _ _ _ Hbusy Hstep).
Qed.

(** X16.  The end of a turn frees the chat, and nothing else does.  While
    one turn is in flight, every event that ends it (its stream is done; its
    fetch, error body or read fails or is aborted) clears both loading flags
    and leaves no turn suspended, without making a request, so that the next
    message that is not blank is admitted.  Conversely, on a loaded page, as
    long as none of these events happens the chat stays busy with that turn
    and refuses every message, whatever else happens and however many reads
    arrive: the hook sets no timeout on the request or on the stream. *)
Theorem every_end_of_a_turn_frees_the_chat (s : State) (t : Turn) :
  turns s = [t] ->
  (forall e s',
     endsTurn (controller t) e -> step s e = Some s' ->
     isLoading s' = false /\ isLoadingRef s' = false /\ turns s' = []
     /\ requests s' = requests s
     /\ forall text now1 now2,
          Str.isEmpty (Str.trim text) = false ->
          messages (sendMessage text now1 now2 s')
          = (messages s'
             ++ [ {| id := now1; role := user; content := text |};
                  {| id := now2 + 1; role := assistant; content := "" |} ])%list)
  /\ (forall storage now trace s',
        reachable storage now s ->
        Forall (fun et => ~ endsTurn (controller t) (fst et)) trace ->
        runAll s trace = Some s' ->
        isLoading s' = true /\ isLoadingRef s' = true
        /\ (exists t', turns s' = [t'] /\ controller t' = controller t)
        /\ forall text now1 now2, sendMessage text now1 now2 s' = s').
Proof.
  intros Hturns.
  assert (Hfind : findTurn (controller t) (turns s) = Some t).
  { rewrite Hturns. unfold findTurn, find. now rewrite Nat.eqb_refl. }
  destruct (turn_ended t s Hturns) as [Hfinally Hcatch].
  assert (Hnext : forall s' : State,
            isLoading s' = false /\ isLoadingRef s' = false /\ turns s' = []
            /\ requests s' = requests s ->
            isLoading s' = false /\ isLoadingRef s' = false /\ turns s' = []
            /\ requests s' = requests s
            /\ forall text now1 now2,
                 Str.isEmpty (Str.trim text) = false ->
                 messages (sendMessage text now1 now2 s')
                 = (messages s'
                    ++ [ {| id := now1; role := user; content := text |};
                         {| id := now2 + 1; role := assistant;
                            content := "" |} ])%list).
  { intros s' (Hl & Hr & Ht & Hq). repeat split; try assumption.
    intros text now1 now2 Htext. now apply sendMessage_admitted. }
  split.
  - intros e s' Hends Hstep.
    destruct e; simpl in Hends; try contradiction.
    + subst c. unfold step in Hstep. rewrite Hfind in Hstep.
      destruct (turnPhase t); try discriminate.
      apply guard_some in Hstep as [_ ->]. apply Hnext, Hcatch.
    + subst c. unfold step in Hstep. rewrite Hfind in Hstep.
      destruct (turnPhase t); try discriminate.
      apply guard_some in Hstep as [_ ->]. unfold turnErrorBody.
      apply Hnext, Hcatch.
    + destruct r as [text | ]; [contradiction | ]. subst c.
      unfold step in Hstep. rewrite Hfind in Hstep.
      destruct (turnPhase t); try discriminate.
      apply guard_some in Hstep as [_ ->]. unfold turnRead.
      apply Hnext, Hfinally.
    + subst c. unfold step in Hstep. rewrite Hfind in Hstep.
      destruct (turnPhase t); try discriminate.
      apply guard_some in Hstep as [_ ->]. apply Hnext, Hcatch.
  - intros storage now trace s' Hreach Hquiet Hrun.
    destruct (reachable_flightInv _ _ _ Hreach) as [Hinv _].
    unfold turnsInv in Hinv. rewrite Hturns in Hinv.
    destruct Hinv as [Hbusy Href].
    destruct (busy_runAll _ _ _ _ _ _ Hreach Hbusy Href Hquiet Hrun)
      as (Hreach' & Hbusy' & Href').
    split; [now rewrite (reachable_busy _ _ _ Hreach') | ].
    split; [exact Hbusy' | ]. split.
    + destruct (reachable_flightInv _ _ _ Hreach') as [Hinv' _].
      unfold turnsInv in Hinv'.
      destruct (turns s') as [ | t' [ | t'' l]]; [congruence | | contradiction].
      exists t'. split; [reflexivity | ].
      destruct Hinv' as [_ Hctl]. rewrite Href' in Hctl. now injection Hctl.
    + intros text now1 now2. apply sendMessage_rejected.
      rewrite Hbusy'. apply orb_true_r.
Qed.

End TurnEnds.

Lemma every_end_of_a_turn_frees_the_chat_witness :
  turns (Sample.after Sample.danaAsks)
  = [ {| aiMessageId := 2001; controller := 1%nat; turnPhase := AwaitRead |} ]
  /\ @reachable Sample.engine None 0 (Sample.after Sample.danaAsks)
  /\ Forall (fun et => ~ endsTurn 1 (fst et)) Runs.silentReads
  /\ (exists s',
        @runAll Sample.engine (Sample.after Sample.danaAsks) Runs.silentReads
        = Some s')
  /\ forall s',
       @runAll Sample.engine (Sample.after Sample.danaAsks) Runs.silentReads
       = Some s' ->
       isLoading s' = true /\ isLoadingRef s' = true.
Proof.
  assert (Hquiet : Forall (fun et => ~ endsTurn 1 (fst et)) Runs.silentReads).
  { apply Forall_forall. intros et Hin. unfold Runs.silentReads in Hin.
    apply in_map_iff in Hin as (r & <- & _). simpl. now intros Hends. }
  split; [reflexivity | ]. split; [apply after_reachable | ].
  split; [exact Hquiet | ].
  split; [eexists; vm_compute; reflexivity | ].
  intros s' Hrun.
  destruct (proj2 (@every_end_of_a_turn_frees_the_chat Sample.engine
                     (Sample.after Sample.danaAsks)
                     {| aiMessageId := 2001; controller := 1%nat;
                        turnPhase := AwaitRead |}
                     eq_refl)
                  None 0 Runs.silentReads s'
                  (after_reachable Sample.danaAsks) Hquiet Hrun)
    as (Hloading & Hbusy & _).
  split; [exact Hloading | exact Hbusy].
Defined.

(* ------------------------------------------------------------------ *)
(** ** Requests and the calls that cause them *)

Section Causes.
Context `{JsEngine}.

Lemma step_request_cause (s s' : State) (e : Event) :
  step s e = Some s' ->
  exists added,
    requests s' = (requests s ++ added)%list
    /\ (List.length added <= if isUserCall e then 1 else 0)%nat.
Proof.
  intros Hstep.
  assert (Hnone : forall x : State,
            requests x = requests s ->
            exists added,
              requests x = (requests s ++ added)%list
              /\ (List.length added <= if isUserCall e then 1 else 0)%nat).
  { intros x Hx. exists []. rewrite app_nil_r. split; [exact Hx | ].
    simpl. lia. }
  destruct e; unfold step in Hstep.
  - injection Hstep as <-. apply Hnone.
    unfold handleContinueSession. now destruct (pendingSession s).
  - injection Hstep as <-. now apply Hnone.
  - injection Hstep as <-. apply Hnone.
    change (requests (handleReset s)) with (requests (abortStream s)).
    unfold abortStream. now destruct (streamAbortRef s).
  - injection Hstep as <-. apply Hnone. unfold handleKeyDown.
    destruct (String.eqb key "Escape"); [ | reflexivity].
    destruct (showResumeModal s); [reflexivity | ].
    destruct (hasStarted s); [ | reflexivity].
    change (requests (handleReset s)) with (requests (abortStream s)).
    unfold abortStream. now destruct (streamAbortRef s).
  - injection Hstep as <-. eexists. split; [reflexivity | ]. simpl. lia.
  - destruct (findStart k (starts s)) as [a | ]; [ | discriminate].
    destruct (startPhase a); [ | discriminate].
    injection Hstep as <-. now apply Hnone.
  - destruct (findStart k (starts s)) as [a | ]; [ | discriminate].
    destruct (startPhase a); [ | discriminate].
    injection Hstep as <-. apply Hnone. now destruct ok.
  - destruct (findStart k (starts s)) as [a | ]; [ | discriminate].
    destruct (startPhase a); [discriminate | ].
    injection Hstep as <-. now apply Hnone.
  - destruct (findStart k (starts s)) as [a | ]; [ | discriminate].
    destruct (startPhase a); [discriminate | ].
    injection Hstep as <-. now apply Hnone.
  - injection Hstep as <-. unfold sendMessage.
    destruct (Str.isEmpty (Str.trim messageText) || isLoadingRef s).
    + exists []. rewrite app_nil_r. split; [reflexivity | simpl; lia].
    + eexists. split; [reflexivity | ]. simpl. lia.
  - destruct (findTurn c (turns s)) as [t | ]; [ | discriminate].
    destruct (turnPhase t); try discriminate.
    apply guard_some in Hstep as [_ ->]. apply Hnone. unfold catchTurn.
    now destruct (String.eqb (Err.name err) "AbortError").
  - destruct (findTurn c (turns s)) as [t | ]; [ | discriminate].
    destruct (turnPhase t); try discriminate.
    apply guard_some in Hstep as [_ ->]. now apply Hnone.
  - destruct (findTurn c (turns s)) as [t | ]; [ | discriminate].
    destruct (turnPhase t); try discriminate.
    apply guard_some in Hstep as [_ ->]. apply Hnone.
    unfold turnErrorBody, catchTurn.
    now destruct (String.eqb (Err.name _) "AbortError").
  - destruct (findTurn c (turns s)) as [t | ]; [ | discriminate].
    destruct (turnPhase t); try discriminate.
    apply guard_some in Hstep as [_ ->]. apply Hnone.
    unfold turnRead. destruct r as [text | ]; [ | reflexivity].
    unfold suspendTurn, onEnv. simpl. now rewrite readLines_env.
  - destruct (findTurn c (turns s)) as [t | ]; [ | discriminate].
    destruct (turnPhase t); try discriminate.
    apply guard_some in Hstep as [_ ->]. apply Hnone. unfold catchTurn.
    now destruct (String.eqb (Err.name err) "AbortError").
Qed.

(** X17.  No request without a call.  Over any sequence of events the log
    of requests only grows, and by at most one request for each call of
    [handleStart] or [sendMessage] among the events: nothing is sent again
    or retried when a request fails, a stream breaks or is aborted, a
    session is resumed or declined, the chat is reset, or a key is
    pressed. *)
Theorem no_request_without_a_call (s s' : State) (trace : list (Event * Z)) :
  runAll s trace = Some s' ->
  exists added,
    requests s' = (requests s ++ added)%list
    /\ (List.length added <= userCalls trace)%nat
    /\ (userCalls trace = 0%nat -> requests s' = requests s).
Proof.
  revert s. induction trace as [ | et trace IH]; intros s Hrun.
  - injection Hrun as <-. exists []. rewrite app_nil_r.
    split; [reflexivity | ]. split; [simpl; lia | reflexivity].
  - rewrite runAll_cons in Hrun. unfold run in Hrun.
    destruct (step s (fst et)) as [s1 | ] eqn:Hstep; [ | discriminate].
    simpl option_map in Hrun.
    destruct (IH _ Hrun) as (rest & Hrest & Hcount & _).
    destruct (step_request_cause _ _ _ Hstep) as (first & Hfirst & Hone).
    destruct (commit_flight (snd et) s1) as (_ & _ & _ & _ & Hkept).
    rewrite Hkept, Hfirst, <- app_assoc in Hrest.
    assert (Hall : (List.length (first ++ rest) <= userCalls (et :: trace))%nat).
    { rewrite length_app. unfold userCalls in *. simpl filter.
      destruct (isUserCall (fst et)); simpl List.length; lia. }
    exists (first ++ rest)%list. split; [exact Hrest | ]. split; [exact Hall | ].
    intros Hzero. rewrite Hzero in Hall.
    destruct (first ++ rest)%list; [now rewrite app_nil_r in Hrest | ].
    simpl in Hall. lia.
Qed.

End Causes.

Lemma no_request_without_a_call_witness :
  @runAll Sample.engine (pageLoad None 0) Sample.danaIsCutOff
  = Some (Sample.after Sample.danaIsCutOff)
  /\ userCalls Sample.danaIsCutOff = 2%nat
  /\ exists added,
       requests (Sample.after Sample.danaIsCutOff)
       = (requests (pageLoad None 0) ++ added)%list
       /\ (List.length added <= userCalls Sample.danaIsCutOff)%nat.
Proof.
  assert (Hrun : @runAll Sample.engine (pageLoad None 0) Sample.danaIsCutOff
                 = Some (Sample.after Sample.danaIsCutOff))
    by (vm_compute; reflexivity).
  split; [exact Hrun | ]. split; [reflexivity | ].
  destruct (@no_request_without_a_call Sample.engine _ _ _ Hrun)
    as (added & Hadded & Hcount & _).
  exists added. split; [exact Hadded | exact Hcount].
Defined.

(* ------------------------------------------------------------------ *)
(** ** Declining the offer *)

Section Decline.
Context `{JsEngine}.

(** Only the restore effect sets a pending session. *)
Lemma step_pending (s s' : State) (e : Event) :
  pendingSession s = None -> step s e = Some s' -> pendingSession s' = None.
Proof.
  intros Hnone. revert e s'.
  apply step_elim with (P := fun s' : State => pendingSession s' = None).
  - exact Hnone.
  - reflexivity.
  - reflexivity.
  - change (pendingSession (abortStream s) = None).
    unfold abortStream. now destruct (streamAbortRef s).
  - intros. exact Hnone.
  - intros. exact Hnone.
  - intros. exact Hnone.
  - intros text now1 now2. unfold sendMessage.
    now destruct (Str.isEmpty (Str.trim text) || isLoadingRef s).
  - intros t err _. unfold catchTurn.
    now destruct (String.eqb (Err.name err) "AbortError").
  - intros. exact Hnone.
  - intros t r _. unfold turnRead. destruct r as [text | ]; [ | exact Hnone].
    unfold suspendTurn, onEnv. simpl. now rewrite readLines_hook.
Qed.

(** What stays true of a page once nothing is pending and the slot holds
    at most the chat on the page. *)
Lemma declined_runAll (storage : option Stored) (now : Z)
    (trace : list (Event * Z)) (s s' : State) :
  reachable storage now s -> pendingSession s = None -> storageInv None s ->
  runAll s trace = Some s' ->
  reachable storage now s' /\ pendingSession s' = None /\ storageInv None s'.
Proof.
  revert s. induction trace as [ | et trace IH]; intros s Hreach Hnone Hinv Hrun.
  - injection Hrun as <-. now repeat split.
  - rewrite runAll_cons in Hrun.
    destruct (run s et) as [s1 | ] eqn:Hrun1; [ | discriminate].
    apply (IH s1); [ | | | exact Hrun].
    + exact (reach_run _ _ _ _ _ Hreach Hrun1).
    + unfold run in Hrun1.
      destruct (step s (fst et)) as [s0 | ] eqn:Hstep; [ | discriminate].
      injection Hrun1 as <-.
      change (pendingSession (hook (commit (snd et) s0)) = None).
      rewrite commit_hook. exact (step_pending _ _ _ Hnone Hstep).
    + exact (storageInv_run storage None now s s1 et
               (reachable_committed _ _ _ Hreach)
               (reachable_modalInv _ _ _ Hreach) Hinv Hrun1).
Qed.

(** X3.  Declining the offer.  While the resume modal is shown, "Start
    Fresh" and the Escape key do the same: the stored session is removed and
    the modal is closed, and nothing else happens; whatever chat is on the
    page is neither reset nor aborted, no request is made, and the render
    that follows does not write the slot.  From then on, whatever happens on
    the page, the modal stays closed and nothing is pending; while no chat
    is started the slot stays empty, so that a page loaded then starts
    blank; and while a chat is started (one begun under the modal, or later)
    the slot is empty or holds that chat as the page shows it, which a later
    page load can then offer.  Without the modal, Escape does nothing before
    a chat has started, and any other key does nothing at all. *)
Theorem declining_discards_stored_session
    (storage : option Stored) (now : Z) (s : State) (t : Z) :
  reachable storage now s ->
  (showResumeModal s = true ->
   exists s',
     run s (CallHandleStartFresh, t) = Some s'
     /\ run s (KeyDown "Escape", t) = Some s'
     /\ localStorage s' = None
     /\ hook s' = with_pendingSession None (with_showResumeModal false (hook s))
     /\ turns s' = turns s /\ aborted s' = aborted s /\ requests s' = requests s
     /\ forall trace s'',
          runAll s' trace = Some s'' ->
          showResumeModal s'' = false /\ pendingSession s'' = None
          /\ (hasStarted s'' = false ->
              localStorage s'' = None
              /\ forall later,
                   hook (pageLoad (localStorage s'') later) = initialHook)
          /\ (hasStarted s'' = true ->
              localStorage s'' = None
              \/ exists t',
                   localStorage s'' = Some (Session (snapshot t' s''))))
  /\ (showResumeModal s = false -> hasStarted s = false ->
      run s (KeyDown "Escape", t) = Some s)
  /\ (forall key, key <> "Escape" -> run s (KeyDown key, t) = Some s).
Proof.
  intros Hreach. pose proof (reachable_committed _ _ _ Hreach) as Hs.
  split; [ | split].
  - intros Hshow. exists (commit t (handleStartFresh s)).
    assert (Hrun : run s (CallHandleStartFresh, t)
                   = Some (commit t (handleStartFresh s))) by reflexivity.
    split; [exact Hrun | ].
    split; [unfold run, step, fst, snd, handleKeyDown; simpl String.eqb;
            now rewrite Hshow | ].
    assert (Hquiet : depsChanged (handleStartFresh s) = false)
      by exact (depsChanged_committed s Hs).
    assert (Hstore : localStorage (commit t (handleStartFresh s)) = None)
      by (rewrite (commit_quiet _ _ Hquiet); reflexivity).
    destruct (commit_flight t (handleStartFresh s)) as (Ht & _ & Ha & _ & Hr).
    pose proof (commit_hook t (handleStartFresh s)) as Hh.
    pose proof (reach_run _ _ _ _ _ Hreach Hrun) as Hreach'.
    clear Hrun.
    generalize dependent (commit t (handleStartFresh s)).
    intros s' Hstore Ht Ha Hr Hh Hreach'.
    split; [exact Hstore | ]. split; [exact Hh | ].
    split; [exact Ht | ]. split; [exact Ha | ]. split; [exact Hr | ].
    assert (Hnone : pendingSession s' = None).
    { change (pendingSession (hook s') = None). now rewrite Hh. }
    assert (Hinv : storageInv None s').
    { pose proof (reachable_storageInv _ _ _ Hreach') as Hstored.
      unfold storageInv in *.
      destruct (hasStarted s'); [exact Hstored | now left]. }
    intros trace s'' Hrest.
    destruct (declined_runAll _ _ _ _ _ Hreach' Hnone Hinv Hrest)
      as (Hreach'' & Hnone'' & Hinv'').
    pose proof (reachable_modalInv _ _ _ Hreach'') as Hmodal.
    unfold modalInv in Hmodal. rewrite Hnone'' in Hmodal.
    split; [exact Hmodal | ]. split; [exact Hnone'' | ].
    unfold storageInv in Hinv''. split.
    + intros Hoff. rewrite Hoff in Hinv''.
      assert (Hempty : localStorage s'' = None) by (now destruct Hinv'').
      split; [exact Hempty | ].
      intros later. rewrite Hempty.
      destruct (pageLoad_cases None later) as [-> _]. reflexivity.
    + intros Hon. rewrite Hon in Hinv''. apply Hinv''.
  - intros Hshow Hidle. unfold run, step, fst, snd, handleKeyDown.
    simpl String.eqb. rewrite Hshow, Hidle. unfold option_map.
    now rewrite (commit_idle t s Hs).
  - intros key Hkey. unfold run, step, fst, snd, handleKeyDown.
    destruct (String.eqb_spec key "Escape") as [Heq | _]; [now elim Hkey | ].
    unfold option_map. now rewrite (commit_idle t s Hs).
Qed.

End Decline.

Lemma declining_discards_stored_session_witness :
  @reachable Sample.engine (Some (Session Sample.savedYesterday)) (23 * Sample.hour)
     Runs.danaComesBack
  /\ showResumeModal Runs.danaComesBack = true
  /\ exists s',
       @run Sample.engine Runs.danaComesBack (KeyDown "Escape", 24 * Sample.hour)
       = Some s'
       /\ localStorage s' = None
       /\ forall trace s'',
            @runAll Sample.engine s' trace = Some s'' ->
            showResumeModal s'' = false.
Proof.
  split; [apply reach_load | ]. split; [reflexivity | ].
  destruct (proj1 (@declining_discards_stored_session Sample.engine
                     (Some (Session Sample.savedYesterday)) (23 * Sample.hour) _
                     (24 * Sample.hour) (@reach_load Sample.engine _ _))
                  eq_refl)
    as (s' & _ & Hkey & Hstore & _ & _ & _ & _ & Hlater).
  exists s'. split; [exact Hkey | ]. split; [exact Hstore | ].
  intros trace s'' Hrun. exact (proj1 (Hlater trace s'' Hrun)).
Defined.

(** A chat begun under the modal is stored again by its next fragment, and
    a page loaded after that offers it: what the decline removed for good is
    the session the modal offered. *)
Example declined_while_streaming :
  exists s' s'' stored,
    @runAll Sample.engine Runs.danaComesBack
      (Runs.chatUnderModal ++ [(KeyDown "Escape", 23 * Sample.hour + 2002)])
    = Some s'
    /\ localStorage s' = None /\ hasStarted s' = true
    /\ @runAll Sample.engine Runs.danaComesBack Runs.declinesWhileStreaming
       = Some s''
    /\ localStorage s'' = Some (Session stored)
    /\ stored = snapshot (23 * Sample.hour + 2003) s''
    /\ option_map content (lastMessage s'') = Some "Hello"
    /\ showResumeModal (pageLoad (localStorage s'') (24 * Sample.hour)) = true.
Proof.
  eexists. eexists. eexists.
  split; [vm_compute; reflexivity | ].
  split; [vm_compute; reflexivity | ]. split; [vm_compute; reflexivity | ].
  split; [vm_compute; reflexivity | ].
  split; [vm_compute; reflexivity | ]. split; [vm_compute; reflexivity | ].
  split; vm_compute; reflexivity.
Qed.
